(** * A shallow embedding of the shop backend (Django + Django REST framework)

    Sources embedded here:
      - shop/models.py       (UserLoginLog, Product, Sale; User comes from
                              django.contrib.auth)
      - shop/serializers.py  (UserSerializer, ProductSerializer, SaleSerializer)
      - shop/views.py        (the six views)
      - shop/urls.py, myproject/urls.py (the routes, including /admin/)

    The views are thin; what they do is decided by the framework calls they
    make.  Those calls are modelled below, each next to the name of the
    framework function it stands for: Python truthiness and [str.strip], the
    [decimal.Decimal] string syntax, the serializer fields that
    [ModelSerializer] derives from the model fields, [authenticate] with the
    default [ModelBackend], [get_object_or_404], and the deletion cascade that
    [on_delete=models.CASCADE] declares.

    Left out of the model (stated once, here):
      - JSON floats, arrays and nested objects as field values; a request body
        is a JSON object whose fields hold null, booleans, integers or strings;
      - non-ASCII text: strings are byte strings, [str.strip] and the username
        pattern look at ASCII only, lengths count bytes;
      - the key derivation of the password hasher (PBKDF2 is a parameter of
        [hashers.PBKDF2PasswordHasher]; where the hasher does not matter it
        is an interface, [PasswordHasher]) and session storage: the session
        is the request's session object. *)

From Stdlib Require Import ZArith NArith String Ascii List Lia Bool.
From stdpp Require Import base option list gmap strings fin_maps pretty sorting.

Local Open Scope string_scope.
Local Open Scope Z_scope.

(* ===================================================================== *)
(** ** Python values and string helpers *)
(* ===================================================================== *)

Module Py.

(** [str.isspace] on ASCII: TAB..CR, FS..US and the space. *)
Definition isspace (c : ascii) : bool :=
  let n := nat_of_ascii c in
  ((9 <=? n)%nat && (n <=? 13)%nat) || ((28 <=? n)%nat && (n <=? 32)%nat).

Definition isdigit (c : ascii) : bool :=
  let n := nat_of_ascii c in (48 <=? n)%nat && (n <=? 57)%nat.

Definition digit_value (c : ascii) : N := N.of_nat (nat_of_ascii c - 48).

Fixpoint lstrip (s : string) : string :=
  match s with
  | String c s' => if isspace c then lstrip s' else s
  | EmptyString => EmptyString
  end.

Fixpoint rstrip (s : string) : string :=
  match s with
  | String c s' =>
      match rstrip s' with
      | EmptyString => if isspace c then EmptyString else String c EmptyString
      | r => String c r
      end
  | EmptyString => EmptyString
  end.

(** [str.strip()] *)
Definition strip (s : string) : string := rstrip (lstrip s).

(** [s.replace(c, "")] for a single character *)
Fixpoint remove_char (c : ascii) (s : string) : string :=
  match s with
  | String d s' => if Ascii.eqb c d then remove_char c s' else String d (remove_char c s')
  | EmptyString => EmptyString
  end.

Fixpoint contains_char (c : ascii) (s : string) : bool :=
  match s with
  | String d s' => Ascii.eqb c d || contains_char c s'
  | EmptyString => false
  end.

(** The longest prefix of decimal digits, and what follows it. *)
Fixpoint span_digits (s : string) : string * string :=
  match s with
  | String c s' =>
      if isdigit c then let '(ds, rest) := span_digits s' in (String c ds, rest)
      else (EmptyString, s)
  | EmptyString => (EmptyString, EmptyString)
  end.

(** [str.isdecimal] on ASCII: digits only. *)
Fixpoint isdecimal (s : string) : bool :=
  match s with
  | String c s' => isdigit c && isdecimal s'
  | EmptyString => true
  end.

(** The number a string of digits denotes (most significant first). *)
Fixpoint digits_value (acc : N) (ds : string) : N :=
  match ds with
  | String c ds' => digits_value (10 * acc + digit_value c)%N ds'
  | EmptyString => acc
  end.

(** [len(str(n))] for a natural number: the number of decimal digits. *)
Definition ndigits (n : N) : nat := String.length (pretty n).

(** An optional sign ([true] for a minus), and the rest of the string. *)
Definition take_sign (s : string) : bool * string :=
  match s with
  | String "-" s' => (true, s')
  | String "+" s' => (false, s')
  | _ => (false, s)
  end.

(** Digits with single underscores allowed between two digits, as [int()]
    accepts them; [prev] tells whether the previous character was a digit. *)
Fixpoint int_digits (prev : bool) (acc : N) (s : string) : option N :=
  match s with
  | EmptyString => if prev then Some acc else None
  | String c s' =>
      if isdigit c then int_digits true (10 * acc + digit_value c)%N s'
      else if Ascii.eqb c "_" then (if prev then int_digits false acc s' else None)
      else None
  end.

(** The whitespace of [int()] on ASCII text ([Py_ISSPACE]): TAB..CR and the
    space, but not FS..US, which [str.strip] does take. *)
Definition isspace_c (c : ascii) : bool :=
  let n := nat_of_ascii c in ((9 <=? n)%nat && (n <=? 13)%nat) || (n =? 32)%nat.

Fixpoint lstrip_c (s : string) : string :=
  match s with
  | String c s' => if isspace_c c then lstrip_c s' else s
  | EmptyString => EmptyString
  end.

Fixpoint rstrip_c (s : string) : string :=
  match s with
  | String c s' =>
      match rstrip_c s' with
      | EmptyString => if isspace_c c then EmptyString else String c EmptyString
      | r => String c r
      end
  | EmptyString => EmptyString
  end.

(** The number of digit characters of a string. *)
Fixpoint count_digits (s : string) : nat :=
  match s with
  | String c s' => if isdigit c then S (count_digits s') else count_digits s'
  | EmptyString => 0%nat
  end.

(** [sys.int_info.default_max_str_digits]: [int()] refuses a string with
    more digit characters than this (underscores and the sign are not
    counted, leading zeros are). *)
Definition max_str_digits : nat := 4300.

(** [int(s)] in base ten; [None] stands for [ValueError]. *)
Definition int_of_str (s : string) : option Z :=
  let '(neg, body) := take_sign (rstrip_c (lstrip_c s)) in
  match body with
  | EmptyString => None
  | _ =>
      match int_digits false 0%N body with
      | Some n =>
          if (max_str_digits <? count_digits body)%nat then None
          else Some (if neg then - Z.of_N n else Z.of_N n)
      | None => None
      end
  end.


End Py.

(* ===================================================================== *)
(** ** decimal.Decimal *)
(* ===================================================================== *)

Module Decimal.

(** A finite decimal as [as_tuple()] shows it: sign, coefficient, exponent.
    The digit tuple is the decimal expansion of [coefficient]. *)
Record t := mk { negative : bool; coefficient : N; exponent : Z }.

#[global] Instance t_eq_dec : EqDecision t.
Proof. solve_decision. Defined.

Definition exponent_part (s : string) : option Z :=
  match s with
  | EmptyString => Some 0
  | String c s' =>
      if (Ascii.eqb c "e" || Ascii.eqb c "E")%bool then
        let '(neg, ds) := Py.take_sign s' in
        match Py.span_digits ds with
        | (String _ _ as e, EmptyString) =>
            let n := Z.of_N (Py.digits_value 0%N e) in Some (if neg then - n else n)
        | _ => None
        end
      else None
  end.

(** The limits of the exponent and of the precision in [decimal] (64 bit):
    [MAX_EMAX] and [MAX_PREC]. *)
Definition MAX_EMAX : Z := 999999999999999999.
Definition MAX_PREC : Z := 999999999999999999.

(** A string is converted exactly or not at all: the number must not
    overflow [MAX_EMAX] (by its adjusted exponent) and its exponent must not
    be below [Etiny] of the widest context; otherwise the conversion signals
    [InvalidOperation]. *)
Definition in_range (coefficient : N) (exponent : Z) : bool :=
  (exponent + Z.of_nat (Py.ndigits coefficient) - 1 <=? MAX_EMAX)
  && (- MAX_EMAX - (MAX_PREC - 1) <=? exponent).

(** [decimal.Decimal(s)] for the finite numeric strings: surrounding
    whitespace and all underscores are dropped, then
    [sign] (digits [. digits] | . digits) [E [sign] digits].
    [None] stands for [InvalidOperation] and also for the infinities and
    NaNs, which the serializer field rejects with the same error. *)
Definition of_str (s : string) : option t :=
  let '(neg, body) := Py.take_sign (Py.remove_char "_" (Py.strip s)) in
  let '(intpart, rest) := Py.span_digits body in
  let '(fracpart, rest') :=
    match rest with
    | String "." r => Py.span_digits r
    | _ => (EmptyString, rest)
    end in
  match intpart ++ fracpart with
  | EmptyString => None
  | ds =>
      match exponent_part rest' with
      | Some e =>
          let coefficient := Py.digits_value 0%N ds in
          let exponent := e - Z.of_nat (String.length fracpart) in
          if in_range coefficient exponent then Some (mk neg coefficient exponent) else None
      | None => None
      end
  end.

(** The value of a decimal as an integer count of units of 10^-places;
    exact when [- places <= exponent].  This is what the database keeps of a
    decimal: a number, so a negative zero is stored as zero. *)
Definition unscaled (places : nat) (d : t) : Z :=
  let m := Z.of_N (coefficient d) * 10 ^ (exponent d + Z.of_nat places) in
  if negative d then - m else m.

(** [Decimal.quantize] to [places] fraction digits: the same number with
    exponent [- places], and the same sign, also when the number is zero. *)
Definition quantize (places : nat) (d : t) : t :=
  mk (negative d) (Z.to_N (Z.abs (unscaled places d))) (- Z.of_nat places).

(** The decimal that is read from a column holding [q] units of
    10^-places. *)
Definition from_db (places : nat) (q : Z) : t :=
  mk (q <? 0) (Z.to_N (Z.abs q)) (- Z.of_nat places).

(** ['{:f}'.format(q)] of a decimal quantized to [places] > 0 digits. *)
Definition pad_left (width : nat) (s : string) : string :=
  string_of_list_ascii (repeat "0"%char (width - String.length s)) ++ s.

Definition format_f (places : nat) (q : Z) : string :=
  let scale := 10 ^ Z.of_nat places in
  let a := Z.abs q in
  (if q <? 0 then "-" else "") ++ pretty (a / scale) ++ "." ++ pad_left places (pretty (a mod scale)).

(** ['{:f}'.format(d.quantize(...))] of a decimal in memory: the sign of
    the decimal, also of a negative zero, then the digits. *)
Definition to_str (places : nat) (d : t) : string :=
  (if negative d then "-" else "") ++ format_f places (Z.abs (unscaled places d)).

End Decimal.

(* ===================================================================== *)
(** ** Request data *)
(* ===================================================================== *)

(** A field value of a parsed JSON body. *)
Inductive json :=
| JNull
| JBool (b : bool)
| JInt (z : Z)
| JStr (s : string).

#[global] Instance json_eq_dec : EqDecision json.
Proof. solve_decision. Defined.

(** Python's truth value of a parsed field: [not x] is [negb (truthy x)]. *)
Definition truthy (j : json) : bool :=
  match j with
  | JNull => false
  | JBool b => b
  | JInt z => negb (z =? 0)
  | JStr s => negb (String.eqb s "")
  end.

(** [str(x)] *)
Definition py_str (j : json) : string :=
  match j with
  | JNull => "None"
  | JBool true => "True"
  | JBool false => "False"
  | JInt z => pretty z
  | JStr s => s
  end.

(** [request.data.get(key)]: [None] when the key is absent. *)
Definition data_get (key : string) (data : gmap string json) : json :=
  default JNull (data !! key).

(** What a serializer hands to the renderer. *)
Inductive native :=
| NNull
| NBool (b : bool)
| NInt (z : Z)
| NStr (s : string)
| NDateTime (t : Z).   (* the ISO 8601 text of instant [t], kept symbolic *)

#[global] Instance native_eq_dec : EqDecision native.
Proof. solve_decision. Defined.

(** A submitted value and a returned one are the same JSON value. *)
Definition same_json (j : json) (n : native) : bool :=
  match j, n with
  | JNull, NNull => true
  | JBool a, NBool b => Bool.eqb a b
  | JInt a, NInt b => a =? b
  | JStr a, NStr b => String.eqb a b
  | _, _ => false
  end.

(* ===================================================================== *)
(** ** shop/models.py and django.contrib.auth.models.User *)
(* ===================================================================== *)

(** The columns of [auth_user] that this program reads or writes. *)
Module User.
Record t := mk {
  username : string;
  password : string;          (* the encoded hash, as the hasher returns it *)
  is_active : bool;
  last_login : option Z }.
End User.

(** [user = models.ForeignKey(User, on_delete=models.CASCADE)] has no
    [null=True]: the column is NOT NULL, a stored row always has a user. *)
Module UserLoginLog.
Record t := mk {
  user : nat;
  username : string;
  success : bool;
  timestamp : Z }.
End UserLoginLog.

(** [price] is DecimalField(max_digits=10, decimal_places=2), kept as the
    integer number of hundredths. *)
Module Product.
Record t := mk {
  name : string;
  price : Z;
  user : nat }.
End Product.

Module Sale.
Record t := mk {
  product : nat;
  user : nat;
  sale_date : Z }.
End Sale.

#[global] Instance User_eq_dec : EqDecision User.t.
Proof. solve_decision. Defined.
#[global] Instance UserLoginLog_eq_dec : EqDecision UserLoginLog.t.
Proof. solve_decision. Defined.
#[global] Instance Product_eq_dec : EqDecision Product.t.
Proof. solve_decision. Defined.
#[global] Instance Sale_eq_dec : EqDecision Sale.t.
Proof. solve_decision. Defined.

(** The database: one table per model, keyed by primary key, each with the
    last value its AutoField sequence handed out. *)
Record Db := mkDb {
  auth_user : gmap nat User.t;
  auth_user_seq : nat;
  shop_userloginlog : gmap nat UserLoginLog.t;
  shop_userloginlog_seq : nat;
  shop_product : gmap nat Product.t;
  shop_product_seq : nat;
  shop_sale : gmap nat Sale.t;
  shop_sale_seq : nat }.

Definition empty_db : Db := mkDb ∅ 0 ∅ 0 ∅ 0 ∅ 0.

Definition set_auth_user (f : gmap nat User.t → gmap nat User.t) (db : Db) : Db :=
  mkDb (f (auth_user db)) (auth_user_seq db)
       (shop_userloginlog db) (shop_userloginlog_seq db)
       (shop_product db) (shop_product_seq db)
       (shop_sale db) (shop_sale_seq db).

Definition set_shop_product (f : gmap nat Product.t → gmap nat Product.t) (db : Db) : Db :=
  mkDb (auth_user db) (auth_user_seq db)
       (shop_userloginlog db) (shop_userloginlog_seq db)
       (f (shop_product db)) (shop_product_seq db)
       (shop_sale db) (shop_sale_seq db).

Definition set_shop_sale (f : gmap nat Sale.t → gmap nat Sale.t) (db : Db) : Db :=
  mkDb (auth_user db) (auth_user_seq db)
       (shop_userloginlog db) (shop_userloginlog_seq db)
       (shop_product db) (shop_product_seq db)
       (f (shop_sale db)) (shop_sale_seq db).

(** The per-request context that is not data: the clock read by
    [timezone.now()] / [auto_now_add], and the salt the hasher draws. *)
Record Env := mkEnv { now : Z; salt : string }.

(** The request's session object; [login()] stores the user's key in it. *)
Record Session := mkSession { auth_user_id : option nat }.

(* ===================================================================== *)
(** ** Exceptions, results and responses *)
(* ===================================================================== *)

(** The [code] of a rest_framework / django ValidationError. *)
Module code.
Inductive t :=
| required | null | blank | invalid | max_length | null_characters_not_allowed
| unique | max_string_length | max_digits | max_decimal_places
| max_whole_digits | does_not_exist | incorrect_type.
End code.
Abbreviation error_code := code.t.

#[global] Instance error_code_eq_dec : EqDecision error_code.
Proof. solve_decision. Defined.

(** [serializer.errors]: field name to the codes raised for it, in field order. *)
Definition error_dict := list (string * list error_code).

Inductive exn :=
| Http404                               (* get_object_or_404 *)
| ValidationError (detail : error_dict) (* is_valid(raise_exception=True) *)
| IntegrityError                        (* a constraint of the database *)
| TypeError.                            (* a missing keyword argument *)

Inductive result (A : Type) :=
| Return (a : A)
| Raise (e : exn).
Arguments Return {A} a.
Arguments Raise {A} e.

(** Code that reads and writes the database and may raise. *)
Definition orm (A : Type) : Type := Db → Db * result A.

#[global] Instance orm_ret : MRet orm := λ A a db, (db, Return a).
#[global] Instance orm_bind : MBind orm := λ A B k m db,
  match m db with
  | (db', Return a) => k a db'
  | (db', Raise e) => (db', Raise e)
  end.

Definition raise {A} (e : exn) : orm A := λ db, (db, Raise e).
Definition query {A} (f : Db → A) : orm A := λ db, (db, Return (f db)).
Definition execute (f : Db → Db) : orm unit := λ db, (f db, Return tt).

(** The body of a [rest_framework.response.Response]. *)
Inductive payload :=
| Object (fields : list (string * native))            (* serializer.data *)
| ObjectList (rows : list (list (string * native)))   (* many=True *)
| Empty                                               (* no data: Response(status=...) *)
| Message (key text : string)                         (* {"key": "text"} *)
| Errors (detail : error_dict)                        (* serializer.errors *)
| NotFound                                            (* the 404 detail *)
| Redirect                                            (* a redirect of the admin *)
| ServerError.                                        (* an unhandled exception *)

Record Response := mkResponse { data : payload; status_code : nat }.

Definition HTTP_200_OK : nat := 200.
Definition HTTP_201_CREATED : nat := 201.
Definition HTTP_204_NO_CONTENT : nat := 204.
Definition HTTP_400_BAD_REQUEST : nat := 400.
Definition HTTP_404_NOT_FOUND : nat := 404.
Definition HTTP_500_INTERNAL_SERVER_ERROR : nat := 500.

(** [APIView.handle_exception]: Http404 and ValidationError become 404 and
    400 responses; anything else propagates and the server answers 500. *)
Definition handle_exception (e : exn) : Response :=
  match e with
  | Http404 => mkResponse NotFound HTTP_404_NOT_FOUND
  | ValidationError detail => mkResponse (Errors detail) HTTP_400_BAD_REQUEST
  | IntegrityError | TypeError => mkResponse ServerError HTTP_500_INTERNAL_SERVER_ERROR
  end.

(** [APIView.dispatch] around a handler. *)
Definition dispatch (handler : orm Response) (db : Db) : Db * Response :=
  match handler db with
  | (db', Return r) => (db', r)
  | (db', Raise e) => (db', handle_exception e)
  end.

(* ===================================================================== *)
(** ** django.contrib.auth: hashers, the user manager, authenticate, login *)
(* ===================================================================== *)

(** A password hasher (django.contrib.auth.hashers.BasePasswordHasher):
    [encode password salt] is the text stored in [auth_user.password],
    [verify password encoded] checks a raw password against it. *)
Module hashers.

Class PasswordHasher := {
  encode : string → string → string;
  verify : string → string → bool }.

(** What is expected of a hasher: it accepts what it encoded, and the encoded
    text is never the raw password. *)
Class Laws (H : PasswordHasher) : Prop := {
  verify_encode : ∀ password salt, verify password (encode password salt) = true;
  encode_not_plain : ∀ password salt, encode password salt ≠ password }.

(** [PBKDF2PasswordHasher], the first of the default PASSWORD_HASHERS and so
    the hasher of [make_password].  The key derivation itself (PBKDF2 with
    HMAC-SHA256, printed in base64) is a parameter,
    [pbkdf2 password salt iterations], and so is the iteration count, which
    differs between releases.  Nothing is assumed of either. *)
Section PBKDF2.
Variable pbkdf2 : string → string → nat → string.
Variable iterations : nat.






End PBKDF2.


End hashers.
Abbreviation PasswordHasher := hashers.PasswordHasher.

(** [Model.objects.all()], evaluated: the rows of a table with their keys.
    The models declare no ordering, so the database decides the order of the
    rows; a scan of the table gives them by ascending primary key. *)
Definition pk_le {A} (r1 r2 : nat * A) : Prop := (r1.1 ≤ r2.1)%nat.

#[global] Instance pk_le_dec {A} (r1 r2 : nat * A) : Decision (pk_le r1 r2).
Proof. unfold pk_le. apply _. Defined.

Definition objects_all {A} (table : gmap nat A) : list (nat * A) :=
  merge_sort pk_le (map_to_list table).

(** The rows of a table that satisfy a predicate. *)
Definition select {A} (P : A → bool) (table : gmap nat A) : list (nat * A) :=
  filter (λ row, P row.2 = true) (map_to_list table).

(** [User.objects.get_by_natural_key(username)]; [None] is [DoesNotExist]. *)
Definition get_by_natural_key (username : string) (db : Db) : option (nat * User.t) :=
  head (select (λ u, String.eqb (User.username u) username) (auth_user db)).

Section Auth.
Context {hasher : PasswordHasher}.

(** [make_password(password)] with the salt drawn for this request. *)
Definition make_password (env : Env) (password : string) : string :=
  hashers.encode password (salt env).

(** [User.check_password] *)
Definition check_password (password : string) (u : User.t) : bool :=
  hashers.verify password (User.password u).

(** [authenticate(request, username=..., password=...)] with the default
    ModelBackend: the user of that name, if the password verifies and the
    user is active.  The lookup and the hasher see [str()] of what they are
    given. *)
Definition authenticate (username password : json) (db : Db) : option (nat * User.t) :=
  match get_by_natural_key (py_str username) db with
  | None => None
  | Some (pk, u) =>
      if check_password (py_str password) u && User.is_active u
      then Some (pk, u) else None
  end.

(** [User.objects.create_user(username=..., password=...)]: a new active
    user whose password column holds the hash.  [auth_user.username] is
    UNIQUE: the INSERT of a name that is taken raises IntegrityError. *)
Definition create_user (env : Env) (username password : string) : orm (nat * User.t) :=
  λ db,
    match get_by_natural_key username db with
    | Some _ => (db, Raise IntegrityError)
    | None =>
        let pk := S (auth_user_seq db) in
        let u := User.mk username (make_password env password) true None in
        (mkDb (<[pk := u]> (auth_user db)) pk
              (shop_userloginlog db) (shop_userloginlog_seq db)
              (shop_product db) (shop_product_seq db)
              (shop_sale db) (shop_sale_seq db),
         Return (pk, u))
    end.

End Auth.

(** [login(request, user)]: the session now belongs to the user, and the
    [user_logged_in] signal stamps [last_login]. *)
Definition update_last_login (env : Env) (u : User.t) : User.t :=
  User.mk (User.username u) (User.password u) (User.is_active u) (Some (now env)).

Definition login (env : Env) (pk : nat) (session : Session) : orm Session :=
  _ ← execute (set_auth_user (alter (update_last_login env) pk));
  mret (mkSession (Some pk)).

(* ===================================================================== *)
(** ** Managers: objects.create, get_object_or_404, delete *)
(* ===================================================================== *)

Definition user_exists (pk : nat) (db : Db) : bool := bool_decide (is_Some (auth_user db !! pk)).
Definition product_exists (pk : nat) (db : Db) : bool := bool_decide (is_Some (shop_product db !! pk)).

(** [UserLoginLog.objects.create(user=..., username=..., success=...,
    timestamp=...)].  The keyword [user] may be left out, which leaves the
    attribute at None; the INSERT then breaks the NOT NULL constraint of
    [user_id].  [timestamp] is overwritten by [auto_now_add]. *)
Definition UserLoginLog_objects_create
    (env : Env) (user : option nat) (username : string) (success : bool) : orm nat :=
  λ db,
    match user with
    | None => (db, Raise IntegrityError)
    | Some uid =>
        if user_exists uid db then
          let pk := S (shop_userloginlog_seq db) in
          let row := UserLoginLog.mk uid username success (now env) in
          (mkDb (auth_user db) (auth_user_seq db)
                (<[pk := row]> (shop_userloginlog db)) pk
                (shop_product db) (shop_product_seq db)
                (shop_sale db) (shop_sale_seq db),
           Return pk)
        else (db, Raise IntegrityError)
    end.

(** [Product.objects.create(name=..., price=..., user=...)] *)
Definition Product_objects_create (p : Product.t) : orm nat :=
  λ db,
    if user_exists (Product.user p) db then
      let pk := S (shop_product_seq db) in
      (mkDb (auth_user db) (auth_user_seq db)
            (shop_userloginlog db) (shop_userloginlog_seq db)
            (<[pk := p]> (shop_product db)) pk
            (shop_sale db) (shop_sale_seq db),
       Return pk)
    else (db, Raise IntegrityError).

(** [Sale.objects.create(product=..., user=...)]; [sale_date] is
    [auto_now_add]: the clock at the time of the INSERT. *)
Definition Sale_objects_create (env : Env) (product user : nat) : orm nat :=
  λ db,
    if product_exists product db && user_exists user db then
      let pk := S (shop_sale_seq db) in
      (mkDb (auth_user db) (auth_user_seq db)
            (shop_userloginlog db) (shop_userloginlog_seq db)
            (shop_product db) (shop_product_seq db)
            (<[pk := Sale.mk product user (now env)]> (shop_sale db)) pk,
       Return pk)
    else (db, Raise IntegrityError).

(** [get_object_or_404(Model, pk=pk)] *)
Definition get_object_or_404 {A} (table : Db → gmap nat A) (pk : nat) : orm A :=
  λ db,
    match table db !! pk with
    | Some row => (db, Return row)
    | None => (db, Raise Http404)
    end.

(** [instance.save()] of a product that is in the table: an UPDATE. *)
Definition Product_save (pk : nat) (p : Product.t) : orm unit :=
  λ db,
    if user_exists (Product.user p) db
    then (set_shop_product (<[pk := p]>) db, Return tt)
    else (db, Raise IntegrityError).

(** [product.delete()]: the row goes, and with it every Sale whose
    [product] points to it (Sale.product is on_delete=CASCADE). *)
Definition Product_delete (pk : nat) : orm unit :=
  execute (λ db,
    set_shop_sale (filter (λ kv, Sale.product kv.2 ≠ pk))
      (set_shop_product (delete pk) db)).

(** [user.delete()]: the row goes, and with it what the four CASCADE foreign
    keys of models.py reach: the user's login log rows, the user's products,
    the user's sales, and the sales of those products. *)
Definition User_delete (pk : nat) : orm unit :=
  execute (λ db,
    let gone := filter (λ kv, Product.user kv.2 = pk) (shop_product db) in
    mkDb (delete pk (auth_user db)) (auth_user_seq db)
         (filter (λ kv, UserLoginLog.user kv.2 ≠ pk) (shop_userloginlog db))
         (shop_userloginlog_seq db)
         (filter (λ kv, Product.user kv.2 ≠ pk) (shop_product db))
         (shop_product_seq db)
         (filter (λ kv, Sale.user kv.2 ≠ pk ∧ gone !! Sale.product kv.2 = None)
                 (shop_sale db))
         (shop_sale_seq db)).

(* ===================================================================== *)
(** ** django.db.models: the field declarations of the models *)
(* ===================================================================== *)

Module models.

(** The target of a ForeignKey. *)
Inductive target := to_User | to_Product.

(** A model field, with the options that models.py (and auth's User) set.
    Every ForeignKey of this program is [on_delete=CASCADE] and not null. *)
Inductive Field :=
| AutoField
| CharField (max_length : nat) (unique username_validator : bool)
| DecimalField (max_digits decimal_places : nat)
| ForeignKey (to : target)
| BooleanField
| DateTimeField (auto_now_add : bool).

(** [auto_now_add=True] makes the field non-editable. *)
Definition editable (f : Field) : bool :=
  match f with
  | DateTimeField true => false
  | _ => true
  end.

Definition User_meta : list (string * Field) :=
  [ ("id", AutoField);
    ("password", CharField 128 false false);
    ("last_login", DateTimeField false);
    ("username", CharField 150 true true);
    ("is_active", BooleanField) ].

Definition UserLoginLog_meta : list (string * Field) :=
  [ ("id", AutoField);
    ("user", ForeignKey to_User);
    ("username", CharField 150 false false);
    ("success", BooleanField);
    ("timestamp", DateTimeField true) ].

Definition Product_meta : list (string * Field) :=
  [ ("id", AutoField);
    ("name", CharField 255 false false);
    ("price", DecimalField 10 2);
    ("user", ForeignKey to_User) ].

Definition Sale_meta : list (string * Field) :=
  [ ("id", AutoField);
    ("product", ForeignKey to_Product);
    ("user", ForeignKey to_User);
    ("sale_date", DateTimeField true) ].

End models.

(** A validated or stored attribute value. *)
Inductive value :=
| VInt (z : Z)
| VBool (b : bool)
| VStr (s : string)
| VDecimal (d : Decimal.t)     (* quantized to the decimal places of the field *)
| VRef (pk : nat)              (* a related object, by primary key *)
| VDateTime (t : Z).

#[global] Instance value_eq_dec : EqDecision value.
Proof. solve_decision. Defined.

Definition User_getattr (pk : nat) (u : User.t) (attr : string) : option value :=
  if String.eqb attr "id" then Some (VInt (Z.of_nat pk))
  else if String.eqb attr "username" then Some (VStr (User.username u))
  else if String.eqb attr "password" then Some (VStr (User.password u))
  else if String.eqb attr "is_active" then Some (VBool (User.is_active u))
  else if String.eqb attr "last_login" then VDateTime <$> User.last_login u
  else None.

Definition Product_getattr (pk : nat) (p : Product.t) (attr : string) : option value :=
  if String.eqb attr "id" then Some (VInt (Z.of_nat pk))
  else if String.eqb attr "name" then Some (VStr (Product.name p))
  else if String.eqb attr "price" then Some (VDecimal (Decimal.from_db 2 (Product.price p)))
  else if String.eqb attr "user" then Some (VRef (Product.user p))
  else None.

Definition Sale_getattr (pk : nat) (s : Sale.t) (attr : string) : option value :=
  if String.eqb attr "id" then Some (VInt (Z.of_nat pk))
  else if String.eqb attr "product" then Some (VRef (Sale.product s))
  else if String.eqb attr "user" then Some (VRef (Sale.user s))
  else if String.eqb attr "sale_date" then Some (VDateTime (Sale.sale_date s))
  else None.

(* ===================================================================== *)
(** ** rest_framework.serializers *)
(* ===================================================================== *)

Module serializers.

Inductive validator :=
| UnicodeUsernameValidator          (* ^[\w.@+-]+\Z, code invalid *)
| UniqueValidator                   (* no auth_user row has this username *)
| MaxLengthValidator (limit : nat)
| ProhibitNullCharactersValidator.

Inductive field_class :=
| IntegerField
| BooleanField
| CharField (validators : list validator)
| DecimalField (max_digits decimal_places : nat)
| PrimaryKeyRelatedField (queryset : models.target)
| DateTimeField.

Record Field := mkField {
  field_name : string;
  class : field_class;
  read_only : bool;
  write_only : bool }.

(** [class Meta] of a ModelSerializer: the model, [fields],
    [read_only_fields], and the names that [extra_kwargs] marks write_only. *)
Record Meta := mkMeta {
  model : list (string * models.Field);
  fields : list string;
  read_only_fields : list string;
  write_only_fields : list string }.

Definition mem (x : string) (l : list string) : bool := existsb (String.eqb x) l.

Definition lookup_field (name : string) (meta : list (string * models.Field))
    : option models.Field :=
  snd <$> find (λ nf, String.eqb name nf.1) meta.

(** [ModelSerializer.build_field] with [get_field_kwargs]: the serializer
    field class for a model field.  A model CharField keeps its own
    validators, then the unique check; CharField itself appends the length
    and null-character validators. *)
Definition build_class (f : models.Field) : field_class :=
  match f with
  | models.AutoField => IntegerField
  | models.BooleanField => BooleanField
  | models.CharField max_length unique username_validator =>
      CharField ((if username_validator then [UnicodeUsernameValidator] else [])
                 ++ (if unique then [UniqueValidator] else [])
                 ++ [MaxLengthValidator max_length; ProhibitNullCharactersValidator])
  | models.DecimalField max_digits decimal_places => DecimalField max_digits decimal_places
  | models.ForeignKey to => PrimaryKeyRelatedField to
  | models.DateTimeField _ => DateTimeField
  end.

(** A field is read-only when the model field is an AutoField or is not
    editable, or when Meta lists it in [read_only_fields]. *)
Definition build_field (meta : Meta) (name : string) : option Field :=
  f ← lookup_field name (model meta);
  Some (mkField name (build_class f)
          (match f with models.AutoField => true | _ => negb (models.editable f) end
           || mem name (read_only_fields meta))
          (mem name (write_only_fields meta))).

Definition get_fields (meta : Meta) : list Field := omap (build_field meta) (fields meta).

(** *** Validation *)

Definition is_username_char (c : ascii) : bool :=
  let n := nat_of_ascii c in
  ((48 <=? n)%nat && (n <=? 57)%nat) || ((65 <=? n)%nat && (n <=? 90)%nat)
  || ((97 <=? n)%nat && (n <=? 122)%nat)
  || Ascii.eqb c "_" || Ascii.eqb c "." || Ascii.eqb c "@" || Ascii.eqb c "+" || Ascii.eqb c "-".

Definition username_matches (s : string) : bool :=
  negb (String.eqb s "") && forallb is_username_char (list_ascii_of_string s).

Definition run_validator (db : Db) (value : string) (v : validator) : list error_code :=
  match v with
  | UnicodeUsernameValidator => if username_matches value then [] else [code.invalid]
  | UniqueValidator =>
      match get_by_natural_key value db with Some _ => [code.unique] | None => [] end
  | MaxLengthValidator limit =>
      if (limit <? String.length value)%nat then [code.max_length] else []
  | ProhibitNullCharactersValidator =>
      if Py.contains_char "000"%char value then [code.null_characters_not_allowed] else []
  end.

(** [Field.run_validators]: every validator runs, the errors add up. *)
Definition run_validators (db : Db) (vs : list validator) (value : string) : list error_code :=
  flat_map (run_validator db value) vs.

(** [DecimalField.validate_precision] *)
Definition validate_precision (max_digits decimal_places : nat) (d : Decimal.t)
    : option error_code :=
  let len := Z.of_nat (Py.ndigits (Decimal.coefficient d)) in
  let e := Decimal.exponent d in
  let '(total_digits, whole_digits, places) :=
    if 0 <=? e then (len + e, len + e, 0)
    else if Z.abs e <? len then (len, len - Z.abs e, Z.abs e)
    else (Z.abs e, 0, Z.abs e) in
  if Z.of_nat max_digits <? total_digits then Some code.max_digits
  else if Z.of_nat decimal_places <? places then Some code.max_decimal_places
  else if Z.of_nat max_digits - Z.of_nat decimal_places <? whole_digits
  then Some code.max_whole_digits
  else None.

Definition MAX_STRING_LENGTH : nat := 1000.

Definition queryset_exists (to : models.target) (pk : nat) (db : Db) : bool :=
  match to with
  | models.to_User => user_exists pk db
  | models.to_Product => product_exists pk db
  end.

(** What [run_validation] does with one field of the input. *)
Inductive outcome :=
| SkipField
| Valid (v : value)
| Invalid (codes : list error_code).

Definition fail (code : error_code) : outcome := Invalid [code].

(** [to_internal_value] of each field class, on a value that is present
    and not None.  IntegerField, BooleanField and DateTimeField are not
    parsed here: this program only has them read-only (lemma
    [writable_classes]), and a read-only field is never validated. *)
Definition field_to_internal_value (c : field_class) (db : Db) (data : json) : outcome :=
  match c with
  | CharField validators =>
      match data with
      | JBool _ | JNull => fail code.invalid
      | _ =>
          let value := Py.strip (py_str data) in
          match run_validators db validators value with
          | [] => Valid (VStr value)
          | codes => Invalid codes
          end
      end
  | DecimalField max_digits decimal_places =>
      let text := Py.strip (py_str data) in
      if (MAX_STRING_LENGTH <? String.length text)%nat then fail code.max_string_length
      else match Decimal.of_str text with
           | None => fail code.invalid
           | Some d =>
               match validate_precision max_digits decimal_places d with
               | Some code => fail code
               | None => Valid (VDecimal (Decimal.quantize decimal_places d))
               end
           end
  | PrimaryKeyRelatedField queryset =>
      let get (pk : Z) :=
        if (0 <=? pk) && queryset_exists queryset (Z.to_nat pk) db
        then Valid (VRef (Z.to_nat pk)) else fail code.does_not_exist in
      match data with
      | JBool _ | JNull => fail code.incorrect_type
      | JInt pk => get pk
      | JStr s =>
          match Py.int_of_str s with
          | Some pk => get pk
          | None => fail code.incorrect_type
          end
      end
  | IntegerField | BooleanField | DateTimeField => fail code.invalid
  end.

(** [Field.run_validation] on [field.get_value(data)], where [None] is the
    [empty] marker of an absent key.  CharField tests for blank text first;
    a related field reads the empty string as None.  Every writable field
    of this program is required and not nullable. *)
Definition run_validation (f : Field) (partial : bool) (db : Db) (data : option json)
    : outcome :=
  let is_blank :=
    match class f, data with
    | CharField _, Some (JStr s) => String.eqb (Py.strip s) ""
    | _, _ => false
    end in
  let data :=
    match class f, data with
    | PrimaryKeyRelatedField _, Some (JStr "") => Some JNull
    | _, _ => data
    end in
  if is_blank then fail code.blank
  else if read_only f then SkipField
  else match data with
       | None => if partial then SkipField else fail code.required
       | Some JNull => fail code.null
       | Some j => field_to_internal_value (class f) db j
       end.

Definition writable_fields (fs : list Field) : list Field :=
  filter (λ f, read_only f = false) fs.

Definition readable_fields (fs : list Field) : list Field :=
  filter (λ f, write_only f = false) fs.

(** The loop of [Serializer.to_internal_value]: the errors and the
    validated values of the fields, in field order. *)
Fixpoint validate_fields (fs : list Field) (partial : bool) (db : Db)
    (data : gmap string json) : error_dict * gmap string value :=
  match fs with
  | [] => ([], ∅)
  | f :: fs' =>
      let '(errors, ret) := validate_fields fs' partial db data in
      match run_validation f partial db (data !! field_name f) with
      | SkipField => (errors, ret)
      | Valid v => (errors, <[field_name f := v]> ret)
      | Invalid codes => ((field_name f, codes) :: errors, ret)
      end
  end.

(** [Serializer.to_internal_value]: [inl] is the raised ValidationError. *)
Definition to_internal_value (fs : list Field) (partial : bool) (db : Db)
    (data : gmap string json) : error_dict + gmap string value :=
  match validate_fields (writable_fields fs) partial db data with
  | ([], ret) => inr ret
  | (errors, _) => inl errors
  end.

Definition is_valid (fs : list Field) (partial : bool) (db : Db)
    (data : gmap string json) : bool :=
  match to_internal_value fs partial db data with inr _ => true | inl _ => false end.

(** *** Representation *)

Definition field_to_representation (c : field_class) (v : value) : native :=
  match c, v with
  | IntegerField, VInt z => NInt z
  | BooleanField, VBool b => NBool b
  | CharField _, VStr s => NStr s
  | DecimalField _ decimal_places, VDecimal d => NStr (Decimal.to_str decimal_places d)
  | PrimaryKeyRelatedField _, VRef pk => NInt (Z.of_nat pk)
  | DateTimeField, VDateTime t => NDateTime t
  | _, _ => NNull
  end.

(** [Serializer.to_representation]: the readable fields of an instance. *)
Definition to_representation (fs : list Field) (getattr : string → option value)
    : list (string * native) :=
  map (λ f, (field_name f,
             match getattr (field_name f) with
             | Some v => field_to_representation (class f) v
             | None => NNull
             end))
      (readable_fields fs).

End serializers.


(* ===================================================================== *)
(** ** shop/serializers.py *)
(* ===================================================================== *)

(** [ModelSerializer.create]/[update] receive [validated_data] as keyword
    arguments.  After validation every required key is there with a value of
    the field's type (see [validated_Product], [validated_Sale],
    [validated_User]); the other branches stand for the exception Python or
    the database would raise, and are not reached from the views. *)

Module UserSerializer.

Definition Meta : serializers.Meta :=
  serializers.mkMeta models.User_meta ["id"; "username"; "password"] [] ["password"].

Definition fields : list serializers.Field := serializers.get_fields Meta.

Definition to_representation (pk : nat) (u : User.t) : list (string * native) :=
  serializers.to_representation fields (User_getattr pk u).

Section create.
Context {hasher : PasswordHasher}.

(** [User.objects.create_user] called with [validated_data] as keywords *)
Definition create (env : Env) (validated_data : gmap string value) : orm (nat * User.t) :=
  match validated_data !! "username", validated_data !! "password" with
  | Some (VStr username), Some (VStr password) => create_user env username password
  | _, _ => raise TypeError
  end.

End create.
End UserSerializer.

Module ProductSerializer.

Definition Meta : serializers.Meta :=
  serializers.mkMeta models.Product_meta ["id"; "name"; "price"; "user"] [] [].

Definition fields : list serializers.Field := serializers.get_fields Meta.

Definition to_representation (pk : nat) (p : Product.t) : list (string * native) :=
  serializers.to_representation fields (Product_getattr pk p).

(** [serializer.data] after [save()]: the representation of the instance
    in memory.  Its attributes are the validated values where one was set,
    and what the row holds elsewhere.  So a validated price of negative zero
    is printed with its sign here, while the row holds a zero. *)
Definition data (pk : nat) (p : Product.t) (validated_data : gmap string value)
    : list (string * native) :=
  serializers.to_representation fields
    (λ attr, match validated_data !! attr with
             | Some v => Some v
             | None => Product_getattr pk p attr
             end).

(** [Product.objects.create] called with [validated_data] as keywords; the
    row is what the INSERT writes. *)
Definition create (validated_data : gmap string value) : orm (nat * Product.t) :=
  match validated_data !! "name", validated_data !! "price", validated_data !! "user" with
  | Some (VStr name), Some (VDecimal price), Some (VRef user) =>
      let p := Product.mk name (Decimal.unscaled 2 price) user in
      pk ← Product_objects_create p; mret (pk, p)
  | _, _, _ => raise IntegrityError
  end.

(** [setattr(instance, attr, value)] for each validated item: the row that
    [instance.save()] then writes. *)
Definition setattrs (p : Product.t) (validated_data : gmap string value) : Product.t :=
  Product.mk
    (match validated_data !! "name" with Some (VStr name) => name | _ => Product.name p end)
    (match validated_data !! "price" with
     | Some (VDecimal price) => Decimal.unscaled 2 price
     | _ => Product.price p
     end)
    (match validated_data !! "user" with Some (VRef user) => user | _ => Product.user p end).

(** [ModelSerializer.update]: set the attributes, then [instance.save()]. *)
Definition update (pk : nat) (instance : Product.t) (validated_data : gmap string value)
    : orm Product.t :=
  let p := setattrs instance validated_data in
  _ ← Product_save pk p; mret p.

End ProductSerializer.

Module SaleSerializer.

Definition Meta : serializers.Meta :=
  serializers.mkMeta models.Sale_meta ["id"; "product"; "user"; "sale_date"] ["sale_date"] [].

Definition fields : list serializers.Field := serializers.get_fields Meta.

Definition to_representation (pk : nat) (s : Sale.t) : list (string * native) :=
  serializers.to_representation fields (Sale_getattr pk s).

(** [Sale.objects.create] called with [validated_data] as keywords *)
Definition create (env : Env) (validated_data : gmap string value) : orm (nat * Sale.t) :=
  match validated_data !! "product", validated_data !! "user" with
  | Some (VRef product), Some (VRef user) =>
      pk ← Sale_objects_create env product user;
      mret (pk, Sale.mk product user (now env))
  | _, _ => raise IntegrityError
  end.

End SaleSerializer.

(* ===================================================================== *)
(** ** shop/views.py *)
(* ===================================================================== *)

(** [CreateModelMixin.create]: validate with [raise_exception=True], save,
    answer 201 with [serializer.data], which the serializer computes from
    the instance that [save()] left in memory. *)
Definition CreateModelMixin_create {I : Type}
    (fields : list serializers.Field)
    (perform_create : gmap string value → orm I)
    (serializer_data : gmap string value → I → list (string * native))
    (request_data : gmap string json) : orm Response :=
  validation ← query (λ db, serializers.to_internal_value fields false db request_data);
  match validation with
  | inl errors => raise (ValidationError errors)
  | inr validated_data =>
      instance ← perform_create validated_data;
      mret (mkResponse (Object (serializer_data validated_data instance)) HTTP_201_CREATED)
  end.

Module UserCreateView.
Section post.
Context {hasher : PasswordHasher}.

Definition post (env : Env) (request_data : gmap string json) : orm Response :=
  CreateModelMixin_create UserSerializer.fields (UserSerializer.create env)
    (λ _ i, UserSerializer.to_representation i.1 i.2) request_data.

End post.
End UserCreateView.

Module UserLoginView.
Section post.
Context {hasher : PasswordHasher}.

Definition post (env : Env) (request_data : gmap string json) (session : Session)
    : orm (Response * Session) :=
  let username := data_get "username" request_data in
  let password := data_get "password" request_data in
  if negb (truthy username) || negb (truthy password) then
    mret (mkResponse (Message "error" "Username and password are required")
                     HTTP_400_BAD_REQUEST, session)
  else
    user ← query (authenticate username password);
    match user with
    | None =>
        (* Log failed login attempt *)
        _ ← UserLoginLog_objects_create env None (py_str username) false;
        mret (mkResponse (Message "error" "Invalid credentials") HTTP_400_BAD_REQUEST,
              session)
    | Some (pk, _) =>
        (* Log successful login attempt *)
        _ ← UserLoginLog_objects_create env (Some pk) (py_str username) true;
        (* Log the user in *)
        session' ← login env pk session;
        mret (mkResponse (Message "message" "Login successful") HTTP_200_OK, session')
    end.

End post.
End UserLoginView.

Module ProductListView.

(** [ListModelMixin.list] over [Product.objects.all()] *)
Definition get : orm Response :=
  rows ← query (λ db, objects_all (shop_product db));
  mret (mkResponse (ObjectList (map (λ r, ProductSerializer.to_representation r.1 r.2) rows))
                   HTTP_200_OK).

Definition post (request_data : gmap string json) : orm Response :=
  CreateModelMixin_create ProductSerializer.fields ProductSerializer.create
    (λ validated_data i, ProductSerializer.data i.1 i.2 validated_data) request_data.

End ProductListView.

Module ProductDetailView.

Definition get (pk : nat) : orm Response :=
  product ← get_object_or_404 shop_product pk;
  mret (mkResponse (Object (ProductSerializer.to_representation pk product)) HTTP_200_OK).

Definition put (pk : nat) (request_data : gmap string json) : orm Response :=
  product ← get_object_or_404 shop_product pk;
  (* serializer = ProductSerializer(product, data=request.data, partial=True) *)
  validation ← query (λ db,
    serializers.to_internal_value ProductSerializer.fields true db request_data);
  match validation with
  | inr validated_data =>
      product' ← ProductSerializer.update pk product validated_data;
      mret (mkResponse (Object (ProductSerializer.data pk product' validated_data))
                       HTTP_200_OK)
  | inl errors => mret (mkResponse (Errors errors) HTTP_400_BAD_REQUEST)
  end.

Definition delete (pk : nat) : orm Response :=
  _ ← get_object_or_404 shop_product pk;
  _ ← Product_delete pk;
  mret (mkResponse (Message "message" "Product deleted successfully.") HTTP_204_NO_CONTENT).

End ProductDetailView.

Module SaleCreateView.

Definition post (env : Env) (request_data : gmap string json) : orm Response :=
  CreateModelMixin_create SaleSerializer.fields (SaleSerializer.create env)
    (λ _ i, SaleSerializer.to_representation i.1 i.2) request_data.

End SaleCreateView.

Module SaleDetailView.

Definition get (pk : nat) : orm Response :=
  sale ← get_object_or_404 shop_sale pk;
  mret (mkResponse (Object (SaleSerializer.to_representation pk sale)) HTTP_200_OK).

End SaleDetailView.

(* ===================================================================== *)
(** ** The routes: myproject/urls.py and shop/urls.py *)
(* ===================================================================== *)

(** The administrative console is mounted at /admin/ (myproject/urls.py),
    and django.contrib.auth registers User there: its delete view is the one
    place of this system where a user is deleted.  The view deletes through
    the ORM, so the cascades of models.py apply. *)
Module admin.

Definition delete_user (pk : nat) : orm Response :=
  _ ← get_object_or_404 auth_user pk;
  _ ← User_delete pk;
  mret (mkResponse Redirect 302%nat).

End admin.

(** A routed request: method, path and body. *)
Inductive Request :=
| POST_users_create (request_data : gmap string json)    (* api/users/create/ *)
| POST_users_login (request_data : gmap string json)     (* api/users/login/ *)
| GET_products                                           (* api/products/ *)
| POST_products (request_data : gmap string json)
| GET_product (pk : nat)                                 (* api/products/<int:pk>/ *)
| PUT_product (pk : nat) (request_data : gmap string json)
| DELETE_product (pk : nat)
| POST_sales (request_data : gmap string json)           (* api/sales/ *)
| GET_sale (pk : nat)                                    (* api/sales/<int:pk>/ *)
| POST_admin_user_delete (pk : nat).                     (* admin/auth/user/<pk>/delete/ *)

(** The requests served by shop/urls.py. *)
Definition is_api (r : Request) : bool :=
  match r with POST_admin_user_delete _ => false | _ => true end.

(** The server's state between requests: the database and the client's
    session. *)
Record State := mkState { db : Db; session : Session }.

Section Server.
Context {hasher : PasswordHasher}.

(** [APIView.dispatch] around the login handler, which also returns the
    session; an exception leaves the session as it was. *)
Definition dispatch_login (env : Env) (request_data : gmap string json) (st : State)
    : State * Response :=
  match UserLoginView.post env request_data (session st) (db st) with
  | (db', Return (r, session')) => (mkState db' session', r)
  | (db', Raise e) => (mkState db' (session st), handle_exception e)
  end.

(** One request, routed to its view and served to completion. *)
Definition serve (env : Env) (r : Request) (st : State) : State * Response :=
  let plain (handler : orm Response) :=
    let '(db', response) := dispatch handler (db st) in
    (mkState db' (session st), response) in
  match r with
  | POST_users_create d => plain (UserCreateView.post env d)
  | POST_users_login d => dispatch_login env d st
  | GET_products => plain ProductListView.get
  | POST_products d => plain (ProductListView.post d)
  | GET_product pk => plain (ProductDetailView.get pk)
  | PUT_product pk d => plain (ProductDetailView.put pk d)
  | DELETE_product pk => plain (ProductDetailView.delete pk)
  | POST_sales d => plain (SaleCreateView.post env d)
  | GET_sale pk => plain (SaleDetailView.get pk)
  | POST_admin_user_delete pk => plain (admin.delete_user pk)
  end.

(** A run of the server: the requests in order, each with its context. *)
Fixpoint run (trace : list (Env * Request)) (st : State) : State :=
  match trace with
  | [] => st
  | (env, r) :: trace' => run trace' (serve env r st).1
  end.

End Server.

(* ===================================================================== *)
(** ** Well-formed databases *)
(* ===================================================================== *)

(** Primary keys come from the sequences, foreign keys point to rows, and no
    two users share a username. *)
Definition keys_in_sequence {A} (table : gmap nat A) (seq : nat) : Prop :=
  map_Forall (λ pk _, (0 < pk ≤ seq)%nat) table.

Definition usernames_unique (users : gmap nat User.t) : Prop :=
  map_Forall (λ pk1 u1,
    map_Forall (λ pk2 u2, User.username u1 = User.username u2 → pk1 = pk2) users) users.

Definition wf_db (d : Db) : Prop :=
  keys_in_sequence (auth_user d) (auth_user_seq d)
  ∧ keys_in_sequence (shop_userloginlog d) (shop_userloginlog_seq d)
  ∧ keys_in_sequence (shop_product d) (shop_product_seq d)
  ∧ keys_in_sequence (shop_sale d) (shop_sale_seq d)
  ∧ map_Forall (λ _ l, is_Some (auth_user d !! UserLoginLog.user l)) (shop_userloginlog d)
  ∧ map_Forall (λ _ p, is_Some (auth_user d !! Product.user p)) (shop_product d)
  ∧ map_Forall (λ _ s, is_Some (shop_product d !! Sale.product s)
                       ∧ is_Some (auth_user d !! Sale.user s)) (shop_sale d)
  ∧ usernames_unique (auth_user d).

#[global] Instance wf_db_dec d : Decision (wf_db d).
Proof. unfold wf_db, keys_in_sequence, usernames_unique. apply _. Defined.

(** A stand-in hasher to run the views on examples where the hasher does
    not matter.  It keeps the layout of an encoded password (algorithm, salt,
    digest, separated by dollar signs) and uses the password itself for the
    digest: enough to satisfy [hashers.Laws], which is all that the proofs
    about logging in ask of a hasher.  What a registration stores is proved
    of [hashers.PBKDF2PasswordHasher]. *)
Module example_hasher.

Fixpoint ends_with (suffix s : string) : bool :=
  String.eqb suffix s
  || match s with
     | String _ s' => ends_with suffix s'
     | EmptyString => false
     end.

#[export] Instance hasher : PasswordHasher := {|
  hashers.encode password salt := "example$" ++ salt ++ "$" ++ password;
  hashers.verify password encoded := ends_with ("$" ++ password) encoded |}.

End example_hasher.

(* ===================================================================== *)
(** ** Relations between the database before and after a computation *)
(* ===================================================================== *)

(** [respects R m]: running [m] takes a database to an [R]-related one,
    whether it returns or raises. *)
Definition respects {A} (R : relation Db) (m : orm A) : Prop := ∀ d, R d (m d).1.

(** The rows with a key up to the sequence value are kept as they are. *)
Definition keeps {A} (table : Db → gmap nat A) (seq : Db → nat) : relation Db :=
  λ d d', (seq d ≤ seq d')%nat ∧ ∀ pk, (pk ≤ seq d)%nat → table d' !! pk = table d !! pk.

(** The rows with a key up to the sequence value are kept as they are or
    deleted: none is altered, and no deleted key comes back. *)
Definition only_deletes {A} (table : Db → gmap nat A) (seq : Db → nat) : relation Db :=
  λ d d', (seq d ≤ seq d')%nat
          ∧ ∀ pk, (pk ≤ seq d)%nat → table d' !! pk = table d !! pk ∨ table d' !! pk = None.

(** A well-formed database stays well formed. *)
Definition wf_kept : relation Db := λ d d', wf_db d → wf_db d'.

(** Sale rows are kept or deleted; log rows are kept. *)
Abbreviation sales := (only_deletes shop_sale shop_sale_seq).
Abbreviation logs := (keeps shop_userloginlog shop_userloginlog_seq).

(** The database after a successful login of user [pk] under [username]. *)
Definition logged_in (env : Env) (pk : nat) (username : string) (d : Db) : Db :=
  mkDb (alter (update_last_login env) pk (auth_user d)) (auth_user_seq d)
       (<[S (shop_userloginlog_seq d) := UserLoginLog.mk pk username true (now env)]>
          (shop_userloginlog d))
       (S (shop_userloginlog_seq d))
       (shop_product d) (shop_product_seq d)
       (shop_sale d) (shop_sale_seq d).


(* ===================================================================== *)
(** ** Example data for the witnesses and counterexamples *)
(* ===================================================================== *)

Module example.
Import example_hasher.

Definition env : Env := mkEnv 1700000000 "Zr4q".


Definition body (items : list (string * json)) : gmap string json := list_to_map items.

Definition fresh_server : State := mkState empty_db (mkSession None).

Definition alice_credentials : gmap string json :=
  body [("username", JStr "alice"); ("password", JStr "s3cret")].

(** alice has registered. *)
Definition alice_registered : State :=
  run [(env, POST_users_create alice_credentials)] fresh_server.

(** alice has registered and logged in once. *)
Definition alice_logged_in : State :=
  run [(env, POST_users_login alice_credentials)] alice_registered.

(** alice has registered and offers a product. *)
Definition alice_sells : State :=
  run [(env, POST_products (body [("name", JStr "Widget"); ("price", JStr "12.50");
                                  ("user", JInt 1)]))]
      alice_registered.

End example.

(* ===================================================================== *)
(** ** The words of the specification *)
(* ===================================================================== *)


(** A validated value has the type of its field, and a validated reference
    points to a row. *)
Definition well_typed (c : serializers.field_class) (d : Db) (v : value) : Prop :=
  match c with
  | serializers.CharField _ => ∃ s, v = VStr s
  | serializers.DecimalField _ _ => ∃ q, v = VDecimal q
  | serializers.PrimaryKeyRelatedField to =>
      ∃ pk, v = VRef pk ∧ serializers.queryset_exists to pk d = true
  | _ => False
  end.

(** [fields[key]] of a serialized object. *)
Definition getitem (key : string) (fields : list (string * native)) : option native :=
  snd <$> find (λ kv, String.eqb key kv.1) fields.

(** The fields of a serializer that take input. *)
Definition name_field : serializers.Field :=
  serializers.mkField "name"
    (serializers.CharField [serializers.MaxLengthValidator 255;
                            serializers.ProhibitNullCharactersValidator]) false false.

Definition price_field : serializers.Field :=
  serializers.mkField "price" (serializers.DecimalField 10 2) false false.

Definition user_field : serializers.Field :=
  serializers.mkField "user" (serializers.PrimaryKeyRelatedField models.to_User) false false.

Definition product_field : serializers.Field :=
  serializers.mkField "product" (serializers.PrimaryKeyRelatedField models.to_Product)
    false false.

Definition username_field : serializers.Field :=
  serializers.mkField "username"
    (serializers.CharField [serializers.UnicodeUsernameValidator;
                            serializers.UniqueValidator;
                            serializers.MaxLengthValidator 150;
                            serializers.ProhibitNullCharactersValidator]) false false.

Definition password_field : serializers.Field :=
  serializers.mkField "password"
    (serializers.CharField [serializers.MaxLengthValidator 128;
                            serializers.ProhibitNullCharactersValidator]) false true.

(** The database after [product.delete()] of the product [pk]. *)
Definition product_deleted (pk : nat) (d : Db) : Db :=
  set_shop_sale (filter (λ kv, Sale.product kv.2 ≠ pk)) (set_shop_product (delete pk) d).

(* ===================================================================== *)
(** ** The database after each kind of successful write *)
(* ===================================================================== *)

(** After [User.objects.create_user] stored a new user with this hash. *)
Definition user_created (username password_hash : string) (d : Db) : Db :=
  mkDb (<[S (auth_user_seq d) := User.mk username password_hash true None]> (auth_user d))
       (S (auth_user_seq d))
       (shop_userloginlog d) (shop_userloginlog_seq d)
       (shop_product d) (shop_product_seq d)
       (shop_sale d) (shop_sale_seq d).

(** After [Product.objects.create] stored [p]. *)
Definition product_created (p : Product.t) (d : Db) : Db :=
  mkDb (auth_user d) (auth_user_seq d)
       (shop_userloginlog d) (shop_userloginlog_seq d)
       (<[S (shop_product_seq d) := p]> (shop_product d)) (S (shop_product_seq d))
       (shop_sale d) (shop_sale_seq d).

(** After [Sale.objects.create] stored [s]. *)
Definition sale_created (s : Sale.t) (d : Db) : Db :=
  mkDb (auth_user d) (auth_user_seq d)
       (shop_userloginlog d) (shop_userloginlog_seq d)
       (shop_product d) (shop_product_seq d)
       (<[S (shop_sale_seq d) := s]> (shop_sale d)) (S (shop_sale_seq d)).

(* ===================================================================== *)
(** ** What models.py asks of a stored product *)
(* ===================================================================== *)

(** [name = CharField(max_length=255)], not blank, and as the serializer
    leaves it: without surrounding whitespace and without NUL characters;
    [price = DecimalField(max_digits=10, decimal_places=2)]: fewer than ten
    digits of hundredths. *)
Definition Product_valid (p : Product.t) : Prop :=
  Product.name p ≠ ""
  ∧ Py.strip (Product.name p) = Product.name p
  ∧ (String.length (Product.name p) ≤ 255)%nat
  ∧ Py.contains_char "000"%char (Product.name p) = false
  ∧ Z.abs (Product.price p) < 10 ^ 10.

Definition products_valid (d : Db) : Prop :=
  map_Forall (λ _ p, Product_valid p) (shop_product d).

#[global] Instance Product_valid_dec p : Decision (Product_valid p).
Proof. unfold Product_valid. apply _. Defined.

#[global] Instance products_valid_dec d : Decision (products_valid d).
Proof. unfold products_valid. apply _. Defined.

(* ===================================================================== *)
(** ** django.urls: routes and their resolution *)
(* ===================================================================== *)

Module urls.

(** A route of [path()] in pieces: literal text and [<int:name>], the one
    converter that this program uses. *)
Inductive piece :=
| Literal (text : string)
| IntConverter (name : string).

(** [s[len(t):]] when [s.startswith(t)] *)
Fixpoint strip_prefix (t s : string) : option string :=
  match t, s with
  | EmptyString, _ => Some s
  | String a t', String b s' => if Ascii.eqb a b then strip_prefix t' s' else None
  | String _ _, EmptyString => None
  end.

(** The pattern [[0-9]+] of the int converter after its first digit, with
    [value] the number read so far: it takes every digit it can and gives
    digits back, one at a time, while what follows does not match.  The
    argument is [int()] of the digits kept. *)
Fixpoint int_match (rest_match : string → option (string * list (string * nat)))
    (name : string) (value : N) (s : string) : option (string * list (string * nat)) :=
  let stop := (λ m, (m.1, (name, N.to_nat value) :: m.2)) <$> rest_match s in
  match s with
  | String c s' =>
      if Py.isdigit c then
        match int_match rest_match name (10 * value + Py.digit_value c)%N s' with
        | Some m => Some m
        | None => stop
        end
      else stop
  | EmptyString => stop
  end.

(** [RoutePattern.match]: the regular expression of the route, matched at
    the start of the path; an endpoint's route also has to reach the end of
    the path.  The result is what is left of the path, and the keyword
    arguments. *)
Fixpoint route_match (is_endpoint : bool) (route : list piece) (s : string)
    : option (string * list (string * nat)) :=
  match route with
  | [] =>
      if is_endpoint then match s with EmptyString => Some (s, []) | String _ _ => None end
      else Some (s, [])
  | Literal text :: route' =>
      match strip_prefix text s with
      | Some s' => route_match is_endpoint route' s'
      | None => None
      end
  | IntConverter name :: route' =>
      match s with
      | String c s' =>
          if Py.isdigit c
          then int_match (route_match is_endpoint route') name (Py.digit_value c) s'
          else None
      | EmptyString => None
      end
  end.

Record ResolverMatch (V : Type) :=
  mkMatch { func : V; kwargs : list (string * nat); url_name : string }.
Arguments mkMatch {V}.
Arguments func {V}.
Arguments kwargs {V}.
Arguments url_name {V}.

(** An entry of a [urlpatterns] list: [path(route, view, name=...)] and
    [path(route, include(...))].  [site] is for [path(route, site.urls)]
    with patterns that are not part of this program: a path that starts
    with the route is handed to them, and what they make of the rest is left
    open. *)
#[warnings="-register-all"]
Inductive url (V : Type) :=
| path (route : list piece) (view : V) (name : string)
| include (route : list piece) (urlpatterns : list (url V))
| site (route : list piece) (urls : V).
Arguments path {V}.
Arguments include {V}.
Arguments site {V}.

(** [URLPattern.resolve] and [URLResolver.resolve]: the first entry that
    matches, the arguments of a prefix added to those of the entry. *)
Fixpoint resolve {V} (u : url V) (s : string) : option (ResolverMatch V) :=
  match u with
  | path route view name =>
      match route_match true route s with
      | Some (_, kw) => Some (mkMatch view kw name)
      | None => None
      end
  | include route urlpatterns =>
      match route_match false route s with
      | Some (rest, kw) =>
          (fix first (ps : list (url V)) : option (ResolverMatch V) :=
             match ps with
             | [] => None
             | p :: ps' =>
                 match resolve p rest with
                 | Some m => Some (mkMatch (func m) (kw ++ kwargs m) (url_name m))
                 | None => first ps'
                 end
             end) urlpatterns
      | None => None
      end
  | site route urls =>
      match route_match false route s with
      | Some (_, kw) => Some (mkMatch urls kw "")
      | None => None
      end
  end.

End urls.

(** The view classes of shop/views.py. *)
Module views.

Inductive APIView :=
| UserCreateView
| UserLoginView
| ProductListView
| ProductDetailView
| SaleCreateView
| SaleDetailView.

End views.

(** What a URL of the project leads to. *)
Inductive callback :=
| as_view (v : views.APIView)
| admin_site_urls
| schema_view_with_ui (renderer : string).

(** shop/urls.py *)
Module shop_urls.
Import urls.

Definition urlpatterns : list (url callback) :=
  [ path [Literal "users/create/"] (as_view views.UserCreateView) "user-create";
    path [Literal "users/login/"] (as_view views.UserLoginView) "user-login";
    path [Literal "products/"] (as_view views.ProductListView) "product-list";
    path [Literal "products/"; IntConverter "pk"; Literal "/"]
         (as_view views.ProductDetailView) "product-detail";
    path [Literal "sales/"] (as_view views.SaleCreateView) "sale-create";
    path [Literal "sales/"; IntConverter "pk"; Literal "/"]
         (as_view views.SaleDetailView) "sale-detail" ].

End shop_urls.

(** myproject/urls.py *)
Module myproject_urls.
Import urls.

Definition urlpatterns : list (url callback) :=
  [ site [Literal "admin/"] admin_site_urls;
    include [Literal "api/"] shop_urls.urlpatterns;
    path [Literal "swagger/"] (schema_view_with_ui "swagger") "schema-swagger-ui";
    path [Literal "redoc/"] (schema_view_with_ui "redoc") "schema-redoc" ].

End myproject_urls.

(** [get_resolver().resolve(request.path_info)]: the root resolver takes the
    leading slash, then come the patterns of the project. *)
Definition resolve (path_info : string) : option (urls.ResolverMatch callback) :=
  urls.resolve (urls.include [urls.Literal "/"] myproject_urls.urlpatterns) path_info.

(* ===================================================================== *)
(** ** django.views.View and rest_framework.views.APIView: the handler of a
       method *)
(* ===================================================================== *)

(** [request.method.lower()]: the names of [http_method_names], and
    anything else. *)
Inductive method :=
| GET | POST | PUT | PATCH | DELETE | HEAD | OPTIONS | TRACE
| other_method (name : string).

(** What [APIView.dispatch] finds for a method on a view class. *)
Inductive handler :=
| view_method (r : Request)        (* a method of the class in shop/views.py *)
| APIView_options                  (* [APIView.options], of every view *)
| http_method_not_allowed          (* no such attribute: 405 *)
| missing_argument.                (* the handler's [pk] is not in kwargs *)

(** [getattr(self, request.method.lower(), self.http_method_not_allowed)],
    applied to the request and the keyword arguments of the URL.  The
    generic views bring [post] (CreateAPIView) and [get], [post]
    (ListCreateAPIView); [View.setup] makes [head] the [get] of a class
    that has one. *)
Definition get_handler (v : views.APIView) (m : method) (kwargs : list (string * nat))
    (request_data : gmap string json) : handler :=
  let with_pk (h : nat → Request) :=
    match snd <$> find (λ kv, String.eqb "pk" kv.1) kwargs with
    | Some pk => view_method (h pk)
    | None => missing_argument
    end in
  match m with
  | OPTIONS => APIView_options
  | _ =>
      match v, m with
      | views.UserCreateView, POST => view_method (POST_users_create request_data)
      | views.UserLoginView, POST => view_method (POST_users_login request_data)
      | views.ProductListView, (GET | HEAD) => view_method GET_products
      | views.ProductListView, POST => view_method (POST_products request_data)
      | views.ProductDetailView, (GET | HEAD) => with_pk GET_product
      | views.ProductDetailView, PUT => with_pk (λ pk, PUT_product pk request_data)
      | views.ProductDetailView, DELETE => with_pk DELETE_product
      | views.SaleCreateView, POST => view_method (POST_sales request_data)
      | views.SaleDetailView, (GET | HEAD) => with_pk GET_sale
      | _, _ => http_method_not_allowed
      end
  end.

(** What the client gets: the response of a handler of shop/views.py, the
    metadata of OPTIONS, or the 405 of a method that the view does not
    have. *)
Inductive HttpResponse :=
| from_view (r : Response)
| options_response
| method_not_allowed_response.

Definition HttpResponse_status (r : HttpResponse) : nat :=
  match r with
  | from_view r => status_code r
  | options_response => 200
  | method_not_allowed_response => 405
  end.

Section Handle.
Context {hasher : PasswordHasher}.

(** One HTTP request to a URL that leads to a view of shop/views.py.
    [None]: the URL leads elsewhere (the admin site, the schema views) or
    nowhere. *)
Definition handle (env : Env) (m : method) (path_info : string)
    (request_data : gmap string json) (st : State) : option (State * HttpResponse) :=
  match resolve path_info with
  | Some (urls.mkMatch (as_view v) kwargs _) =>
      Some match get_handler v m kwargs request_data with
           | view_method r => let '(st', response) := serve env r st in (st', from_view response)
           | APIView_options => (st, options_response)
           | http_method_not_allowed => (st, method_not_allowed_response)
           | missing_argument =>
               (st, from_view (mkResponse ServerError HTTP_500_INTERNAL_SERVER_ERROR))
           end
  | _ => None
  end.

End Handle.



(* ===================================================================== *)
(** * Properties *)
(* ===================================================================== *)

(** ** The monad, unfolded *)

Lemma bind_return {A B} (m : orm A) (k : A → orm B) d d' a :
  m d = (d', Return a) → (m ≫= k) d = k a d'.
Proof. intros E. unfold mbind, orm_bind. by rewrite E. Qed.

Lemma bind_raise {A B} (m : orm A) (k : A → orm B) d d' e :
  m d = (d', Raise e) → (m ≫= k) d = (d', Raise e).
Proof. intros E. unfold mbind, orm_bind. by rewrite E. Qed.

Lemma bind_query {A B} (f : Db → A) (k : A → orm B) d :
  (query f ≫= k) d = k (f d) d.
Proof. reflexivity. Qed.

Lemma bind_execute {B} (f : Db → Db) (k : unit → orm B) d :
  (execute f ≫= k) d = k tt (f d).
Proof. reflexivity. Qed.

Lemma get_object_or_404_found {A} (table : Db → gmap nat A) pk row d :
  table d !! pk = Some row → get_object_or_404 table pk d = (d, Return row).
Proof. intros E. unfold get_object_or_404. by rewrite E. Qed.

Lemma get_object_or_404_missing {A} (table : Db → gmap nat A) pk d :
  table d !! pk = None → get_object_or_404 table pk d = (d, Raise Http404).
Proof. intros E. unfold get_object_or_404. by rewrite E. Qed.

(** ** Sequences hand out fresh keys *)

Lemma keys_in_sequence_fresh {A} (table : gmap nat A) seq :
  keys_in_sequence table seq → table !! S seq = None.
Proof.
  intros Hk. destruct (table !! S seq) as [row|] eqn:E; [|done].
  apply Hk in E. lia.
Qed.

Lemma keys_in_sequence_insert {A} (table : gmap nat A) seq row :
  keys_in_sequence table seq → keys_in_sequence (<[S seq := row]> table) (S seq).
Proof.
  intros Hk. apply map_Forall_insert_2; [lia|].
  eapply map_Forall_impl; [exact Hk|]. simpl. intros. lia.
Qed.

Lemma keys_in_sequence_subseteq {A} (t t' : gmap nat A) seq :
  t' ⊆ t → keys_in_sequence t seq → keys_in_sequence t' seq.
Proof.
  intros Hsub Hk pk row E. apply (Hk pk row).
  by eapply lookup_weaken.
Qed.

Lemma keys_in_sequence_alter {A} (f : A → A) (table : gmap nat A) pk seq :
  keys_in_sequence table seq → keys_in_sequence (alter f pk table) seq.
Proof.
  intros Hk k row E. rewrite lookup_alter in E.
  destruct (decide (pk = k)) as [->|].
  - destruct (table !! k) as [r|] eqn:E'; [|done]. by apply (Hk k r).
  - by apply (Hk k row).
Qed.

Lemma keys_in_sequence_update {A} (table : gmap nat A) pk row seq :
  is_Some (table !! pk) → keys_in_sequence table seq →
  keys_in_sequence (<[pk := row]> table) seq.
Proof.
  intros [old E] Hk. apply map_Forall_insert_2; [|done].
  by apply (Hk pk old).
Qed.

(** ** Every operation keeps the database well formed *)

Lemma is_Some_insert {A} (m : gmap nat A) k v i :
  is_Some (m !! i) → is_Some (<[k := v]> m !! i).
Proof.
  intros Hi. destruct (decide (k = i)) as [->|Hne].
  - rewrite lookup_insert_eq. eauto.
  - by rewrite lookup_insert_ne.
Qed.

Lemma is_Some_alter {A} (f : A → A) (m : gmap nat A) k i :
  is_Some (m !! i) → is_Some (alter f k m !! i).
Proof.
  intros [x E]. rewrite lookup_alter. destruct (decide (k = i)) as [->|Hne].
  - rewrite E. simpl. eauto.
  - rewrite E. eauto.
Qed.

Lemma get_by_natural_key_None username d :
  get_by_natural_key username d = None →
  ∀ pk u, auth_user d !! pk = Some u → User.username u ≠ username.
Proof.
  unfold get_by_natural_key, select. intros Hh pk u E Hname.
  apply head_None in Hh.
  assert ((pk, u) ∈ filter (λ row : nat * User.t,
                              String.eqb (User.username row.2) username = true)
                           (map_to_list (auth_user d))) as Hin.
  { apply list_elem_of_filter. split; [|by apply elem_of_map_to_list].
    simpl. by apply String.eqb_eq. }
  rewrite Hh in Hin. by apply elem_of_nil in Hin.
Qed.

Lemma user_exists_true pk d : user_exists pk d = true → is_Some (auth_user d !! pk).
Proof. unfold user_exists. apply bool_decide_eq_true_1. Qed.

Lemma product_exists_true pk d :
  product_exists pk d = true → is_Some (shop_product d !! pk).
Proof. unfold product_exists. apply bool_decide_eq_true_1. Qed.

Section Wf.
Context {hasher : PasswordHasher}.

Lemma wf_empty_db : wf_db empty_db.
Proof.
  unfold wf_db, keys_in_sequence, usernames_unique, empty_db; simpl.
  split_and!; apply map_Forall_empty.
Qed.

Lemma wf_create_user env username password d :
  wf_db d → wf_db (create_user env username password d).1.
Proof.
  intros Hwf. unfold create_user.
  destruct (get_by_natural_key username d) eqn:Eg; [done|].
  destruct Hwf as (K1 & K2 & K3 & K4 & F1 & F2 & F3 & U). unfold wf_db; simpl.
  split_and!; try done.
  - by apply keys_in_sequence_insert.
  - eapply map_Forall_impl; [exact F1|]. simpl. intros. by apply is_Some_insert.
  - eapply map_Forall_impl; [exact F2|]. simpl. intros. by apply is_Some_insert.
  - eapply map_Forall_impl; [exact F3|]. simpl. intros ?? [??]. split; [done|].
    by apply is_Some_insert.
  - pose proof (keys_in_sequence_fresh _ _ K1) as Hfresh.
    intros pk1 u1 E1 pk2 u2 E2 Hname.
    apply lookup_insert_Some in E1 as [[<- <-]|[Hne1 E1]];
      apply lookup_insert_Some in E2 as [[<- <-]|[Hne2 E2]]; try done.
    + simpl in Hname. by destruct (get_by_natural_key_None _ _ Eg _ _ E2).
    + simpl in Hname. by destruct (get_by_natural_key_None _ _ Eg _ _ E1).
    + by apply (U pk1 u1 E1 pk2 u2 E2).
Qed.

Lemma wf_UserLoginLog_objects_create env user username success d :
  wf_db d → wf_db (UserLoginLog_objects_create env user username success d).1.
Proof.
  intros Hwf. unfold UserLoginLog_objects_create.
  destruct user as [uid|]; [|done].
  destruct (user_exists uid d) eqn:Eu; [|done].
  destruct Hwf as (K1 & K2 & K3 & K4 & F1 & F2 & F3 & U). unfold wf_db; simpl.
  split_and!; try done.
  - by apply keys_in_sequence_insert.
  - apply map_Forall_insert_2; [|done]. simpl. by apply user_exists_true.
Qed.

Lemma wf_Product_objects_create p d :
  wf_db d → wf_db (Product_objects_create p d).1.
Proof.
  intros Hwf. unfold Product_objects_create.
  destruct (user_exists (Product.user p) d) eqn:Eu; [|done].
  destruct Hwf as (K1 & K2 & K3 & K4 & F1 & F2 & F3 & U). unfold wf_db; simpl.
  split_and!; try done.
  - by apply keys_in_sequence_insert.
  - apply map_Forall_insert_2; [|done]. by apply user_exists_true.
  - eapply map_Forall_impl; [exact F3|]. simpl. intros ?? [??]. split; [|done].
    by apply is_Some_insert.
Qed.

Lemma wf_Sale_objects_create env product user d :
  wf_db d → wf_db (Sale_objects_create env product user d).1.
Proof.
  intros Hwf. unfold Sale_objects_create.
  destruct (product_exists product d) eqn:Ep; [|done].
  destruct (user_exists user d) eqn:Eu; [|done].
  destruct Hwf as (K1 & K2 & K3 & K4 & F1 & F2 & F3 & U). unfold wf_db; simpl.
  split_and!; try done.
  - by apply keys_in_sequence_insert.
  - apply map_Forall_insert_2; [|done]. simpl.
    split; [by apply product_exists_true | by apply user_exists_true].
Qed.

Lemma wf_Product_save pk p d :
  is_Some (shop_product d !! pk) → wf_db d → wf_db (Product_save pk p d).1.
Proof.
  intros Hpk Hwf. unfold Product_save.
  destruct (user_exists (Product.user p) d) eqn:Eu; [|done].
  destruct Hwf as (K1 & K2 & K3 & K4 & F1 & F2 & F3 & U). unfold wf_db; simpl.
  split_and!; try done.
  - by apply keys_in_sequence_update.
  - apply map_Forall_insert_2; [|done]. by apply user_exists_true.
  - eapply map_Forall_impl; [exact F3|]. simpl. intros ?? [??]. split; [|done].
    by apply is_Some_insert.
Qed.

Lemma wf_Product_delete pk d : wf_db d → wf_db (Product_delete pk d).1.
Proof.
  intros (K1 & K2 & K3 & K4 & F1 & F2 & F3 & U). unfold wf_db; simpl.
  split_and!; try done.
  - eapply keys_in_sequence_subseteq; [apply delete_subseteq|done].
  - eapply keys_in_sequence_subseteq; [apply map_filter_subseteq|done].
  - by apply map_Forall_delete.
  - intros k s [E Hne]%map_lookup_filter_Some. simpl in Hne.
    destruct (F3 k s E) as [Hp Hu]. split; [|done].
    by rewrite lookup_delete_ne.
Qed.

Lemma wf_User_delete pk d : wf_db d → wf_db (User_delete pk d).1.
Proof.
  intros (K1 & K2 & K3 & K4 & F1 & F2 & F3 & U). unfold wf_db; simpl.
  split_and!.
  - eapply keys_in_sequence_subseteq; [apply delete_subseteq|done].
  - eapply keys_in_sequence_subseteq; [apply map_filter_subseteq|done].
  - eapply keys_in_sequence_subseteq; [apply map_filter_subseteq|done].
  - eapply keys_in_sequence_subseteq; [apply map_filter_subseteq|done].
  - intros k l [E Hne]%map_lookup_filter_Some. simpl in *.
    rewrite lookup_delete_ne; [|done]. by apply (F1 k l).
  - intros k p [E Hne]%map_lookup_filter_Some. simpl in *.
    rewrite lookup_delete_ne; [|done]. by apply (F2 k p).
  - intros k s [E [Hne Hgone]]%map_lookup_filter_Some. simpl in *.
    destruct (F3 k s E) as [[p Ep] Hu]. split.
    + exists p. apply map_lookup_filter_Some. split; [done|]. simpl.
      intros Hp. by rewrite (map_lookup_filter_Some_2 _ _ _ p Ep Hp) in Hgone.
    + by rewrite lookup_delete_ne.
  - intros pk1 u1 [_ E1]%lookup_delete_Some pk2 u2 [_ E2]%lookup_delete_Some.
    by apply (U pk1 u1 E1 pk2 u2 E2).
Qed.

Lemma lookup_update_last_login env pk (users : gmap nat User.t) k u :
  alter (update_last_login env) pk users !! k = Some u →
  ∃ u0, users !! k = Some u0 ∧ User.username u = User.username u0.
Proof.
  rewrite lookup_alter. destruct (decide (pk = k)) as [->|Hne].
  - destruct (users !! k) as [u0|]; [|done]. intros [= <-]. eauto.
  - intros E. eauto.
Qed.

Lemma wf_login env pk session d : wf_db d → wf_db (login env pk session d).1.
Proof.
  intros (K1 & K2 & K3 & K4 & F1 & F2 & F3 & U). unfold wf_db; simpl.
  split_and!; try done.
  - by apply keys_in_sequence_alter.
  - eapply map_Forall_impl; [exact F1|]. simpl. intros. by apply is_Some_alter.
  - eapply map_Forall_impl; [exact F2|]. simpl. intros. by apply is_Some_alter.
  - eapply map_Forall_impl; [exact F3|]. simpl. intros ?? [??]. split; [done|].
    by apply is_Some_alter.
  - intros pk1 u1 E1 pk2 u2 E2 Hname.
    apply lookup_update_last_login in E1 as (v1 & E1 & N1).
    apply lookup_update_last_login in E2 as (v2 & E2 & N2).
    apply (U pk1 v1 E1 pk2 v2 E2). congruence.
Qed.

End Wf.

(** ** Relations between the database before and after a computation *)

Section Respects.
Context (R : relation Db) `{!PreOrder R}.

Lemma respects_ret {A} (a : A) : respects R (mret a).
Proof. intros d. simpl. reflexivity. Qed.

Lemma respects_raise {A} e : respects R (raise e : orm A).
Proof. intros d. simpl. reflexivity. Qed.

Lemma respects_query {A} (f : Db → A) : respects R (query f).
Proof. intros d. simpl. reflexivity. Qed.

Lemma respects_get_object_or_404 {A} (table : Db → gmap nat A) pk :
  respects R (get_object_or_404 table pk).
Proof. intros d. unfold get_object_or_404. destruct (table d !! pk); simpl; reflexivity. Qed.

Lemma respects_bind {A B} (m : orm A) (k : A → orm B) :
  respects R m → (∀ a, respects R (k a)) → respects R (m ≫= k).
Proof.
  intros Hm Hk d. unfold mbind, orm_bind.
  specialize (Hm d). destruct (m d) as [d' [a|e]]; simpl in *; [|done].
  etrans; [exact Hm|apply Hk].
Qed.

Lemma respects_CreateModelMixin_create {I} fields (perform_create : _ → orm I) repr data :
  (∀ validated_data, respects R (perform_create validated_data)) →
  respects R (CreateModelMixin_create fields perform_create repr data).
Proof.
  intros Hp. unfold CreateModelMixin_create.
  apply respects_bind; [apply respects_query|]. intros [errors|validated_data].
  - apply respects_raise.
  - apply respects_bind; [apply Hp|]. intros i. apply respects_ret.
Qed.

End Respects.

#[global] Instance keeps_preorder {A} (table : Db → gmap nat A) seq : PreOrder (keeps table seq).
Proof.
  split.
  - intros d. split; [lia|done].
  - intros d1 d2 d3 [L1 K1] [L2 K2]. split; [lia|].
    intros pk Hpk. rewrite K2; [|lia]. by apply K1.
Qed.

#[global] Instance only_deletes_preorder {A} (table : Db → gmap nat A) seq :
  PreOrder (only_deletes table seq).
Proof.
  split.
  - intros d. split; [lia|]. by left.
  - intros d1 d2 d3 [L1 K1] [L2 K2]. split; [lia|].
    intros pk Hpk. destruct (K2 pk) as [E|E]; [lia| |by right].
    rewrite E. by apply K1.
Qed.

Lemma keeps_only_deletes {A} (table : Db → gmap nat A) seq d d' :
  keeps table seq d d' → only_deletes table seq d d'.
Proof. intros [L K]. split; [done|]. intros pk Hpk. left. by apply K. Qed.

(** ** The login handler, branch by branch *)

Lemma get_by_natural_key_Some username d pk u :
  get_by_natural_key username d = Some (pk, u) →
  auth_user d !! pk = Some u ∧ User.username u = username.
Proof.
  unfold get_by_natural_key, select. intros Hh.
  apply head_Some_elem_of in Hh.
  apply list_elem_of_filter in Hh as [Hp Hin]. simpl in Hp.
  apply elem_of_map_to_list in Hin. split; [done|].
  by apply String.eqb_eq.
Qed.

Section Login.
Context {hasher : PasswordHasher}.

Lemma authenticate_Some username password d pk u :
  authenticate username password d = Some (pk, u) →
  auth_user d !! pk = Some u
  ∧ User.username u = py_str username
  ∧ check_password (py_str password) u = true
  ∧ User.is_active u = true.
Proof.
  unfold authenticate. intros Ha.
  destruct (get_by_natural_key (py_str username) d) as [[pk' u']|] eqn:Eg; [|done].
  destruct (check_password (py_str password) u') eqn:Ec; [|done].
  destruct (User.is_active u') eqn:Ei; [|done].
  simpl in Ha. injection Ha as -> ->.
  apply get_by_natural_key_Some in Eg as [??]. done.
Qed.

Lemma post_missing env request_data session d :
  truthy (data_get "username" request_data) = false
  ∨ truthy (data_get "password" request_data) = false →
  UserLoginView.post env request_data session d =
    (d, Return (mkResponse (Message "error" "Username and password are required")
                           HTTP_400_BAD_REQUEST, session)).
Proof.
  intros Hf. unfold UserLoginView.post.
  destruct Hf as [-> | ->]; simpl; [done|]. by rewrite orb_true_r.
Qed.

Lemma post_failed env request_data session d :
  truthy (data_get "username" request_data) = true →
  truthy (data_get "password" request_data) = true →
  authenticate (data_get "username" request_data) (data_get "password" request_data) d = None →
  UserLoginView.post env request_data session d = (d, Raise IntegrityError).
Proof.
  intros Hu Hp Ha. unfold UserLoginView.post. rewrite Hu, Hp. simpl.
  rewrite bind_query, Ha. reflexivity.
Qed.

Lemma post_success env request_data session d pk u :
  truthy (data_get "username" request_data) = true →
  truthy (data_get "password" request_data) = true →
  authenticate (data_get "username" request_data) (data_get "password" request_data) d
    = Some (pk, u) →
  UserLoginView.post env request_data session d =
    (logged_in env pk (py_str (data_get "username" request_data)) d,
     Return (mkResponse (Message "message" "Login successful") HTTP_200_OK,
             mkSession (Some pk))).
Proof.
  intros Hu Hp Ha. unfold UserLoginView.post. rewrite Hu, Hp. simpl.
  rewrite bind_query, Ha.
  apply authenticate_Some in Ha as (Hl & _).
  unfold mbind, orm_bind, UserLoginLog_objects_create, user_exists.
  rewrite bool_decide_eq_true_2 by eauto. reflexivity.
Qed.

End Login.

(** ** The example hasher is lawful *)

Lemma app_cons c (s1 s2 : string) : String c s1 ++ s2 = String c (s1 ++ s2).
Proof. reflexivity. Qed.

Lemma app_assoc (s1 s2 s3 : string) : (s1 ++ s2) ++ s3 = s1 ++ (s2 ++ s3).
Proof. induction s1 as [|c s1 IH]; [done|]. by rewrite !app_cons, IH. Qed.

Lemma length_app (s1 s2 : string) :
  String.length (s1 ++ s2) = (String.length s1 + String.length s2)%nat.
Proof. induction s1 as [|c s1 IH]; [done|]. rewrite app_cons. simpl. by rewrite IH. Qed.

Lemma ends_with_app prefix suffix :
  example_hasher.ends_with suffix (prefix ++ suffix) = true.
Proof.
  induction prefix as [|c prefix IH].
  - change ("" ++ suffix) with suffix.
    destruct suffix; simpl; [done|]. by rewrite Ascii.eqb_refl, String.eqb_refl.
  - rewrite app_cons. simpl. rewrite IH. apply orb_true_r.
Qed.

#[export] Instance example_hasher_laws : hashers.Laws example_hasher.hasher.
Proof.
  split.
  - intros password salt. cbn [hashers.verify hashers.encode example_hasher.hasher].
    rewrite <- !app_assoc. rewrite (app_assoc _ "$" password). apply ends_with_app.
  - intros password salt E. apply (f_equal String.length) in E.
    cbn [hashers.verify hashers.encode example_hasher.hasher] in E.
    rewrite !length_app in E. simpl in E. lia.
Qed.

(** ** Login *)


Section LoginClaims.
Context {hasher : PasswordHasher}.

(** C1 (what the code does): a login whose username and password are both
    present but do not authenticate does not reach its 400 response.  The
    handler creates the log row without a user; UserLoginLog.user is a
    ForeignKey without null=True, so the INSERT raises IntegrityError, no row
    is written, and the request ends as a server error with the state as it
    was. *)
Theorem failed_login_raises_and_logs_nothing env request_data st :
  truthy (data_get "username" request_data) = true →
  truthy (data_get "password" request_data) = true →
  authenticate (data_get "username" request_data) (data_get "password" request_data) (db st)
    = None →
  UserLoginView.post env request_data (session st) (db st) = (db st, Raise IntegrityError)
  ∧ serve env (POST_users_login request_data) st
    = (st, mkResponse ServerError HTTP_500_INTERNAL_SERVER_ERROR).
Proof.
  intros Hu Hp Ha. pose proof (post_failed env _ (session st) _ Hu Hp Ha) as E.
  split; [done|]. unfold serve, dispatch_login. rewrite E. by destruct st.
Qed.


(** C3 (what the code does): with both fields present, the handler writes
    exactly one log row when the credentials authenticate: the row carries
    the user and success=true, the session belongs to the user, the answer is
    200.  When they do not authenticate it writes none (the INSERT raises),
    so "every branch but the missing-fields one writes one row" holds for the
    success branch only. *)
Theorem login_logs_one_row_on_success_only env request_data st :
  wf_db (db st) →
  truthy (data_get "username" request_data) = true →
  truthy (data_get "password" request_data) = true →
  let username := py_str (data_get "username" request_data) in
  let log := shop_userloginlog (db st) in
  let pk' := S (shop_userloginlog_seq (db st)) in
  match authenticate (data_get "username" request_data)
                     (data_get "password" request_data) (db st) with
  | Some (pk, _) =>
      ∃ st',
        serve env (POST_users_login request_data) st
          = (st', mkResponse (Message "message" "Login successful") HTTP_200_OK)
        ∧ log !! pk' = None
        ∧ shop_userloginlog (db st')
          = <[pk' := UserLoginLog.mk pk username true (now env)]> log
        ∧ size (shop_userloginlog (db st')) = S (size log)
        ∧ auth_user_id (session st') = Some pk
  | None =>
      serve env (POST_users_login request_data) st
        = (st, mkResponse ServerError HTTP_500_INTERNAL_SERVER_ERROR)
  end.
Proof.
  intros Hwf Hu Hp username log pk'.
  destruct (authenticate _ _ _) as [[pk u]|] eqn:Ha.
  - assert (log !! pk' = None) as Hfresh.
    { apply keys_in_sequence_fresh. apply Hwf. }
    eexists. unfold serve, dispatch_login.
    rewrite (post_success env _ (session st) _ pk u Hu Hp Ha). simpl.
    split_and!; try done. by apply map_size_insert_None.
  - unfold serve, dispatch_login.
    rewrite (post_failed env _ (session st) _ Hu Hp Ha). by destruct st.
Qed.

End LoginClaims.

Lemma failed_login_raises_and_logs_nothing_witness :
  let wrong := example.body [("username", JStr "alice"); ("password", JStr "guess")] in
  serve (hasher := example_hasher.hasher)
    example.env (POST_users_login wrong) example.alice_registered
  = (example.alice_registered, mkResponse ServerError 500%nat).
Proof.
  intros wrong.
  apply (failed_login_raises_and_logs_nothing (hasher := example_hasher.hasher) example.env wrong example.alice_registered).
  - reflexivity.
  - reflexivity.
  - vm_compute. reflexivity.
Defined.


Lemma login_logs_one_row_on_success_only_witness :
  ∃ st',
    serve (hasher := example_hasher.hasher)
      example.env (POST_users_login example.alice_credentials) example.alice_registered
      = (st', mkResponse (Message "message" "Login successful") 200%nat)
    ∧ shop_userloginlog (db example.alice_registered) !! 1%nat = None
    ∧ shop_userloginlog (db st')
      = <[1%nat := UserLoginLog.mk 1 "alice" true 1700000000]>
          (shop_userloginlog (db example.alice_registered))
    ∧ size (shop_userloginlog (db st')) = 1%nat
    ∧ auth_user_id (session st') = Some 1%nat.
Proof.
  apply (login_logs_one_row_on_success_only (hasher := example_hasher.hasher)
           example.env example.alice_credentials example.alice_registered).
  - apply (bool_decide_unpack _). vm_compute. exact I.
  - reflexivity.
  - reflexivity.
Defined.

(** ** Serializers: validation *)

Lemma run_validation_absent_partial f d :
  serializers.run_validation f true d None = serializers.SkipField.
Proof.
  unfold serializers.run_validation.
  destruct (serializers.class f); simpl; by destruct (serializers.read_only f).
Qed.

Lemma run_validation_absent_full f d v :
  serializers.run_validation f false d None ≠ serializers.Valid v.
Proof.
  unfold serializers.run_validation.
  destruct (serializers.class f); simpl; by destruct (serializers.read_only f).
Qed.

Lemma run_validation_read_only f partial d o v :
  serializers.read_only f = true →
  serializers.run_validation f partial d o ≠ serializers.Valid v.
Proof.
  intros Hr. unfold serializers.run_validation. rewrite Hr.
  by destruct (match serializers.class f, o with
               | serializers.CharField _, Some (JStr s) => String.eqb (Py.strip s) ""
               | _, _ => false end).
Qed.

Lemma field_to_internal_value_typed c d j v :
  serializers.field_to_internal_value c d j = serializers.Valid v → well_typed c d v.
Proof.
  destruct c as [| |vs|md dp|to|]; simpl; try done.
  - destruct j; try done;
      (destruct (serializers.run_validators d vs _); [|done]);
      intros [= <-]; eauto.
  - destruct (_ <? _)%nat; [done|].
    destruct (Decimal.of_str _) as [dec|]; [|done].
    destruct (serializers.validate_precision md dp dec); [done|].
    intros [= <-]. eauto.
  - assert (∀ pk, (if (0 <=? pk) && serializers.queryset_exists to (Z.to_nat pk) d
                   then serializers.Valid (VRef (Z.to_nat pk))
                   else serializers.fail code.does_not_exist) = serializers.Valid v →
                  ∃ pk0, v = VRef pk0 ∧ serializers.queryset_exists to pk0 d = true) as Hget.
    { intros pk. destruct (0 <=? pk); simpl; [|done].
      destruct (serializers.queryset_exists to (Z.to_nat pk) d) eqn:E; [|done].
      intros [= <-]. eauto. }
    destruct j as [|b|z|s]; try done; [by apply Hget|].
    destruct (Py.int_of_str s); [by apply Hget|done].
Qed.

Lemma run_validation_typed f partial d o v :
  serializers.run_validation f partial d o = serializers.Valid v →
  well_typed (serializers.class f) d v.
Proof.
  unfold serializers.run_validation.
  destruct (match serializers.class f, o with
            | serializers.CharField _, Some (JStr s) => String.eqb (Py.strip s) ""
            | _, _ => false end); [done|].
  destruct (serializers.read_only f); [done|].
  destruct (match serializers.class f, o with
            | serializers.PrimaryKeyRelatedField _, Some (JStr "") => Some JNull
            | _, _ => o end) as [[| | |]|];
    try done; try apply field_to_internal_value_typed.
  by destruct partial.
Qed.

(** What ends up in [validated_data] was supplied and validated ... *)
Lemma validate_fields_lookup fs partial d request_data errors ret k v :
  serializers.validate_fields fs partial d request_data = (errors, ret) →
  ret !! k = Some v →
  ∃ f, f ∈ fs ∧ serializers.field_name f = k
       ∧ serializers.run_validation f partial d (request_data !! k) = serializers.Valid v.
Proof.
  revert errors ret. induction fs as [|f fs IH]; intros errors ret; simpl.
  - intros [= <- <-]. by rewrite lookup_empty.
  - destruct (serializers.validate_fields fs partial d request_data) as [errors0 ret0].
    destruct (serializers.run_validation f partial d (request_data !! serializers.field_name f))
      as [|v0|codes] eqn:Ev; intros [= <- <-] Hk.
    + destruct (IH _ _ eq_refl Hk) as (f' & ? & ? & ?). exists f'. set_solver.
    + destruct (decide (serializers.field_name f = k)) as [<-|Hne].
      * rewrite lookup_insert_eq in Hk. injection Hk as <-. exists f. set_solver.
      * rewrite lookup_insert_ne in Hk by done.
        destruct (IH _ _ eq_refl Hk) as (f' & ? & ? & ?). exists f'. set_solver.
    + destruct (IH _ _ eq_refl Hk) as (f' & ? & ? & ?). exists f'. set_solver.
Qed.

(** ... and every supplied field that validates is in it, when no two fields
    share a name. *)
Lemma validate_fields_valid fs partial d request_data errors ret f v :
  NoDup (serializers.field_name <$> fs) →
  serializers.validate_fields fs partial d request_data = (errors, ret) →
  f ∈ fs →
  serializers.run_validation f partial d (request_data !! serializers.field_name f)
    = serializers.Valid v →
  ret !! serializers.field_name f = Some v.
Proof.
  revert errors ret. induction fs as [|f0 fs IH]; intros errors ret Hnd; simpl.
  - intros _ Hin. by apply elem_of_nil in Hin.
  - apply NoDup_cons in Hnd as [Hnotin Hnd].
    destruct (serializers.validate_fields fs partial d request_data) as [errors0 ret0].
    intros Hv Hin Hf. apply elem_of_cons in Hin as [->|Hin].
    + rewrite Hf in Hv. injection Hv as <- <-. apply lookup_insert_eq.
    + assert (serializers.field_name f0 ≠ serializers.field_name f) as Hne.
      { intros E. apply Hnotin. rewrite E. by apply list_elem_of_fmap_2. }
      specialize (IH _ _ Hnd eq_refl Hin Hf).
      destruct (serializers.run_validation f0 _ _ _); injection Hv as <- <-; try done.
      by rewrite lookup_insert_ne.
Qed.

(** The error dictionary lists exactly the fields that failed. *)
Lemma validate_fields_errors fs partial d request_data errors ret k codes :
  serializers.validate_fields fs partial d request_data = (errors, ret) →
  (k, codes) ∈ errors →
  ∃ f, f ∈ fs ∧ serializers.field_name f = k
       ∧ serializers.run_validation f partial d (request_data !! k)
         = serializers.Invalid codes.
Proof.
  revert errors ret. induction fs as [|f fs IH]; intros errors ret; simpl.
  - intros [= <- <-] Hin. by apply elem_of_nil in Hin.
  - destruct (serializers.validate_fields fs partial d request_data) as [errors0 ret0].
    destruct (serializers.run_validation f partial d (request_data !! serializers.field_name f))
      as [|v0|codes0] eqn:Ev; intros [= <- <-] Hk.
    + destruct (IH _ _ eq_refl Hk) as (f' & ? & ? & ?). exists f'. set_solver.
    + destruct (IH _ _ eq_refl Hk) as (f' & ? & ? & ?). exists f'. set_solver.
    + apply elem_of_cons in Hk as [[= -> ->]|Hk].
      * exists f. set_solver.
      * destruct (IH _ _ eq_refl Hk) as (f' & ? & ? & ?). exists f'. set_solver.
Qed.

Lemma validate_fields_invalid fs partial d request_data errors ret f codes :
  serializers.validate_fields fs partial d request_data = (errors, ret) →
  f ∈ fs →
  serializers.run_validation f partial d (request_data !! serializers.field_name f)
    = serializers.Invalid codes →
  (serializers.field_name f, codes) ∈ errors.
Proof.
  revert errors ret. induction fs as [|f0 fs IH]; intros errors ret; simpl.
  - intros _ Hin. by apply elem_of_nil in Hin.
  - destruct (serializers.validate_fields fs partial d request_data) as [errors0 ret0].
    intros Hv Hin Hf. apply elem_of_cons in Hin as [->|Hin].
    + rewrite Hf in Hv. injection Hv as <- <-. set_solver.
    + specialize (IH _ _ eq_refl Hin Hf).
      destruct (serializers.run_validation f0 _ _ _); injection Hv as <- <-; set_solver.
Qed.

(** Validation reads the body at the names of the writable fields only. *)
Lemma validate_fields_ext fs partial d data1 data2 :
  (∀ f, f ∈ fs → data1 !! serializers.field_name f = data2 !! serializers.field_name f) →
  serializers.validate_fields fs partial d data1
  = serializers.validate_fields fs partial d data2.
Proof.
  induction fs as [|f fs IH]; intros Hext; simpl; [done|].
  rewrite IH by (intros; apply Hext; set_solver).
  rewrite (Hext f) by set_solver. done.
Qed.

Lemma to_internal_value_ext fs partial d data1 data2 :
  (∀ f, f ∈ serializers.writable_fields fs →
        data1 !! serializers.field_name f = data2 !! serializers.field_name f) →
  serializers.to_internal_value fs partial d data1
  = serializers.to_internal_value fs partial d data2.
Proof.
  intros Hext. unfold serializers.to_internal_value.
  by rewrite (validate_fields_ext _ _ _ data1 data2).
Qed.

(** ** The serializers of shop/serializers.py, field by field *)

Lemma NoDup_names (names : list string) : bool_decide (NoDup names) = true → NoDup names.
Proof. apply bool_decide_eq_true_1. Qed.

Lemma UserSerializer_writable :
  serializers.writable_fields UserSerializer.fields = [username_field; password_field].
Proof. reflexivity. Qed.

Lemma ProductSerializer_writable :
  serializers.writable_fields ProductSerializer.fields = [name_field; price_field; user_field].
Proof. reflexivity. Qed.

Lemma SaleSerializer_writable :
  serializers.writable_fields SaleSerializer.fields = [product_field; user_field].
Proof. reflexivity. Qed.

(** Only text, decimal and related fields take input in this program. *)
Lemma writable_classes f :
  f ∈ (serializers.writable_fields UserSerializer.fields
       ++ serializers.writable_fields ProductSerializer.fields
       ++ serializers.writable_fields SaleSerializer.fields)%list →
  match serializers.class f with
  | serializers.CharField _ | serializers.DecimalField _ _
  | serializers.PrimaryKeyRelatedField _ => True
  | _ => False
  end.
Proof.
  rewrite UserSerializer_writable, ProductSerializer_writable, SaleSerializer_writable.
  intros Hin. simpl in Hin.
  repeat (apply elem_of_cons in Hin as [->|Hin]; [done|]).
  by apply elem_of_nil in Hin.
Qed.

Lemma to_internal_value_inr fs partial d request_data validated_data :
  serializers.to_internal_value fs partial d request_data = inr validated_data →
  serializers.validate_fields (serializers.writable_fields fs) partial d request_data
  = ([], validated_data).
Proof.
  unfold serializers.to_internal_value.
  destruct (serializers.validate_fields _ _ _ _) as [[|e errors] ret]; [|done].
  by intros [= ->].
Qed.

Lemma to_internal_value_inl fs partial d request_data errors :
  serializers.to_internal_value fs partial d request_data = inl errors →
  errors ≠ []
  ∧ ∃ ret, serializers.validate_fields (serializers.writable_fields fs) partial d request_data
           = (errors, ret).
Proof.
  unfold serializers.to_internal_value.
  destruct (serializers.validate_fields _ _ _ _) as [[|e errors0] ret]; [done|].
  intros [= <-]. eauto.
Qed.

(** With [partial=True], a key that the body does not have is not in
    [validated_data]. *)
Lemma partial_absent fs d request_data validated_data k :
  serializers.to_internal_value fs true d request_data = inr validated_data →
  request_data !! k = None →
  validated_data !! k = None.
Proof.
  intros Hv%to_internal_value_inr Hk.
  destruct (validated_data !! k) as [v|] eqn:E; [|done].
  destruct (validate_fields_lookup _ _ _ _ _ _ _ _ Hv E) as (f & _ & _ & Hf).
  by rewrite Hk, run_validation_absent_partial in Hf.
Qed.

(** A member of a literal list of fields, known by its name. *)
Ltac pick_field Hin :=
  repeat (apply elem_of_cons in Hin as [->|Hin]; [try done|]);
  try (by apply elem_of_nil in Hin).

(** The three entries of a validated product. *)
Lemma validated_Product_name partial d request_data validated_data v :
  serializers.to_internal_value ProductSerializer.fields partial d request_data
    = inr validated_data →
  validated_data !! "name" = Some v →
  serializers.run_validation name_field partial d (request_data !! "name")
    = serializers.Valid v
  ∧ ∃ name, v = VStr name.
Proof.
  intros Hv%to_internal_value_inr E. rewrite ProductSerializer_writable in Hv.
  destruct (validate_fields_lookup _ _ _ _ _ _ _ _ Hv E) as (f & Hin & Hn & Hf).
  assert (f = name_field) as -> by (by pick_field Hin).
  split; [done|]. by apply run_validation_typed in Hf.
Qed.

Lemma validated_Product_price partial d request_data validated_data v :
  serializers.to_internal_value ProductSerializer.fields partial d request_data
    = inr validated_data →
  validated_data !! "price" = Some v →
  serializers.run_validation price_field partial d (request_data !! "price")
    = serializers.Valid v
  ∧ ∃ price, v = VDecimal price.
Proof.
  intros Hv%to_internal_value_inr E. rewrite ProductSerializer_writable in Hv.
  destruct (validate_fields_lookup _ _ _ _ _ _ _ _ Hv E) as (f & Hin & Hn & Hf).
  assert (f = price_field) as -> by (by pick_field Hin).
  split; [done|]. by apply run_validation_typed in Hf.
Qed.

Lemma validated_Product_user partial d request_data validated_data v :
  serializers.to_internal_value ProductSerializer.fields partial d request_data
    = inr validated_data →
  validated_data !! "user" = Some v →
  serializers.run_validation user_field partial d (request_data !! "user")
    = serializers.Valid v
  ∧ ∃ user, v = VRef user ∧ user_exists user d = true.
Proof.
  intros Hv%to_internal_value_inr E. rewrite ProductSerializer_writable in Hv.
  destruct (validate_fields_lookup _ _ _ _ _ _ _ _ Hv E) as (f & Hin & Hn & Hf).
  assert (f = user_field) as -> by (by pick_field Hin).
  split; [done|]. by apply run_validation_typed in Hf.
Qed.

(** Without [partial], every writable field is in [validated_data]. *)
Lemma validated_full fs d request_data validated_data f :
  serializers.to_internal_value fs false d request_data = inr validated_data →
  f ∈ serializers.writable_fields fs →
  NoDup (serializers.field_name <$> serializers.writable_fields fs) →
  ∃ v, validated_data !! serializers.field_name f = Some v
       ∧ serializers.run_validation f false d (request_data !! serializers.field_name f)
         = serializers.Valid v.
Proof.
  intros Hv%to_internal_value_inr Hin Hnd.
  destruct (serializers.run_validation f false d (request_data !! serializers.field_name f))
    as [|v|codes] eqn:Ef.
  - exfalso. revert Ef. unfold serializers.run_validation.
    assert (serializers.read_only f = false) as ->.
    { unfold serializers.writable_fields in Hin.
      by apply list_elem_of_filter in Hin as [? _]. }
    destruct (match serializers.class f, request_data !! serializers.field_name f with
              | serializers.CharField _, Some (JStr s) => String.eqb (Py.strip s) ""
              | _, _ => false end); [done|].
    destruct (match serializers.class f, request_data !! serializers.field_name f with
              | serializers.PrimaryKeyRelatedField _, Some (JStr "") => Some JNull
              | _, _ => request_data !! serializers.field_name f end) as [[| | |]|];
      try done.
    all: destruct (serializers.class f) as [| |vs|md dp|to|]; simpl; try done.
    all: repeat match goal with
                | |- context [match ?x with _ => _ end] => destruct x; simpl; try done
                | |- context [if ?x then _ else _] => destruct x; simpl; try done
                end.
  - exists v. split; [|done]. by eapply validate_fields_valid.
  - exfalso. pose proof (validate_fields_invalid _ _ _ _ _ _ _ _ Hv Hin Ef) as Hc.
    by apply elem_of_nil in Hc.
Qed.

(** ** Decimals in memory and in the database *)

Lemma unscaled_from_db places q :
  Decimal.unscaled places (Decimal.from_db places q) = q.
Proof.
  unfold Decimal.unscaled, Decimal.from_db.
  cbn [Decimal.negative Decimal.coefficient Decimal.exponent].
  replace (- Z.of_nat places + Z.of_nat places) with 0 by lia.
  rewrite Z.pow_0_r, Z.mul_1_r, Z2N.id by lia.
  destruct (Z.ltb_spec q 0); lia.
Qed.

Lemma unscaled_sign places d :
  let u := Decimal.unscaled places d in
  if Decimal.negative d then u ≤ 0 else 0 ≤ u.
Proof.
  unfold Decimal.unscaled.
  assert (0 ≤ Z.of_N (Decimal.coefficient d) * 10 ^ (Decimal.exponent d + Z.of_nat places)).
  { apply Z.mul_nonneg_nonneg; [lia|]. apply Z.pow_nonneg. lia. }
  destruct (Decimal.negative d); cbv zeta; lia.
Qed.

(** A decimal in memory prints as its value does, unless it is a negative
    zero, which prints with its sign. *)
Lemma to_str_unscaled places d :
  (Decimal.negative d = true → Decimal.unscaled places d ≠ 0) →
  Decimal.to_str places d = Decimal.format_f places (Decimal.unscaled places d).
Proof.
  intros Hnz. pose proof (unscaled_sign places d) as Hs. cbv zeta in Hs.
  unfold Decimal.to_str, Decimal.format_f.
  set (u := Decimal.unscaled places d) in *. rewrite Z.abs_idemp.
  replace (Z.abs u <? 0) with false by (symmetry; apply Z.ltb_ge; lia).
  replace (u <? 0) with (Decimal.negative d); [done|].
  destruct (Decimal.negative d).
  - symmetry. apply Z.ltb_lt. specialize (Hnz eq_refl). lia.
  - symmetry. by apply Z.ltb_ge.
Qed.

Lemma to_str_negative_zero places d :
  Decimal.negative d = true → Decimal.unscaled places d = 0 →
  Decimal.to_str places d = "-" ++ Decimal.format_f places 0.
Proof. intros Hn Hu. unfold Decimal.to_str. by rewrite Hn, Hu. Qed.

Lemma to_str_from_db places q :
  Decimal.to_str places (Decimal.from_db places q) = Decimal.format_f places q.
Proof.
  rewrite to_str_unscaled; rewrite unscaled_from_db; [done|].
  unfold Decimal.from_db. cbn [Decimal.negative]. intros Hq%Z.ltb_lt. lia.
Qed.

Lemma unscaled_quantize places d :
  Decimal.unscaled places (Decimal.quantize places d) = Decimal.unscaled places d.
Proof.
  pose proof (unscaled_sign places d) as Hs. cbv zeta in Hs.
  unfold Decimal.quantize. set (u := Decimal.unscaled places d) in *.
  unfold Decimal.unscaled at 1.
  cbn [Decimal.negative Decimal.coefficient Decimal.exponent].
  replace (- Z.of_nat places + Z.of_nat places) with 0 by lia.
  rewrite Z.pow_0_r, Z.mul_1_r, Z2N.id by lia.
  destruct (Decimal.negative d); lia.
Qed.

(** The representation of a row. *)
Lemma ProductSerializer_to_representation pk p :
  ProductSerializer.to_representation pk p
  = [("id", NInt (Z.of_nat pk)); ("name", NStr (Product.name p));
     ("price", NStr (Decimal.format_f 2 (Product.price p)));
     ("user", NInt (Z.of_nat (Product.user p)))].
Proof.
  by rewrite <- (to_str_from_db 2 (Product.price p)).
Qed.

(** [serializer.data] after a create or an update: the saved row, with the
    price printed from the validated decimal when one was given. *)
Lemma ProductSerializer_data pk p partial d request_data validated_data :
  serializers.to_internal_value ProductSerializer.fields partial d request_data
    = inr validated_data →
  let p' := ProductSerializer.setattrs p validated_data in
  ProductSerializer.data pk p' validated_data
  = [("id", NInt (Z.of_nat pk)); ("name", NStr (Product.name p'));
     ("price", NStr match validated_data !! "price" with
                    | Some (VDecimal price) => Decimal.to_str 2 price
                    | _ => Decimal.format_f 2 (Product.price p)
                    end);
     ("user", NInt (Z.of_nat (Product.user p')))].
Proof.
  intros Hv p'.
  assert (validated_data !! "id" = None) as Hid.
  { destruct (validated_data !! "id") as [v|] eqn:E; [|done].
    pose proof Hv as Hv'%to_internal_value_inr. rewrite ProductSerializer_writable in Hv'.
    destruct (validate_fields_lookup _ _ _ _ _ _ _ _ Hv' E) as (f & Hin & Hn & _).
    by pick_field Hin. }
  unfold ProductSerializer.data, serializers.to_representation.
  let fs := eval vm_compute in (serializers.readable_fields ProductSerializer.fields) in
  change (serializers.readable_fields ProductSerializer.fields) with fs.
  cbn [map serializers.field_name serializers.class]. rewrite Hid.
  unfold p', ProductSerializer.setattrs. cbn -[Decimal.to_str Decimal.from_db Decimal.unscaled].
  destruct (validated_data !! "name") as [v1|] eqn:E1.
  2:{ destruct (validated_data !! "price") as [v2|] eqn:E2;
        [destruct (validated_Product_price _ _ _ _ _ Hv E2) as (_ & price & ->)|];
        (destruct (validated_data !! "user") as [v3|] eqn:E3;
           [destruct (validated_Product_user _ _ _ _ _ Hv E3) as (_ & user & -> & _)|]);
        cbn -[Decimal.to_str Decimal.from_db Decimal.unscaled]; by rewrite ?to_str_from_db. }
  destruct (validated_Product_name _ _ _ _ _ Hv E1) as (_ & name & ->).
  destruct (validated_data !! "price") as [v2|] eqn:E2;
    [destruct (validated_Product_price _ _ _ _ _ Hv E2) as (_ & price & ->)|];
    (destruct (validated_data !! "user") as [v3|] eqn:E3;
       [destruct (validated_Product_user _ _ _ _ _ Hv E3) as (_ & user & -> & _)|]);
    cbn -[Decimal.to_str Decimal.from_db Decimal.unscaled]; by rewrite ?to_str_from_db.
Qed.

(** ** The create views, case by case *)

Lemma NoDup_writable_User :
  NoDup (serializers.field_name <$> serializers.writable_fields UserSerializer.fields).
Proof. by apply NoDup_names. Qed.

Lemma NoDup_writable_Product :
  NoDup (serializers.field_name <$> serializers.writable_fields ProductSerializer.fields).
Proof. by apply NoDup_names. Qed.

Lemma NoDup_writable_Sale :
  NoDup (serializers.field_name <$> serializers.writable_fields SaleSerializer.fields).
Proof. by apply NoDup_names. Qed.

(** POST /api/products/: a 400 with the errors and nothing written, or a 201
    and the validated product stored under the next key. *)
Lemma ProductListView_post_cases request_data d :
  (∃ errors,
     serializers.to_internal_value ProductSerializer.fields false d request_data = inl errors
     ∧ dispatch (ProductListView.post request_data) d
       = (d, mkResponse (Errors errors) HTTP_400_BAD_REQUEST))
  ∨ (∃ name price user,
       serializers.run_validation name_field false d (request_data !! "name")
         = serializers.Valid (VStr name)
       ∧ serializers.run_validation price_field false d (request_data !! "price")
         = serializers.Valid (VDecimal price)
       ∧ serializers.run_validation user_field false d (request_data !! "user")
         = serializers.Valid (VRef user)
       ∧ is_Some (auth_user d !! user)
       ∧ dispatch (ProductListView.post request_data) d
         = (product_created (Product.mk name (Decimal.unscaled 2 price) user) d,
            mkResponse (Object [("id", NInt (Z.of_nat (S (shop_product_seq d))));
                                ("name", NStr name);
                                ("price", NStr (Decimal.to_str 2 price));
                                ("user", NInt (Z.of_nat user))])
                       HTTP_201_CREATED)).
Proof.
  unfold dispatch, ProductListView.post, CreateModelMixin_create. rewrite bind_query.
  destruct (serializers.to_internal_value _ _ _ _) as [errors|validated_data] eqn:Hv.
  { left. by exists errors. }
  right.
  destruct (validated_full _ _ _ _ name_field Hv) as (v1 & E1 & R1);
    [set_solver|apply NoDup_writable_Product|].
  destruct (validated_full _ _ _ _ price_field Hv) as (v2 & E2 & R2);
    [set_solver|apply NoDup_writable_Product|].
  destruct (validated_full _ _ _ _ user_field Hv) as (v3 & E3 & R3);
    [set_solver|apply NoDup_writable_Product|].
  pose proof (run_validation_typed _ _ _ _ _ R1) as (name & ->).
  pose proof (run_validation_typed _ _ _ _ _ R2) as (price & ->).
  pose proof (run_validation_typed _ _ _ _ _ R3) as (user & -> & Hu).
  simpl in E1, E2, E3, R1, R2, R3, Hu.
  exists name, price, user. split_and!; try done.
  { by apply user_exists_true. }
  pose proof (ProductSerializer_data (S (shop_product_seq d))
                (Product.mk name (Decimal.unscaled 2 price) user) _ _ _ _ Hv) as Hdata.
  unfold ProductSerializer.setattrs in Hdata. rewrite E1, E2, E3 in Hdata.
  cbv zeta in Hdata. cbn [Product.name Product.price Product.user] in Hdata.
  unfold ProductSerializer.create. rewrite E1, E2, E3.
  unfold mbind, orm_bind, Product_objects_create. simpl Product.user. rewrite Hu.
  unfold mret, orm_ret. cbn [fst snd]. by rewrite Hdata.
Qed.

(** POST /api/sales/ *)
Lemma SaleCreateView_post_cases env request_data d :
  (∃ errors,
     serializers.to_internal_value SaleSerializer.fields false d request_data = inl errors
     ∧ dispatch (SaleCreateView.post env request_data) d
       = (d, mkResponse (Errors errors) HTTP_400_BAD_REQUEST))
  ∨ (∃ product user,
       serializers.run_validation product_field false d (request_data !! "product")
         = serializers.Valid (VRef product)
       ∧ serializers.run_validation user_field false d (request_data !! "user")
         = serializers.Valid (VRef user)
       ∧ is_Some (shop_product d !! product)
       ∧ is_Some (auth_user d !! user)
       ∧ dispatch (SaleCreateView.post env request_data) d
         = (sale_created (Sale.mk product user (now env)) d,
            mkResponse (Object (SaleSerializer.to_representation
                                  (S (shop_sale_seq d)) (Sale.mk product user (now env))))
                       HTTP_201_CREATED)).
Proof.
  unfold dispatch, SaleCreateView.post, CreateModelMixin_create. rewrite bind_query.
  destruct (serializers.to_internal_value _ _ _ _) as [errors|validated_data] eqn:Hv.
  { left. by exists errors. }
  right.
  destruct (validated_full _ _ _ _ product_field Hv) as (v1 & E1 & R1);
    [set_solver|apply NoDup_writable_Sale|].
  destruct (validated_full _ _ _ _ user_field Hv) as (v2 & E2 & R2);
    [set_solver|apply NoDup_writable_Sale|].
  pose proof (run_validation_typed _ _ _ _ _ R1) as (product & -> & Hp).
  pose proof (run_validation_typed _ _ _ _ _ R2) as (user & -> & Hu).
  simpl in E1, E2, R1, R2, Hp, Hu.
  exists product, user. split_and!; try done.
  { by apply product_exists_true. }
  { by apply user_exists_true. }
  unfold SaleSerializer.create. rewrite E1, E2.
  unfold mbind, orm_bind, Sale_objects_create. by rewrite Hp, Hu.
Qed.


(** ** ProductDetailView, case by case *)

Lemma ProductDetailView_get_found pk p d :
  shop_product d !! pk = Some p →
  dispatch (ProductDetailView.get pk) d
  = (d, mkResponse (Object (ProductSerializer.to_representation pk p)) HTTP_200_OK).
Proof.
  intros E. unfold dispatch, ProductDetailView.get.
  by rewrite (bind_return _ _ _ _ _ (get_object_or_404_found shop_product _ _ _ E)).
Qed.

Lemma ProductDetailView_get_missing pk d :
  shop_product d !! pk = None →
  dispatch (ProductDetailView.get pk) d = (d, mkResponse NotFound HTTP_404_NOT_FOUND).
Proof.
  intros E. unfold dispatch, ProductDetailView.get.
  by rewrite (bind_raise _ _ _ _ _ (get_object_or_404_missing shop_product _ _ E)).
Qed.

Lemma ProductDetailView_delete_found pk p d :
  shop_product d !! pk = Some p →
  dispatch (ProductDetailView.delete pk) d
  = (product_deleted pk d,
     mkResponse (Message "message" "Product deleted successfully.") HTTP_204_NO_CONTENT).
Proof.
  intros E. unfold dispatch, ProductDetailView.delete.
  by rewrite (bind_return _ _ _ _ _ (get_object_or_404_found shop_product _ _ _ E)).
Qed.

Lemma ProductDetailView_delete_missing pk d :
  shop_product d !! pk = None →
  dispatch (ProductDetailView.delete pk) d = (d, mkResponse NotFound HTTP_404_NOT_FOUND).
Proof.
  intros E. unfold dispatch, ProductDetailView.delete.
  by rewrite (bind_raise _ _ _ _ _ (get_object_or_404_missing shop_product _ _ E)).
Qed.

Lemma ProductDetailView_put_cases pk request_data d :
  ProductDetailView.put pk request_data d =
  match shop_product d !! pk with
  | None => (d, Raise Http404)
  | Some p =>
      match serializers.to_internal_value ProductSerializer.fields true d request_data with
      | inl errors => (d, Return (mkResponse (Errors errors) HTTP_400_BAD_REQUEST))
      | inr validated_data =>
          let p' := ProductSerializer.setattrs p validated_data in
          if user_exists (Product.user p') d
          then (set_shop_product (<[pk := p']>) d,
                Return (mkResponse (Object (ProductSerializer.data pk p' validated_data))
                                   HTTP_200_OK))
          else (d, Raise IntegrityError)
      end
  end.
Proof.
  unfold ProductDetailView.put.
  destruct (shop_product d !! pk) as [p|] eqn:E.
  - rewrite (bind_return _ _ _ _ _ (get_object_or_404_found shop_product _ _ _ E)).
    rewrite bind_query.
    destruct (serializers.to_internal_value _ _ _ _) as [errors|validated_data]; [done|].
    unfold ProductSerializer.update, Product_save, mbind, orm_bind.
    by destruct (user_exists _ d).
  - by rewrite (bind_raise _ _ _ _ _ (get_object_or_404_missing shop_product _ _ E)).
Qed.

(** The user of an updated product is in the database: either validation
    looked it up, or it is the user the product had. *)
Lemma setattrs_user_exists p d request_data validated_data :
  serializers.to_internal_value ProductSerializer.fields true d request_data
    = inr validated_data →
  is_Some (auth_user d !! Product.user p) →
  user_exists (Product.user (ProductSerializer.setattrs p validated_data)) d = true.
Proof.
  intros Hv Hp. unfold ProductSerializer.setattrs. simpl.
  destruct (validated_data !! "user") as [v|] eqn:E.
  - destruct (validated_Product_user _ _ _ _ _ Hv E) as (_ & user & -> & Hu). done.
  - by apply bool_decide_eq_true_2.
Qed.

Lemma setattrs_frame p d request_data validated_data :
  serializers.to_internal_value ProductSerializer.fields true d request_data
    = inr validated_data →
  let p' := ProductSerializer.setattrs p validated_data in
  (request_data !! "name" = None → Product.name p' = Product.name p)
  ∧ (request_data !! "price" = None → Product.price p' = Product.price p)
  ∧ (request_data !! "user" = None → Product.user p' = Product.user p).
Proof.
  intros Hv. unfold ProductSerializer.setattrs. simpl.
  split_and!; intros Hk; by rewrite (partial_absent _ _ _ _ _ Hv Hk).
Qed.

(** A supplied field that validates is in [validated_data] with its value. *)
Ltac pick_in := rewrite ProductSerializer_writable; set_solver.

Lemma validated_supplied d request_data validated_data f v :
  serializers.to_internal_value ProductSerializer.fields true d request_data
    = inr validated_data →
  f ∈ serializers.writable_fields ProductSerializer.fields →
  serializers.run_validation f true d (request_data !! serializers.field_name f)
    = serializers.Valid v →
  validated_data !! serializers.field_name f = Some v.
Proof.
  intros Hv%to_internal_value_inr Hin Hf.
  eapply validate_fields_valid; [|exact Hv|exact Hin|exact Hf].
  by apply NoDup_names.
Qed.

(** A body that holds a price of 9.99 and nothing else. *)
Lemma to_internal_value_price_only d :
  serializers.to_internal_value ProductSerializer.fields true d {["price" := JStr "9.99"]}
  = inr {["price" := VDecimal (Decimal.mk false 999 (-2))]}.
Proof. vm_compute. reflexivity. Qed.

(** ** Product detail: DELETE and PUT *)

(** C4 as the specification states it fails: on an existing product the
    DELETE handler does answer 204, but its response carries the message
    object that the handler passes to [Response], not an empty body. *)
Lemma delete_response_is_not_empty :
  let '(st', r) := serve (hasher := example_hasher.hasher)
                     example.env (DELETE_product 1) example.alice_sells in
  shop_product (db example.alice_sells) !! 1%nat
    = Some (Product.mk "Widget" 1250 1)
  ∧ status_code r = 204%nat
  ∧ data r = Message "message" "Product deleted successfully."
  ∧ data r ≠ Empty.
Proof. vm_compute. split_and!; done. Qed.

(** C4, amended: DELETE on an existing product removes the row (and, by the
    cascade of Sale.product, the sales of that product, and nothing else) and
    answers 204 with the message "Product deleted successfully."; a GET of
    the same id then answers 404.  DELETE on an id that does not exist answers
    404 and changes nothing. *)
Theorem delete_removes_the_row_or_is_404 pk d :
  match shop_product d !! pk with
  | Some _ =>
      ∃ d',
        dispatch (ProductDetailView.delete pk) d
          = (d', mkResponse (Message "message" "Product deleted successfully.")
                            HTTP_204_NO_CONTENT)
        ∧ shop_product d' = delete pk (shop_product d)
        ∧ shop_sale d' = filter (λ kv, Sale.product kv.2 ≠ pk) (shop_sale d)
        ∧ auth_user d' = auth_user d
        ∧ shop_userloginlog d' = shop_userloginlog d
        ∧ dispatch (ProductDetailView.get pk) d'
          = (d', mkResponse NotFound HTTP_404_NOT_FOUND)
  | None =>
      dispatch (ProductDetailView.delete pk) d = (d, mkResponse NotFound HTTP_404_NOT_FOUND)
  end.
Proof.
  destruct (shop_product d !! pk) as [p|] eqn:E.
  - exists (product_deleted pk d). split_and!; try done.
    + by apply (ProductDetailView_delete_found pk p).
    + apply ProductDetailView_get_missing. simpl. apply lookup_delete_eq.
  - by apply ProductDetailView_delete_missing.
Qed.

(** C5: PUT is a partial update.  Whatever the body and whatever the
    outcome, the product is still there, each of name, price and user that
    the body does not supply keeps its value, and no other row of any table
    changes.  A body that supplies only the price 9.99 changes the price to
    9.99 and leaves name and user as they were. *)
Theorem put_changes_only_supplied_fields pk request_data p d :
  wf_db d →
  shop_product d !! pk = Some p →
  (∃ d' r p',
     dispatch (ProductDetailView.put pk request_data) d = (d', r)
     ∧ shop_product d' !! pk = Some p'
     ∧ (request_data !! "name" = None → Product.name p' = Product.name p)
     ∧ (request_data !! "price" = None → Product.price p' = Product.price p)
     ∧ (request_data !! "user" = None → Product.user p' = Product.user p)
     ∧ (status_code r = 200%nat →
          (∀ name, serializers.run_validation name_field true d (request_data !! "name")
                     = serializers.Valid (VStr name) → Product.name p' = name)
          ∧ (∀ price, serializers.run_validation price_field true d (request_data !! "price")
                        = serializers.Valid (VDecimal price) →
                      Product.price p' = Decimal.unscaled 2 price)
          ∧ (∀ user, serializers.run_validation user_field true d (request_data !! "user")
                       = serializers.Valid (VRef user) → Product.user p' = user))
     ∧ (∀ k, k ≠ pk → shop_product d' !! k = shop_product d !! k)
     ∧ auth_user d' = auth_user d
     ∧ shop_sale d' = shop_sale d
     ∧ shop_userloginlog d' = shop_userloginlog d)
  ∧ (let p' := Product.mk (Product.name p) 999 (Product.user p) in
     dispatch (ProductDetailView.put pk {["price" := JStr "9.99"]}) d
     = (set_shop_product (<[pk := p']>) d,
        mkResponse (Object [("id", NInt (Z.of_nat pk)); ("name", NStr (Product.name p));
                            ("price", NStr "9.99");
                            ("user", NInt (Z.of_nat (Product.user p)))])
                   HTTP_200_OK)).
Proof.
  intros Hwf E.
  assert (is_Some (auth_user d !! Product.user p)) as Hu.
  { destruct Hwf as (_ & _ & _ & _ & _ & F2 & _). by apply (F2 pk p). }
  split.
  - unfold dispatch. rewrite ProductDetailView_put_cases, E.
    destruct (serializers.to_internal_value _ _ _ _) as [errors|validated_data] eqn:Hv.
    + exists d, (mkResponse (Errors errors) HTTP_400_BAD_REQUEST), p. by split_and!.
    + cbv zeta. rewrite (setattrs_user_exists _ _ _ _ Hv Hu).
      destruct (setattrs_frame p _ _ _ Hv) as (Hn & Hp & Hr).
      eexists _, _, (ProductSerializer.setattrs p validated_data).
      split_and!; try done.
      * simpl. apply lookup_insert_eq.
      * intros _. split_and!; intros v Hf;
          eapply validated_supplied in Hf; try exact Hv; try (by pick_in);
          unfold ProductSerializer.setattrs; simpl in Hf |- *; by rewrite Hf.
      * intros k Hk. simpl. by rewrite lookup_insert_ne.
  - unfold dispatch. rewrite ProductDetailView_put_cases, E.
    rewrite to_internal_value_price_only. cbv zeta.
    rewrite (ProductSerializer_data pk p _ _ _ _ (to_internal_value_price_only d)).
    change (ProductSerializer.setattrs p {["price" := VDecimal (Decimal.mk false 999 (-2))]})
      with (Product.mk (Product.name p) 999 (Product.user p)).
    unfold user_exists. simpl Product.user. rewrite (bool_decide_eq_true_2 _ Hu). reflexivity.
Qed.

Lemma put_changes_only_supplied_fields_witness :
  let p := Product.mk "Widget" 1250 1 in
  let p' := Product.mk "Widget" 999 1 in
  dispatch (ProductDetailView.put 1 {["price" := JStr "9.99"]}) (db example.alice_sells)
  = (set_shop_product (<[1%nat := p']>) (db example.alice_sells),
     mkResponse (Object [("id", NInt 1); ("name", NStr "Widget");
                         ("price", NStr "9.99"); ("user", NInt 1)])
                HTTP_200_OK).
Proof.
  intros p p'.
  apply (put_changes_only_supplied_fields 1 ∅ p (db example.alice_sells)).
  - apply (bool_decide_unpack _). vm_compute. exact I.
  - vm_compute. reflexivity.
Defined.

(** The errors of a body: the failing fields with their codes, in field
    order. *)
Lemma validate_fields_errors_eq fs partial d request_data :
  (serializers.validate_fields fs partial d request_data).1
  = omap (λ f, match serializers.run_validation f partial d
                       (request_data !! serializers.field_name f) with
               | serializers.Invalid codes => Some (serializers.field_name f, codes)
               | _ => None
               end) fs.
Proof.
  induction fs as [|f fs IH]; [done|].
  match goal with
  | |- _ = omap ?g (f :: fs) =>
      change (omap g (f :: fs))
        with (match g f with Some y => y :: omap g fs | None => omap g fs end)
  end.
  cbv beta. rewrite <- IH. cbn [serializers.validate_fields].
  destruct (serializers.validate_fields fs partial d request_data) as [errors ret].
  by destruct (serializers.run_validation f partial d _).
Qed.

(** C10: a PUT whose body fails validation answers 400 with the errors of
    exactly the fields that failed, each with its error codes, and leaves the
    database as it was: nothing of the body is written, not even the fields
    that were valid. *)
Theorem put_invalid_body_changes_nothing pk request_data p d :
  let failure f :=
    match serializers.run_validation f true d (request_data !! serializers.field_name f) with
    | serializers.Invalid codes => Some (serializers.field_name f, codes)
    | _ => None
    end in
  let errors := omap failure [name_field; price_field; user_field] in
  shop_product d !! pk = Some p →
  serializers.is_valid ProductSerializer.fields true d request_data = false →
  errors ≠ []
  ∧ dispatch (ProductDetailView.put pk request_data) d
    = (d, mkResponse (Errors errors) HTTP_400_BAD_REQUEST)
  ∧ (∀ k codes,
       (k, codes) ∈ errors
       ↔ ∃ f, f ∈ [name_field; price_field; user_field]
              ∧ serializers.field_name f = k
              ∧ serializers.run_validation f true d (request_data !! k)
                = serializers.Invalid codes).
Proof.
  intros failure errors E Hiv. unfold serializers.is_valid in Hiv.
  destruct (serializers.to_internal_value _ _ _ _) as [errors'|] eqn:Hv; [|done].
  pose proof Hv as (Hne & ret & Hvf)%to_internal_value_inl.
  assert (errors' = errors) as ->.
  { pose proof (validate_fields_errors_eq
                  (serializers.writable_fields ProductSerializer.fields) true d request_data)
      as Heq.
    rewrite Hvf, ProductSerializer_writable in Heq. exact Heq. }
  split_and!; [done| |].
  - unfold dispatch. by rewrite ProductDetailView_put_cases, E, Hv.
  - intros k codes. unfold errors. rewrite list_elem_of_omap. split.
    + intros (f & Hin & Hf). exists f. split; [done|]. unfold failure in Hf.
      destruct (serializers.run_validation f true d _) as [| |codes'] eqn:Ef; try done.
      injection Hf as <- <-. done.
    + intros (f & Hin & <- & Hf). exists f. split; [done|]. unfold failure. by rewrite Hf.
Qed.

Lemma put_invalid_body_changes_nothing_witness :
  dispatch (ProductDetailView.put 1
              (example.body [("name", JStr "Gadget"); ("price", JStr "a lot");
                             ("user", JStr "nobody")]))
           (db example.alice_sells)
  = (db example.alice_sells,
     mkResponse (Errors [("price", [code.invalid]); ("user", [code.incorrect_type])])
                HTTP_400_BAD_REQUEST).
Proof.
  apply (put_invalid_body_changes_nothing 1
           (example.body [("name", JStr "Gadget"); ("price", JStr "a lot");
                          ("user", JStr "nobody")])
           (Product.mk "Widget" 1250 1) (db example.alice_sells)).
  - vm_compute. reflexivity.
  - vm_compute. reflexivity.
Defined.

(** ** Printing a price and reading it back *)

Lemma app_nil_r (s : string) : s ++ "" = s.
Proof. induction s as [|c s IH]; [done|]. by rewrite app_cons, IH. Qed.

Lemma digits_value_app acc ds ds' :
  Py.digits_value acc (ds ++ ds') = Py.digits_value (Py.digits_value acc ds) ds'.
Proof.
  revert acc. induction ds as [|c ds IH]; intros acc; [done|].
  rewrite app_cons. simpl. apply IH.
Qed.

Lemma isdecimal_app ds ds' :
  Py.isdecimal (ds ++ ds') = Py.isdecimal ds && Py.isdecimal ds'.
Proof.
  induction ds as [|c ds IH]; [done|].
  rewrite app_cons. simpl. by rewrite IH, andb_assoc.
Qed.

Lemma pretty_N_char_digit n :
  (n < 10)%N →
  Py.isdigit (pretty_N_char n) = true ∧ Py.digit_value (pretty_N_char n) = n.
Proof.
  intros Hn.
  assert (n = 0 ∨ n = 1 ∨ n = 2 ∨ n = 3 ∨ n = 4 ∨ n = 5 ∨ n = 6 ∨ n = 7 ∨ n = 8 ∨ n = 9)%N
    as Hcases by lia.
  repeat (destruct Hcases as [->|Hcases]; [by split|]). by subst.
Qed.

(** The digits that [pretty] puts in front of [s] for the number [x]: they
    are decimal digits, they denote [x], and there are at most [k] of them
    when [x < 10 ^ k]. *)
Lemma pretty_N_go_digits x s :
  ∃ ds, pretty_N_go x s = ds ++ s
        ∧ Py.isdecimal ds = true
        ∧ (∀ acc, Py.digits_value acc ds
                  = (acc * 10 ^ N.of_nat (String.length ds) + x)%N)
        ∧ ((0 < x)%N → ds ≠ "")
        ∧ (∀ k, (x < 10 ^ N.of_nat k)%N → (String.length ds ≤ k)%nat).
Proof.
  revert s. induction (N.lt_wf_0 x) as [x _ IH]. intros s.
  assert (x = 0 ∨ 0 < x)%N as [->|Hpos] by lia.
  - exists "". rewrite pretty_N_go_0. split_and!; try done; intros; simpl; lia.
  - rewrite pretty_N_go_step by done.
    destruct (IH (x `div` 10)%N (N.div_lt x 10 Hpos eq_refl)
                 (String (pretty_N_char (x `mod` 10)) s))
      as (ds & -> & Hd & Hv & _ & Hlen).
    destruct (pretty_N_char_digit (x `mod` 10)%N) as [Hc1 Hc2].
    { by apply N.mod_lt. }
    exists (ds ++ String (pretty_N_char (x `mod` 10)) "").
    split_and!.
    + by rewrite app_assoc.
    + rewrite isdecimal_app, Hd. simpl. by rewrite Hc1.
    + intros acc. rewrite digits_value_app, Hv. simpl. rewrite Hc2.
      rewrite length_app. simpl.
      replace (N.of_nat (String.length ds + 1)) with (N.succ (N.of_nat (String.length ds)))
        by lia.
      rewrite N.pow_succ_r'. pose proof (N.div_mod x 10). lia.
    + intros _ E. apply (f_equal String.length) in E.
      rewrite length_app in E. simpl in E. lia.
    + intros k Hk. rewrite length_app. simpl.
      destruct k as [|k]; [simpl in Hk; lia|].
      enough (String.length ds ≤ k)%nat by lia. apply Hlen.
      replace (N.of_nat (S k)) with (N.succ (N.of_nat k)) in Hk by lia.
      rewrite N.pow_succ_r' in Hk.
      apply N.Div0.div_lt_upper_bound. lia.
Qed.

Lemma pretty_N_digits (x : N) :
  Py.isdecimal (pretty x) = true
  ∧ pretty x ≠ ""
  ∧ (∀ acc, Py.digits_value acc (pretty x)
            = (acc * 10 ^ N.of_nat (String.length (pretty x)) + x)%N)
  ∧ (∀ k, (0 < k)%nat → (x < 10 ^ N.of_nat k)%N → (String.length (pretty x) ≤ k)%nat).
Proof.
  unfold pretty, pretty_N. destruct (decide (x = 0%N)) as [->|Hx].
  - split_and!; try done; intros; simpl; unfold Py.digit_value; simpl; lia.
  - destruct (pretty_N_go_digits x "") as (ds & -> & Hd & Hv & Hne & Hlen).
    rewrite app_nil_r. split_and!; try done.
    + apply Hne. lia.
    + intros k _. apply Hlen.
Qed.

Lemma pretty_Z_nonneg (z : Z) : 0 ≤ z → pretty z = pretty (Z.to_N z).
Proof. by destruct z. Qed.

Lemma span_digits_app ds rest :
  Py.isdecimal ds = true →
  match rest with String c _ => Py.isdigit c = false | EmptyString => True end →
  Py.span_digits (ds ++ rest) = (ds, rest).
Proof.
  intros Hd Hrest. induction ds as [|c ds IH].
  - change ("" ++ rest) with rest. destruct rest as [|c rest]; [done|].
    simpl. by rewrite Hrest.
  - rewrite app_cons. simpl in Hd |- *. apply andb_true_iff in Hd as [-> Hd].
    by rewrite IH.
Qed.

Lemma lstrip_id s :
  match s with String c _ => Py.isspace c = false | EmptyString => True end →
  Py.lstrip s = s.
Proof. destruct s as [|c s]; [done|]. simpl. by intros ->. Qed.

Lemma rstrip_snoc s c :
  Py.isspace c = false → Py.rstrip (s ++ String c "") = s ++ String c "".
Proof.
  intros Hc. induction s as [|x s IH].
  - simpl. by rewrite Hc.
  - rewrite app_cons. simpl. rewrite IH.
    destruct s; by rewrite ?app_cons.
Qed.

Lemma remove_char_id c s : Py.contains_char c s = false → Py.remove_char c s = s.
Proof.
  induction s as [|x s IH]; [done|]. simpl.
  intros [-> Hs]%orb_false_iff. by rewrite IH.
Qed.

Lemma contains_char_app c s s' :
  Py.contains_char c (s ++ s') = Py.contains_char c s || Py.contains_char c s'.
Proof.
  induction s as [|x s IH]; [done|]. rewrite app_cons. simpl.
  by rewrite IH, orb_assoc.
Qed.

Lemma isdigit_cases c :
  Py.isdigit c = true →
  Py.isspace c = false ∧ Ascii.eqb "_" c = false
  ∧ ∀ s, Py.take_sign (String c s) = (false, String c s).
Proof. destruct c as [[] [] [] [] [] [] [] []]; by intros. Qed.

Lemma isdecimal_no_underscore ds :
  Py.isdecimal ds = true → Py.contains_char "_" ds = false.
Proof.
  induction ds as [|c ds IH]; [done|].
  intros [Hc Hd]%andb_true_iff.
  change (Py.contains_char "_" (String c ds))
    with (Ascii.eqb "_" c || Py.contains_char "_" ds).
  destruct (isdigit_cases c Hc) as (_ & -> & _). by apply IH.
Qed.

(** Zero padding keeps digits digits and their value. *)
Lemma pad_left_digits width ds :
  Py.isdecimal ds = true →
  (String.length ds ≤ width)%nat →
  Py.isdecimal (Decimal.pad_left width ds) = true
  ∧ String.length (Decimal.pad_left width ds) = width
  ∧ ∀ acc, Py.digits_value acc (Decimal.pad_left width ds)
           = Py.digits_value (acc * 10 ^ N.of_nat (width - String.length ds))%N ds.
Proof.
  intros Hd Hlen. unfold Decimal.pad_left.
  remember (width - String.length ds)%nat as n eqn:En.
  assert (width = n + String.length ds)%nat as -> by lia. clear En Hlen.
  induction n as [|n IH]; simpl.
  - change ("" ++ ds) with ds. split_and!; try done. intros acc. f_equal. lia.
  - destruct IH as (IH1 & IH2 & IH3). split_and!.
    + done.
    + by rewrite IH2.
    + intros acc. rewrite IH3. f_equal.
      rewrite Nat2N.inj_succ, N.pow_succ_r'. unfold Py.digit_value. simpl. lia.
Qed.

(** A number of few digits with a small exponent is within the limits of
    [decimal]. *)
Lemma in_range_small coefficient exponent :
  (Py.ndigits coefficient ≤ 1000)%nat → -2000 ≤ exponent ≤ 1000 →
  Decimal.in_range coefficient exponent = true.
Proof.
  intros Hn He. unfold Decimal.in_range, Decimal.MAX_EMAX, Decimal.MAX_PREC.
  apply andb_true_iff. split; apply Z.leb_le; lia.
Qed.

(** The text that the serializer prints for a price reads back as that
    price: sign, coefficient and exponent -2. *)
Lemma of_str_format_f q :
  let text := Decimal.format_f 2 q in
  Py.strip text = text
  ∧ (Z.abs q < 10 ^ 10 →
     Decimal.of_str text = Some (Decimal.mk (q <? 0) (Z.to_N (Z.abs q)) (-2)))
  ∧ ∀ k, (0 < k)%nat → Z.abs q / 100 < 10 ^ Z.of_nat k →
         (String.length text ≤ k + 4)%nat.
Proof.
  unfold Decimal.format_f. change (10 ^ Z.of_nat 2) with 100.
  set (a := Z.abs q).
  assert (0 ≤ a / 100) as HI by (apply Z.div_pos; lia).
  assert (0 ≤ a mod 100 < 100) as HF by (apply Z.mod_pos_bound; lia).
  rewrite (pretty_Z_nonneg (a / 100)) by done.
  rewrite (pretty_Z_nonneg (a mod 100)) by lia.
  destruct (pretty_N_digits (Z.to_N (a / 100))) as (Hd1 & Hne1 & Hv1 & Hlen1).
  destruct (pretty_N_digits (Z.to_N (a mod 100))) as (Hd2 & Hne2 & Hv2 & Hlen2).
  set (ints := pretty (Z.to_N (a / 100))) in *.
  destruct (pad_left_digits 2 (pretty (Z.to_N (a mod 100))) Hd2) as (Hd3 & Hlen3 & Hv3).
  { apply Hlen2; [lia|]. change (10 ^ N.of_nat 2)%N with 100%N. lia. }
  assert (∀ acc, Py.digits_value acc (Decimal.pad_left 2 (pretty (Z.to_N (a mod 100))))
                 = (acc * 100 + Z.to_N (a mod 100))%N) as Hv4.
  { intros acc. rewrite Hv3, Hv2. rewrite <- N.mul_assoc, <- N.pow_add_r.
    replace (N.of_nat (2 - String.length (pretty (Z.to_N (a mod 100))))
             + N.of_nat (String.length (pretty (Z.to_N (a mod 100)))))%N with 2%N; [done|].
    assert (String.length (pretty (Z.to_N (a mod 100))) ≤ 2)%nat; [|lia].
    apply Hlen2; [lia|]. change (10 ^ N.of_nat 2)%N with 100%N. lia. }
  set (frac := Decimal.pad_left 2 (pretty (Z.to_N (a mod 100)))) in *.
  clearbody frac. clear Hd2 Hne2 Hv2 Hlen2 Hv3.
  destruct frac as [|c1 [|c2 [|c3 frac]]]; try discriminate Hlen3.
  simpl in Hd3. apply andb_true_iff in Hd3 as [Hc1 Hc2].
  rewrite andb_true_r in Hc2.
  clearbody ints. destruct ints as [|c0 ints]; [done|].
  simpl in Hd1. apply andb_true_iff in Hd1 as [Hc0 Hd1].
  destruct (isdigit_cases c0 Hc0) as (Hs0 & Hu0 & Ht0).
  destruct (isdigit_cases c1 Hc1) as (Hs1 & Hu1 & _).
  destruct (isdigit_cases c2 Hc2) as (Hs2 & Hu2 & _).
  set (sign := if q <? 0 then "-" else "").
  set (text := sign ++ String c0 ints ++ "." ++ String c1 (String c2 "")).
  assert (Py.strip text = text) as Hstrip.
  { unfold Py.strip. rewrite lstrip_id.
    - unfold text.
      replace (sign ++ String c0 ints ++ "." ++ String c1 (String c2 ""))
        with ((sign ++ String c0 ints ++ "." ++ String c1 "") ++ String c2 "").
      + by apply rstrip_snoc.
      + by rewrite !app_assoc.
    - unfold text, sign. destruct (q <? 0); [done|].
      change ("" ++ String c0 ints ++ "." ++ String c1 (String c2 ""))
        with (String c0 (ints ++ "." ++ String c1 (String c2 ""))). done. }
  split_and!; [done| |].
  - intros Hq. unfold Decimal.of_str. rewrite Hstrip.
    assert (Py.remove_char "_" text = text) as ->.
    { apply remove_char_id. unfold text.
      rewrite !contains_char_app.
      change (Py.contains_char "_" (String c0 ints))
        with (Ascii.eqb "_" c0 || Py.contains_char "_" ints).
      rewrite Hu0, (isdecimal_no_underscore ints Hd1).
      change (Py.contains_char "_" (String c1 (String c2 "")))
        with (Ascii.eqb "_" c1 || (Ascii.eqb "_" c2 || false)).
      rewrite Hu1, Hu2. unfold sign. by destruct (q <? 0). }
    assert (Py.take_sign text
            = (q <? 0, String c0 ints ++ "." ++ String c1 (String c2 ""))) as ->.
    { unfold text, sign. destruct (q <? 0); [done|].
      change ("" ++ String c0 ints ++ "." ++ String c1 (String c2 ""))
        with (String c0 (ints ++ "." ++ String c1 (String c2 ""))).
      apply Ht0. }
    rewrite span_digits_app; [|simpl; by rewrite Hc0|done].
    change ("." ++ String c1 (String c2 "")) with (String "." (String c1 (String c2 ""))).
    cbv iota beta.
    replace (Py.span_digits (String c1 (String c2 "")))
      with (String c1 (String c2 ""), "").
    2:{ simpl. by rewrite Hc1, Hc2. }
    change (String c0 ints ++ String c1 (String c2 ""))
      with (String c0 (ints ++ String c1 (String c2 ""))).
    cbv iota beta. simpl Decimal.exponent_part. cbv iota beta zeta.
    change (String c0 (ints ++ String c1 (String c2 "")))
      with (String c0 ints ++ String c1 (String c2 "")).
    rewrite digits_value_app, Hv1, Hv4.
    match goal with
    | |- context [Decimal.in_range ?c _] =>
        replace c with (Z.to_N a) by (pose proof (Z.div_mod a 100); lia)
    end.
    rewrite in_range_small; [done| |simpl; lia].
    destruct (pretty_N_digits (Z.to_N a)) as (_ & _ & _ & Hlen).
    unfold Py.ndigits. etrans; [apply (Hlen 10%nat); [lia|]|lia].
    change (10 ^ N.of_nat 10)%N with (Z.to_N (10 ^ 10)). lia.
  - intros k Hk Hbound. unfold text. rewrite !length_app.
    assert (String.length (String c0 ints) ≤ k)%nat.
    { apply Hlen1; [done|]. lia. }
    unfold sign. destruct (q <? 0); simpl in *; lia.
Qed.

(** A price within ten digits, written the way the serializer writes it, is
    accepted by the price field and validates to itself. *)
Lemma run_validation_price_format_f partial d q :
  Z.abs q < 10 ^ 10 →
  serializers.run_validation price_field partial d (Some (JStr (Decimal.format_f 2 q)))
  = serializers.Valid (VDecimal (Decimal.from_db 2 q)).
Proof.
  intros Hq. destruct (of_str_format_f q) as (Hstrip & Hparse & Hlen).
  specialize (Hparse Hq).
  unfold serializers.run_validation, price_field. cbn [serializers.class serializers.read_only].
  cbv iota beta. unfold serializers.field_to_internal_value. cbn [py_str].
  rewrite Hstrip, Hparse.
  assert (String.length (Decimal.format_f 2 q) ≤ 14)%nat as Hl.
  { apply (Hlen 10%nat); [lia|]. change (Z.of_nat 10) with 10.
    apply Z.div_lt_upper_bound; lia. }
  replace (serializers.MAX_STRING_LENGTH <? String.length (Decimal.format_f 2 q))%nat
    with false.
  2:{ symmetry. apply Nat.ltb_ge. unfold serializers.MAX_STRING_LENGTH. lia. }
  assert (serializers.validate_precision 10 2
            (Decimal.mk (q <? 0) (Z.to_N (Z.abs q)) (-2)) = None) as ->.
  { unfold serializers.validate_precision, Py.ndigits.
    cbn [Decimal.coefficient Decimal.exponent].
    destruct (pretty_N_digits (Z.to_N (Z.abs q))) as (_ & Hne & _ & Hlen').
    assert (String.length (pretty (Z.to_N (Z.abs q))) ≤ 10)%nat as Hten.
    { apply Hlen'; [lia|]. change (10 ^ N.of_nat 10)%N with (Z.to_N (10 ^ 10)). lia. }
    set (len := String.length (pretty (Z.to_N (Z.abs q)))) in *.
    change (0 <=? -2) with false. cbv iota. change (Z.abs (-2)) with 2.
    destruct (2 <? Z.of_nat len) eqn:E; cbv iota beta.
    - replace (Z.of_nat 10 <? Z.of_nat len) with false by (symmetry; apply Z.ltb_ge; lia).
      change (Z.of_nat 2 <? 2) with false. cbv iota.
      by replace (Z.of_nat 10 - Z.of_nat 2 <? Z.of_nat len - 2) with false
        by (symmetry; apply Z.ltb_ge; lia).
    - reflexivity. }
  f_equal. f_equal. change (Decimal.mk (q <? 0) (Z.to_N (Z.abs q)) (-2))
    with (Decimal.from_db 2 q).
  unfold Decimal.quantize. rewrite unscaled_from_db. reflexivity.
Qed.

(** ** Product create, then read *)


(** What validation makes of a string name, an integer user, a string price. *)
Lemma run_validation_CharField_JStr f validators partial d s v :
  serializers.class f = serializers.CharField validators →
  serializers.run_validation f partial d (Some (JStr s)) = serializers.Valid v →
  v = VStr (Py.strip s).
Proof.
  intros Hc. unfold serializers.run_validation. rewrite Hc.
  destruct (String.eqb (Py.strip s) ""); [done|].
  destruct (serializers.read_only f); [done|].
  unfold serializers.field_to_internal_value.
  destruct (serializers.run_validators d validators _); [|done]. by intros [= <-].
Qed.

Lemma run_validation_name_JStr partial d s name :
  serializers.run_validation name_field partial d (Some (JStr s))
    = serializers.Valid (VStr name) →
  name = Py.strip s.
Proof.
  intros Hv. eapply run_validation_CharField_JStr in Hv; [|reflexivity].
  by injection Hv.
Qed.

Lemma run_validation_user_JInt partial d z user :
  serializers.run_validation user_field partial d (Some (JInt z))
    = serializers.Valid (VRef user) →
  Z.of_nat user = z.
Proof.
  unfold serializers.run_validation, user_field. simpl.
  destruct (0 <=? z) eqn:Ez; simpl; [|done].
  destruct (user_exists (Z.to_nat z) d); [|done].
  intros [= <-]. lia.
Qed.

Lemma run_validation_price_JStr partial d s price :
  serializers.run_validation price_field partial d (Some (JStr s))
    = serializers.Valid (VDecimal price) →
  ∃ dec, Decimal.of_str (Py.strip s) = Some dec
         ∧ serializers.validate_precision 10 2 dec = None
         ∧ price = Decimal.quantize 2 dec.
Proof.
  unfold serializers.run_validation, price_field. simpl.
  destruct (_ <? _)%nat; [done|].
  destruct (Decimal.of_str (Py.strip s)) as [dec|]; [|done].
  destruct (serializers.validate_precision 10 2 dec) eqn:Ep; [done|].
  intros [= <-]. eauto.
Qed.

(** C8 as the specification states it fails: the product is created from
    the validated values, not from the submitted ones.  A name submitted with
    spaces around it comes back stripped, and a price submitted as 9.5 comes
    back as 9.50.  A price of negative zero, submitted as -0.00, is answered
    as -0.00 by the creation and is stored as zero: the GET returns 0.00. *)
Lemma create_then_get_is_not_the_identity :
  let submitted :=
    example.body [("name", JStr " Widget "); ("price", JStr "9.5"); ("user", JInt 1)] in
  let minus_zero :=
    example.body [("name", JStr "Widget"); ("price", JStr "-0.00"); ("user", JInt 1)] in
  (let '(d', created) :=
     dispatch (ProductListView.post submitted) (db example.alice_registered) in
   status_code created = 201%nat
   ∧ getitem "id" (match data created with Object o => o | _ => [] end) = Some (NInt 1)
   ∧ dispatch (ProductDetailView.get 1) d'
     = (d', mkResponse (Object [("id", NInt 1); ("name", NStr "Widget");
                                ("price", NStr "9.50"); ("user", NInt 1)]) 200%nat)
   ∧ same_json (JStr " Widget ") (NStr "Widget") = false
   ∧ same_json (JStr "9.5") (NStr "9.50") = false)
  ∧ (let '(d', created) :=
       dispatch (ProductListView.post minus_zero) (db example.alice_registered) in
     created = mkResponse (Object [("id", NInt 1); ("name", NStr "Widget");
                                   ("price", NStr "-0.00"); ("user", NInt 1)]) 201%nat
     ∧ dispatch (ProductDetailView.get 1) d'
       = (d', mkResponse (Object [("id", NInt 1); ("name", NStr "Widget");
                                  ("price", NStr "0.00"); ("user", NInt 1)]) 200%nat)
     ∧ same_json (JStr "-0.00") (NStr "0.00") = false).
Proof. vm_compute. split_and!; reflexivity. Qed.

(** C8, amended: creating a product and then reading it by the returned id
    yields the validated form of what was submitted: the name with the
    surrounding whitespace stripped, the value of the submitted price written
    with two fraction digits, and the user's id as an integer.  The answer to
    the creation shows the same object, except that it shows a price of
    negative zero with its sign, which the stored price does not have.  A
    name without surrounding whitespace, a price written the way stored
    prices are written (plain notation, two fraction digits, no negative
    zero) and a user given as an integer come back exactly as submitted. *)
Theorem create_then_get_returns_validated_values request_data d d' created :
  dispatch (ProductListView.post request_data) d = (d', created) →
  status_code created = 201%nat →
  ∃ pk name price user,
    serializers.run_validation name_field false d (request_data !! "name")
      = serializers.Valid (VStr name)
    ∧ serializers.run_validation price_field false d (request_data !! "price")
      = serializers.Valid (VDecimal price)
    ∧ serializers.run_validation user_field false d (request_data !! "user")
      = serializers.Valid (VRef user)
    ∧ shop_product d' !! pk = Some (Product.mk name (Decimal.unscaled 2 price) user)
    ∧ created
      = mkResponse (Object [("id", NInt (Z.of_nat pk)); ("name", NStr name);
                            ("price", NStr (Decimal.to_str 2 price));
                            ("user", NInt (Z.of_nat user))])
                   HTTP_201_CREATED
    ∧ dispatch (ProductDetailView.get pk) d'
      = (d', mkResponse (Object [("id", NInt (Z.of_nat pk)); ("name", NStr name);
                                 ("price", NStr (Decimal.format_f 2 (Decimal.unscaled 2 price)));
                                 ("user", NInt (Z.of_nat user))])
                        HTTP_200_OK)
    ∧ (if Decimal.negative price && (Decimal.unscaled 2 price =? 0)
       then Decimal.to_str 2 price = "-0.00"
            ∧ Decimal.format_f 2 (Decimal.unscaled 2 price) = "0.00"
       else Decimal.to_str 2 price = Decimal.format_f 2 (Decimal.unscaled 2 price))
    ∧ (∀ s, request_data !! "name" = Some (JStr s) → name = Py.strip s)
    ∧ (∀ s, request_data !! "name" = Some (JStr s) → Py.strip s = s →
            same_json (JStr s) (NStr name) = true)
    ∧ (∀ s, request_data !! "price" = Some (JStr s) →
            ∃ dec, Decimal.of_str (Py.strip s) = Some dec
                   ∧ Decimal.unscaled 2 price = Decimal.unscaled 2 dec)
    ∧ (∀ q, Z.abs q < 10 ^ 10 →
            request_data !! "price" = Some (JStr (Decimal.format_f 2 q)) →
            same_json (JStr (Decimal.format_f 2 q))
                      (NStr (Decimal.format_f 2 (Decimal.unscaled 2 price))) = true)
    ∧ (∀ z, request_data !! "user" = Some (JInt z) →
            same_json (JInt z) (NInt (Z.of_nat user)) = true).
Proof.
  intros Hpost Hstatus.
  destruct (ProductListView_post_cases request_data d)
    as [(errors & _ & Hc)|(name & price & user & R1 & R2 & R3 & Hu & Hc)];
    rewrite Hc in Hpost; injection Hpost as <- <-; [done|].
  exists (S (shop_product_seq d)), name, price, user.
  split_and!; try done.
  - simpl. apply lookup_insert_eq.
  - rewrite (ProductDetailView_get_found _
               (Product.mk name (Decimal.unscaled 2 price) user)).
    + by rewrite ProductSerializer_to_representation.
    + simpl. apply lookup_insert_eq.
  - destruct (Decimal.negative price) eqn:Hn; cbn [andb].
    + destruct (Z.eqb_spec (Decimal.unscaled 2 price) 0) as [Hz|Hz].
      * rewrite Hz. split; [|reflexivity]. by rewrite (to_str_negative_zero 2 price).
      * by apply to_str_unscaled.
    + apply to_str_unscaled. by rewrite Hn.
  - intros s Hs. rewrite Hs in R1. by apply run_validation_name_JStr in R1.
  - intros s Hs Hstrip. rewrite Hs in R1. apply run_validation_name_JStr in R1.
    subst name. rewrite Hstrip. simpl. apply String.eqb_refl.
  - intros s Hs. rewrite Hs in R2.
    apply run_validation_price_JStr in R2 as (dec & ? & _ & ->).
    exists dec. split; [done|]. apply unscaled_quantize.
  - intros q Hq Hs. rewrite Hs, (run_validation_price_format_f _ _ _ Hq) in R2.
    injection R2 as <-. rewrite unscaled_from_db. simpl. apply String.eqb_refl.
  - intros z Hz. rewrite Hz in R3. apply run_validation_user_JInt in R3.
    simpl. by apply Z.eqb_eq.
Qed.

Lemma create_then_get_returns_validated_values_witness :
  let submitted :=
    example.body [("name", JStr " Widget "); ("price", JStr "-0.0"); ("user", JInt 1)] in
  let out := dispatch (ProductListView.post submitted) (db example.alice_registered) in
  ∃ pk name price user,
    shop_product out.1 !! pk = Some (Product.mk name (Decimal.unscaled 2 price) user)
    ∧ out.2
      = mkResponse (Object [("id", NInt (Z.of_nat pk)); ("name", NStr name);
                            ("price", NStr (Decimal.to_str 2 price));
                            ("user", NInt (Z.of_nat user))])
                   HTTP_201_CREATED
    ∧ dispatch (ProductDetailView.get pk) out.1
      = (out.1, mkResponse (Object [("id", NInt (Z.of_nat pk)); ("name", NStr name);
                                    ("price",
                                     NStr (Decimal.format_f 2 (Decimal.unscaled 2 price)));
                                    ("user", NInt (Z.of_nat user))]) HTTP_200_OK)
    ∧ (∀ s, submitted !! "name" = Some (JStr s) → name = Py.strip s).
Proof.
  intros submitted out.
  destruct (create_then_get_returns_validated_values
              submitted (db example.alice_registered) out.1 out.2)
    as (pk & name & price & user & _ & _ & _ & Hrow & Hcreated & Hget & _ & Hname & _).
  - apply surjective_pairing.
  - vm_compute. reflexivity.
  - exists pk, name, price, user. split_and!; assumption.
Defined.

(** ** What each operation does to the rows of the sale and log tables *)

Lemma filter_lookup_cases {A} (P : nat * A → Prop) `{!∀ x, Decision (P x)}
    (m : gmap nat A) k :
  filter P m !! k = m !! k ∨ filter P m !! k = None.
Proof.
  destruct (filter P m !! k) as [x|] eqn:E; [left|by right].
  by apply map_lookup_filter_Some in E as [-> _].
Qed.

Create HintDb orm discriminated.

(** Closes [respects R op] for a primitive [op] that leaves the table of [R]
    alone or inserts above its sequence value. *)
Ltac respects_primitive :=
  intros ?; cbv beta delta [execute]; simpl;
  repeat (case_match; simpl);
  (split; simpl; [lia|]); intros; simpl;
  rewrite ?lookup_insert_ne by lia; auto.

Section Tables.
Context {hasher : PasswordHasher}.

(** *** Sales are only ever deleted *)

Lemma sales_create_user env username password :
  respects sales (create_user env username password).
Proof. unfold create_user. respects_primitive. Qed.

Lemma sales_UserLoginLog_objects_create env user username success :
  respects sales (UserLoginLog_objects_create env user username success).
Proof. unfold UserLoginLog_objects_create. respects_primitive. Qed.

Lemma sales_Product_objects_create p : respects sales (Product_objects_create p).
Proof. unfold Product_objects_create. respects_primitive. Qed.

Lemma sales_Sale_objects_create env product user :
  respects sales (Sale_objects_create env product user).
Proof. unfold Sale_objects_create. respects_primitive. Qed.

Lemma sales_Product_save pk p : respects sales (Product_save pk p).
Proof. unfold Product_save. respects_primitive. Qed.

Lemma sales_login env pk session : respects sales (login env pk session).
Proof. unfold login. respects_primitive. Qed.

Lemma sales_Product_delete pk : respects sales (Product_delete pk).
Proof.
  intros d. split; simpl; [lia|]. intros k _. apply filter_lookup_cases.
Qed.

Lemma sales_User_delete pk : respects sales (User_delete pk).
Proof.
  intros d. split; simpl; [lia|]. intros k _. apply filter_lookup_cases.
Qed.

(** *** Log rows are kept by everything but the deletion of a user *)

Lemma logs_create_user env username password :
  respects logs (create_user env username password).
Proof. unfold create_user. respects_primitive. Qed.

Lemma logs_UserLoginLog_objects_create env user username success :
  respects logs (UserLoginLog_objects_create env user username success).
Proof. unfold UserLoginLog_objects_create. respects_primitive. Qed.

Lemma logs_Product_objects_create p : respects logs (Product_objects_create p).
Proof. unfold Product_objects_create. respects_primitive. Qed.

Lemma logs_Sale_objects_create env product user :
  respects logs (Sale_objects_create env product user).
Proof. unfold Sale_objects_create. respects_primitive. Qed.

Lemma logs_Product_save pk p : respects logs (Product_save pk p).
Proof. unfold Product_save. respects_primitive. Qed.

Lemma logs_login env pk session : respects logs (login env pk session).
Proof. unfold login. respects_primitive. Qed.

Lemma logs_Product_delete pk : respects logs (Product_delete pk).
Proof. unfold Product_delete. respects_primitive. Qed.

End Tables.

#[export] Hint Resolve
  sales_create_user sales_UserLoginLog_objects_create sales_Product_objects_create
  sales_Sale_objects_create sales_Product_save sales_login sales_Product_delete
  sales_User_delete
  logs_create_user logs_UserLoginLog_objects_create logs_Product_objects_create
  logs_Sale_objects_create logs_Product_save logs_login logs_Product_delete : orm.

(** ** The views, as compositions of those operations *)

Lemma dispatch_fst (handler : orm Response) d : (dispatch handler d).1 = (handler d).1.
Proof. unfold dispatch. by destruct (handler d) as [d' [r|e]]. Qed.

Section Views.
Context {hasher : PasswordHasher}.

Lemma serve_db env r st :
  db (serve env r st).1 =
  match r with
  | POST_users_create request_data => (UserCreateView.post env request_data (db st)).1
  | POST_users_login request_data =>
      (UserLoginView.post env request_data (session st) (db st)).1
  | GET_products => (ProductListView.get (db st)).1
  | POST_products request_data => (ProductListView.post request_data (db st)).1
  | GET_product pk => (ProductDetailView.get pk (db st)).1
  | PUT_product pk request_data => (ProductDetailView.put pk request_data (db st)).1
  | DELETE_product pk => (ProductDetailView.delete pk (db st)).1
  | POST_sales request_data => (SaleCreateView.post env request_data (db st)).1
  | GET_sale pk => (SaleDetailView.get pk (db st)).1
  | POST_admin_user_delete pk => (admin.delete_user pk (db st)).1
  end.
Proof.
  destruct r; unfold serve; try (rewrite <- dispatch_fst; by destruct (dispatch _ _)).
  unfold dispatch_login.
  by destruct (UserLoginView.post _ _ _ _) as [d' [[r s]|e]].
Qed.

Section AnyRelation.
Context (R : relation Db) `{!PreOrder R}.
Context (R_create_user : ∀ env u p, respects R (create_user env u p)).
Context (R_log_create : ∀ env u n s, respects R (UserLoginLog_objects_create env u n s)).
Context (R_product_create : ∀ p, respects R (Product_objects_create p)).
Context (R_sale_create : ∀ env p u, respects R (Sale_objects_create env p u)).
Context (R_product_save : ∀ pk p d, is_Some (shop_product d !! pk) →
                                        R d (Product_save pk p d).1).
Context (R_product_delete : ∀ pk, respects R (Product_delete pk)).
Context (R_login : ∀ env pk s, respects R (login env pk s)).

(** A relation that every operation of the API respects is respected by
    every request of the API. *)
Lemma respects_api env r st : is_api r = true → R (db st) (db (serve env r st).1).
Proof using All.
  intros Hapi. rewrite serve_db.
  destruct r; try discriminate Hapi; clear Hapi.
  - apply (respects_CreateModelMixin_create R). intros vd.
    unfold UserSerializer.create. by repeat case_match; try apply respects_raise.
  - unfold UserLoginView.post.
    case_match; [apply (respects_ret R)|].
    apply (respects_bind R); [apply respects_query, _|]. intros [[pk u]|].
    + apply (respects_bind R); [done|]. intros _.
      apply (respects_bind R); [done|]. intros ?. apply (respects_ret R).
    + apply (respects_bind R); [done|]. intros _. apply (respects_ret R).
  - apply (respects_bind R); [apply respects_query, _|]. intros ?.
    apply (respects_ret R).
  - apply (respects_CreateModelMixin_create R). intros vd.
    unfold ProductSerializer.create. repeat case_match; try apply (respects_raise R).
    apply (respects_bind R); [done|]. intros ?. apply (respects_ret R).
  - apply (respects_bind R); [apply respects_get_object_or_404, _|]. intros ?.
    apply (respects_ret R).
  - rewrite ProductDetailView_put_cases.
    destruct (shop_product (db st) !! pk) as [p|] eqn:E; [|reflexivity].
    destruct (serializers.to_internal_value _ _ _ _) as [errors|vd]; [reflexivity|].
    cbv zeta. specialize (R_product_save pk (ProductSerializer.setattrs p vd) (db st)).
    unfold Product_save in R_product_save.
    destruct (user_exists _ _); [|reflexivity]. apply R_product_save. eauto.
  - apply (respects_bind R); [apply respects_get_object_or_404, _|]. intros ?.
    apply (respects_bind R); [done|]. intros _. apply (respects_ret R).
  - apply (respects_CreateModelMixin_create R). intros vd.
    unfold SaleSerializer.create. repeat case_match; try apply (respects_raise R).
    apply (respects_bind R); [done|]. intros ?. apply (respects_ret R).
  - apply (respects_bind R); [apply respects_get_object_or_404, _|]. intros ?.
    apply (respects_ret R).
Qed.

End AnyRelation.
End Views.

(** A request leaves every sale row as it is or deletes it. *)
Lemma sales_serve {hasher : PasswordHasher} env r st :
  sales (db st) (db (serve env r st).1).
Proof.
  destruct (is_api r) eqn:Hapi.
  - apply (respects_api sales); auto with orm.
    intros pk p d _. apply sales_Product_save.
  - destruct r; try discriminate Hapi. rewrite serve_db.
    apply (respects_bind sales); [apply respects_get_object_or_404, _|]. intros ?.
    apply (respects_bind sales); [apply sales_User_delete|]. intros ?.
    apply (respects_ret sales).
Qed.

Lemma sales_run {hasher : PasswordHasher} trace st :
  sales (db st) (db (run trace st)).
Proof.
  revert st. induction trace as [|[env r] trace IH]; intros st; simpl; [reflexivity|].
  etrans; [apply (sales_serve env r)|apply IH].
Qed.

(** A request of the API leaves every log row as it is. *)
Lemma logs_serve {hasher : PasswordHasher} env r st :
  is_api r = true → logs (db st) (db (serve env r st).1).
Proof.
  intros Hapi. apply (respects_api logs); auto with orm.
  intros pk p d _. apply logs_Product_save.
Qed.

#[global] Instance wf_kept_preorder : PreOrder wf_kept.
Proof.
  split; [intros d Hwf; exact Hwf|].
  intros d1 d2 d3 H12 H23 Hwf. apply H23, H12, Hwf.
Qed.

(** Well-formedness is an invariant of the server. *)
Lemma wf_serve {hasher : PasswordHasher} env r st :
  wf_db (db st) → wf_db (db (serve env r st).1).
Proof.
  destruct (is_api r) eqn:Hapi.
  - apply (respects_api wf_kept); [| | | | | | |done].
    + intros ??? d Hwf. by apply wf_create_user.
    + intros ???? d Hwf. by apply wf_UserLoginLog_objects_create.
    + intros ? d Hwf. by apply wf_Product_objects_create.
    + intros ??? d Hwf. by apply wf_Sale_objects_create.
    + intros ??? Hpk Hwf. by apply wf_Product_save.
    + intros ? d Hwf. by apply wf_Product_delete.
    + intros ??? d Hwf. by apply wf_login.
  - destruct r; try discriminate Hapi. rewrite serve_db.
    apply (respects_bind wf_kept); [apply respects_get_object_or_404, _|]. intros ?.
    apply (respects_bind wf_kept); [|intros ?; apply (respects_ret wf_kept)].
    intros d Hwf. by apply wf_User_delete.
Qed.

Lemma wf_run {hasher : PasswordHasher} trace st :
  wf_db (db st) → wf_db (db (run trace st)).
Proof.
  revert st. induction trace as [|[env r] trace IH]; intros st Hwf; simpl; [done|].
  apply IH. by apply wf_serve.
Qed.

(** Every database that the server can reach from an empty one is well
    formed. *)
Corollary wf_reachable {hasher : PasswordHasher} trace :
  wf_db (db (run trace example.fresh_server)).
Proof. apply wf_run, wf_empty_db. Qed.

(** ** Sales *)

Lemma SaleSerializer_to_representation pk s :
  SaleSerializer.to_representation pk s
  = [("id", NInt (Z.of_nat pk)); ("product", NInt (Z.of_nat (Sale.product s)));
     ("user", NInt (Z.of_nat (Sale.user s))); ("sale_date", NDateTime (Sale.sale_date s))].
Proof. reflexivity. Qed.

Lemma run_validation_user_of_row partial d user :
  is_Some (auth_user d !! user) →
  serializers.run_validation user_field partial d (Some (JInt (Z.of_nat user)))
  = serializers.Valid (VRef user).
Proof.
  intros Hu. unfold serializers.run_validation, user_field.
  cbn [serializers.class serializers.read_only serializers.field_to_internal_value].
  cbv iota beta. rewrite Nat2Z.id.
  replace (0 <=? Z.of_nat user) with true by (symmetry; apply Z.leb_le; lia).
  cbn [andb serializers.queryset_exists]. unfold user_exists.
  by rewrite bool_decide_eq_true_2.
Qed.

Lemma run_validation_product_of_row partial d product :
  is_Some (shop_product d !! product) →
  serializers.run_validation product_field partial d (Some (JInt (Z.of_nat product)))
  = serializers.Valid (VRef product).
Proof.
  intros Hp. unfold serializers.run_validation, product_field.
  cbn [serializers.class serializers.read_only serializers.field_to_internal_value].
  cbv iota beta. rewrite Nat2Z.id.
  replace (0 <=? Z.of_nat product) with true by (symmetry; apply Z.leb_le; lia).
  cbn [andb serializers.queryset_exists]. unfold product_exists.
  by rewrite bool_decide_eq_true_2.
Qed.

(** C6: a sale is created with the server's clock as its sale_date.  A
    request that names an existing product and an existing user is answered
    201 and adds one sale row whose sale_date is the clock at the INSERT,
    whatever the body holds under sale_date; every request is answered 400
    with nothing written, or 201 in that way; a sale_date in the body makes
    no difference to what is stored or answered; and a stored sale row is
    never altered afterwards: after any run of requests it is as it was, or
    deleted. *)
Theorem sale_date_is_set_by_the_server_and_never_changes {hasher : PasswordHasher} env :
  let created product user d :=
    let pk := S (shop_sale_seq d) in
    (mkDb (auth_user d) (auth_user_seq d)
          (shop_userloginlog d) (shop_userloginlog_seq d)
          (shop_product d) (shop_product_seq d)
          (<[pk := Sale.mk product user (now env)]> (shop_sale d)) pk,
     mkResponse
       (Object [("id", NInt (Z.of_nat pk)); ("product", NInt (Z.of_nat product));
                ("user", NInt (Z.of_nat user)); ("sale_date", NDateTime (now env))])
       HTTP_201_CREATED) in
  (∀ request_data d product user,
     request_data !! "product" = Some (JInt (Z.of_nat product)) →
     request_data !! "user" = Some (JInt (Z.of_nat user)) →
     is_Some (shop_product d !! product) →
     is_Some (auth_user d !! user) →
     dispatch (SaleCreateView.post env request_data) d = created product user d)
  ∧ (∀ request_data d,
       (∃ errors,
          errors ≠ []
          ∧ dispatch (SaleCreateView.post env request_data) d
            = (d, mkResponse (Errors errors) HTTP_400_BAD_REQUEST))
       ∨ (∃ product user,
            dispatch (SaleCreateView.post env request_data) d = created product user d))
  ∧ (∀ data1 data2 d,
       (∀ k, k ≠ "sale_date" → data1 !! k = data2 !! k) →
       dispatch (SaleCreateView.post env data1) d = dispatch (SaleCreateView.post env data2) d)
  ∧ (∀ trace st pk s,
       wf_db (db st) →
       shop_sale (db st) !! pk = Some s →
       let after := shop_sale (db (run trace st)) in
       after !! pk = Some s ∨ after !! pk = None).
Proof.
  intros created.
  assert (∀ request_data d,
            (∃ errors,
               errors ≠ []
               ∧ serializers.to_internal_value SaleSerializer.fields false d request_data
                 = inl errors
               ∧ dispatch (SaleCreateView.post env request_data) d
                 = (d, mkResponse (Errors errors) HTTP_400_BAD_REQUEST))
            ∨ (∃ product user,
                 serializers.run_validation product_field false d (request_data !! "product")
                   = serializers.Valid (VRef product)
                 ∧ serializers.run_validation user_field false d (request_data !! "user")
                   = serializers.Valid (VRef user)
                 ∧ dispatch (SaleCreateView.post env request_data) d
                   = created product user d)) as Hcases.
  { intros request_data d.
    destruct (SaleCreateView_post_cases env request_data d)
      as [(errors & Hv & Hc)|(product & user & R1 & R2 & _ & _ & Hc)].
    - left. exists errors. split_and!; try done.
      by apply to_internal_value_inl in Hv as [? _].
    - right. by exists product, user. }
  split_and!.
  - intros request_data d product user Hp Hu Ep Eu.
    pose proof (run_validation_product_of_row false d product Ep) as R1.
    pose proof (run_validation_user_of_row false d user Eu) as R2.
    rewrite <- Hp in R1. rewrite <- Hu in R2.
    destruct (Hcases request_data d)
      as [(errors & _ & Hv & _)|(product' & user' & R1' & R2' & Hc)].
    + exfalso. apply to_internal_value_inl in Hv as (Hnil & ret & Hv).
      destruct errors as [|[k codes] errors]; [done|].
      destruct (validate_fields_errors _ _ _ _ _ _ k codes Hv) as (f & Hin & <- & Hf);
        [by left|].
      rewrite SaleSerializer_writable in Hin.
      apply elem_of_cons in Hin as [->|Hin].
      { change (serializers.field_name product_field) with "product" in Hf.
        by rewrite R1 in Hf. }
      apply elem_of_cons in Hin as [->|Hin]; [|by apply elem_of_nil in Hin].
      change (serializers.field_name user_field) with "user" in Hf.
      by rewrite R2 in Hf.
    + rewrite R1 in R1'. injection R1' as <-. rewrite R2 in R2'. by injection R2' as <-.
  - intros request_data d.
    destruct (Hcases request_data d) as [(errors & ? & _ & ?)|(product & user & _ & _ & ?)];
      [left|right]; eauto.
  - intros data1 data2 d Hext.
    unfold dispatch, SaleCreateView.post, CreateModelMixin_create.
    rewrite !bind_query.
    rewrite (to_internal_value_ext _ _ _ data1 data2); [done|].
    intros f Hin. rewrite SaleSerializer_writable in Hin.
    apply Hext. by pick_field Hin.
  - intros trace st pk s Hwf E after.
    destruct (sales_run trace st) as [_ Hrows].
    destruct (Hrows pk) as [Hkept|Hgone].
    + destruct Hwf as (_ & _ & _ & K4 & _). by apply (K4 pk s).
    + left. unfold after. by rewrite Hkept.
    + by right.
Qed.

Lemma sale_date_is_set_by_the_server_and_never_changes_witness :
  let with_date :=
    example.body [("product", JInt 1); ("user", JInt 1); ("sale_date", JStr "1999-12-31")] in
  let out := dispatch (SaleCreateView.post example.env with_date) (db example.alice_sells) in
  now example.env = 1700000000
  ∧ shop_sale (db example.alice_sells) = ∅
  ∧ shop_sale out.1 !! 1%nat = Some (Sale.mk 1 1 1700000000)
  ∧ out.2 = mkResponse
              (Object [("id", NInt 1); ("product", NInt 1); ("user", NInt 1);
                       ("sale_date", NDateTime 1700000000)])
              HTTP_201_CREATED.
Proof.
  intros with_date out.
  destruct (sale_date_is_set_by_the_server_and_never_changes
              (hasher := example_hasher.hasher) example.env) as (Hcreate & _).
  assert (out = dispatch (SaleCreateView.post example.env with_date) (db example.alice_sells))
    as Hout by reflexivity.
  rewrite (Hcreate with_date (db example.alice_sells) 1%nat 1%nat) in Hout.
  - rewrite Hout. split_and!; vm_compute; reflexivity.
  - vm_compute. reflexivity.
  - vm_compute. reflexivity.
  - vm_compute. eauto.
  - vm_compute. eauto.
Defined.

(** ** Users *)


Lemma UserSerializer_to_representation pk u :
  UserSerializer.to_representation pk u
  = [("id", NInt (Z.of_nat pk)); ("username", NStr (User.username u))].
Proof. reflexivity. Qed.

(** A username that validates is not taken. *)
Lemma run_validators_unique d validators value :
  serializers.run_validators d validators value = [] →
  serializers.UniqueValidator ∈ validators →
  get_by_natural_key value d = None.
Proof.
  unfold serializers.run_validators.
  induction validators as [|v validators IH]; intros Hnil Hin.
  - by apply elem_of_nil in Hin.
  - simpl in Hnil. apply app_eq_nil in Hnil as [Hv Hnil].
    apply elem_of_cons in Hin as [<-|Hin]; [|by apply IH].
    simpl in Hv. by destruct (get_by_natural_key value d).
Qed.

Lemma run_validation_CharField_validators f validators partial d o v :
  serializers.class f = serializers.CharField validators →
  serializers.run_validation f partial d o = serializers.Valid (VStr v) →
  serializers.run_validators d validators v = [].
Proof.
  intros Hc. unfold serializers.run_validation. rewrite Hc.
  destruct (match o with Some (JStr s) => String.eqb (Py.strip s) "" | _ => false end);
    [done|].
  destruct (serializers.read_only f); [done|].
  destruct o as [[|b|z|s]|]; try done; try (by destruct partial);
    unfold serializers.field_to_internal_value;
    (destruct (serializers.run_validators d validators _) eqn:E; [|done]);
    by intros [= <-].
Qed.

Lemma run_validation_username_not_taken partial d o username :
  serializers.run_validation username_field partial d o = serializers.Valid (VStr username) →
  get_by_natural_key username d = None.
Proof.
  intros Hv. eapply run_validation_CharField_validators in Hv; [|reflexivity].
  apply (run_validators_unique _ _ _ Hv). set_solver.
Qed.

Section CreateUser.
Context {hasher : PasswordHasher}.

(** POST /api/users/create/ *)
Lemma UserCreateView_post_cases env request_data d :
  (∃ errors,
     serializers.to_internal_value UserSerializer.fields false d request_data = inl errors
     ∧ dispatch (UserCreateView.post env request_data) d
       = (d, mkResponse (Errors errors) HTTP_400_BAD_REQUEST))
  ∨ (∃ username raw,
       serializers.run_validation username_field false d (request_data !! "username")
         = serializers.Valid (VStr username)
       ∧ serializers.run_validation password_field false d (request_data !! "password")
         = serializers.Valid (VStr raw)
       ∧ get_by_natural_key username d = None
       ∧ dispatch (UserCreateView.post env request_data) d
         = (user_created username (make_password env raw) d,
            mkResponse (Object [("id", NInt (Z.of_nat (S (auth_user_seq d))));
                                ("username", NStr username)])
                       HTTP_201_CREATED)).
Proof.
  unfold dispatch, UserCreateView.post, CreateModelMixin_create. rewrite bind_query.
  destruct (serializers.to_internal_value _ _ _ _) as [errors|validated_data] eqn:Hv.
  { left. by exists errors. }
  right.
  destruct (validated_full _ _ _ _ username_field Hv) as (v1 & E1 & R1);
    [set_solver|apply NoDup_writable_User|].
  destruct (validated_full _ _ _ _ password_field Hv) as (v2 & E2 & R2);
    [set_solver|apply NoDup_writable_User|].
  pose proof (run_validation_typed _ _ _ _ _ R1) as (username & ->).
  pose proof (run_validation_typed _ _ _ _ _ R2) as (raw & ->).
  simpl in E1, E2, R1, R2.
  pose proof (run_validation_username_not_taken _ _ _ _ R1) as Hfree.
  exists username, raw. split_and!; try done.
  unfold UserSerializer.create. rewrite E1, E2.
  unfold mbind, orm_bind, create_user. by rewrite Hfree.
Qed.

End CreateUser.


(** ** The password hasher *)









Section PBKDF2.
Variable pbkdf2 : string → string → nat → string.
Variable iterations : nat.






End PBKDF2.


(** ** The login log *)

Lemma logs_run {hasher : PasswordHasher} trace st :
  Forall (λ er, is_api er.2 = true) trace → logs (db st) (db (run trace st)).
Proof.
  revert st. induction trace as [|[env r] trace IH]; intros st Hall; simpl; [reflexivity|].
  apply Forall_cons in Hall as [Hapi Hall].
  etrans; [by apply (logs_serve env r)|by apply IH].
Qed.

(** C9 as the specification states it fails: UserLoginLog.user is declared
    with on_delete=CASCADE, so deleting a user deletes the log rows of that
    user.  alice registers and logs in, which writes log row 1; deleting
    alice in the admin console deletes it. *)
Lemma log_row_is_deleted_with_its_user :
  let before := example.alice_logged_in in
  let after := (serve (hasher := example_hasher.hasher)
                  example.env (POST_admin_user_delete 1) before).1 in
  shop_userloginlog (db before) !! 1%nat
    = Some (UserLoginLog.mk 1 "alice" true 1700000000)
  ∧ shop_userloginlog (db after) !! 1%nat = None.
Proof. vm_compute. split; reflexivity. Qed.

(** C9, amended: a written log row is never updated, and no request of the
    API deletes it, whatever it deletes (a product, and the sales with it):
    after any run of API requests the row is there as it was written.  The
    one operation that removes log rows is the deletion of a user, which
    removes the rows of that user and no others. *)
Theorem log_rows_are_kept_until_their_user_is_deleted
    {hasher : PasswordHasher} env r st pk l :
  wf_db (db st) →
  shop_userloginlog (db st) !! pk = Some l →
  let after := shop_userloginlog (db (serve env r st).1) in
  (r ≠ POST_admin_user_delete (UserLoginLog.user l) → after !! pk = Some l)
  ∧ (r = POST_admin_user_delete (UserLoginLog.user l) → after !! pk = None)
  ∧ (∀ trace, Forall (λ er, is_api er.2 = true) trace →
              shop_userloginlog (db (run trace st)) !! pk = Some l).
Proof.
  intros Hwf E after.
  assert (pk ≤ shop_userloginlog_seq (db st))%nat as Hpk.
  { destruct Hwf as (_ & K2 & _). by apply (K2 pk l). }
  assert (is_Some (auth_user (db st) !! UserLoginLog.user l)) as [u Hu].
  { destruct Hwf as (_ & _ & _ & _ & F1 & _). by apply (F1 pk l). }
  split_and!.
  - intros Hr. destruct (is_api r) eqn:Hapi.
    + destruct (logs_serve env r st Hapi) as [_ Hrows].
      unfold after. by rewrite Hrows.
    + destruct r as [| | | | | | | | |uid]; try discriminate Hapi.
      unfold after. rewrite serve_db. unfold admin.delete_user.
      destruct (auth_user (db st) !! uid) as [u'|] eqn:Euid.
      * rewrite (bind_return _ _ _ _ _ (get_object_or_404_found auth_user _ _ _ Euid)).
        simpl. apply map_lookup_filter_Some. split; [done|]. simpl. congruence.
      * by rewrite (bind_raise _ _ _ _ _ (get_object_or_404_missing auth_user _ _ Euid)).
  - intros ->. unfold after. rewrite serve_db. unfold admin.delete_user.
    rewrite (bind_return _ _ _ _ _ (get_object_or_404_found auth_user _ _ _ Hu)).
    simpl. apply map_lookup_filter_None. right. intros l' E'. simpl.
    rewrite E in E'. injection E' as <-. tauto.
  - intros trace Hall. destruct (logs_run trace st Hall) as [_ Hrows].
    by rewrite Hrows.
Qed.

Lemma log_rows_are_kept_until_their_user_is_deleted_witness :
  let row := UserLoginLog.mk 1 "alice" true 1700000000 in
  let st := example.alice_logged_in in
  let offer := POST_products (example.body [("name", JStr "Widget");
                                            ("price", JStr "12.50"); ("user", JInt 1)]) in
  shop_userloginlog
    (db (run (hasher := example_hasher.hasher)
           [(example.env, offer); (example.env, DELETE_product 1)] st)) !! 1%nat
  = Some row.
Proof.
  intros row st offer.
  apply (log_rows_are_kept_until_their_user_is_deleted
           (hasher := example_hasher.hasher) example.env GET_products st 1 row).
  - apply (bool_decide_unpack _). vm_compute. exact I.
  - vm_compute. reflexivity.
  - repeat constructor.
Defined.


(* ===================================================================== *)
(** * Further properties of the views *)
(* ===================================================================== *)

(** ** The response of each request *)

Lemma dispatch_snd_return (handler : orm Response) d d' r :
  handler d = (d', Return r) → dispatch handler d = (d', r).
Proof. intros E. unfold dispatch. by rewrite E. Qed.

Lemma SaleDetailView_get_found pk s d :
  shop_sale d !! pk = Some s →
  dispatch (SaleDetailView.get pk) d
  = (d, mkResponse (Object (SaleSerializer.to_representation pk s)) HTTP_200_OK).
Proof.
  intros E. unfold dispatch, SaleDetailView.get.
  by rewrite (bind_return _ _ _ _ _ (get_object_or_404_found shop_sale _ _ _ E)).
Qed.

Lemma SaleDetailView_get_missing pk d :
  shop_sale d !! pk = None →
  dispatch (SaleDetailView.get pk) d = (d, mkResponse NotFound HTTP_404_NOT_FOUND).
Proof.
  intros E. unfold dispatch, SaleDetailView.get.
  by rewrite (bind_raise _ _ _ _ _ (get_object_or_404_missing shop_sale _ _ E)).
Qed.

Lemma ProductListView_get_response d :
  dispatch ProductListView.get d
  = (d, mkResponse
          (ObjectList ((λ r, ProductSerializer.to_representation r.1 r.2)
                         <$> objects_all (shop_product d)))
          HTTP_200_OK).
Proof. reflexivity. Qed.

Lemma elem_of_objects_all {A} (table : gmap nat A) pk row :
  (pk, row) ∈ objects_all table ↔ table !! pk = Some row.
Proof. unfold objects_all. by rewrite merge_sort_Permutation, elem_of_map_to_list. Qed.

Lemma length_objects_all {A} (table : gmap nat A) :
  length (objects_all table) = size table.
Proof. unfold objects_all. by rewrite merge_sort_Permutation, length_map_to_list. Qed.

Lemma admin_delete_user_found pk u d :
  auth_user d !! pk = Some u →
  dispatch (admin.delete_user pk) d = ((User_delete pk d).1, mkResponse Redirect 302%nat).
Proof.
  intros E. unfold dispatch, admin.delete_user.
  by rewrite (bind_return _ _ _ _ _ (get_object_or_404_found auth_user _ _ _ E)).
Qed.

Lemma admin_delete_user_missing pk d :
  auth_user d !! pk = None →
  dispatch (admin.delete_user pk) d = (d, mkResponse NotFound HTTP_404_NOT_FOUND).
Proof.
  intros E. unfold dispatch, admin.delete_user.
  by rewrite (bind_raise _ _ _ _ _ (get_object_or_404_missing auth_user _ _ E)).
Qed.

(** PUT /api/products/<pk>/ on a well-formed database: 404, 400 with nothing
    written, or 200 with the attributes set. *)
Lemma ProductDetailView_put_dispatch pk request_data d :
  wf_db d →
  dispatch (ProductDetailView.put pk request_data) d =
  match shop_product d !! pk with
  | None => (d, mkResponse NotFound HTTP_404_NOT_FOUND)
  | Some p =>
      match serializers.to_internal_value ProductSerializer.fields true d request_data with
      | inl errors => (d, mkResponse (Errors errors) HTTP_400_BAD_REQUEST)
      | inr validated_data =>
          let p' := ProductSerializer.setattrs p validated_data in
          (set_shop_product (<[pk := p']>) d,
           mkResponse (Object (ProductSerializer.data pk p' validated_data)) HTTP_200_OK)
      end
  end.
Proof.
  intros Hwf. unfold dispatch. rewrite ProductDetailView_put_cases.
  destruct (shop_product d !! pk) as [p|] eqn:E; [|done].
  destruct (serializers.to_internal_value _ _ _ _) as [errors|validated_data] eqn:Hv; [done|].
  cbv zeta. rewrite (setattrs_user_exists _ _ _ _ Hv); [done|].
  destruct Hwf as (_ & _ & _ & _ & _ & F2 & _). by apply (F2 pk p).
Qed.

Section Responses.
Context {hasher : PasswordHasher}.

Lemma serve_plain env r st :
  match r with POST_users_login _ => False | _ => True end →
  serve env r st =
  let out :=
    dispatch (match r with
              | POST_users_create request_data => UserCreateView.post env request_data
              | GET_products => ProductListView.get
              | POST_products request_data => ProductListView.post request_data
              | GET_product pk => ProductDetailView.get pk
              | PUT_product pk request_data => ProductDetailView.put pk request_data
              | DELETE_product pk => ProductDetailView.delete pk
              | POST_sales request_data => SaleCreateView.post env request_data
              | GET_sale pk => SaleDetailView.get pk
              | POST_admin_user_delete pk => admin.delete_user pk
              | POST_users_login _ => mret (mkResponse Empty 0%nat)
              end) (db st) in
  (mkState out.1 (session st), out.2).
Proof. destruct r; try done; intros _; unfold serve; by destruct (dispatch _ _). Qed.

(** X1: on a well-formed database, and among the requests whose body is a
    JSON object (the request bodies of this model), the server answers 500
    to exactly one kind of request: a login whose username and password are
    both present and do not authenticate.  No other such request, with valid
    or invalid fields, ends in an unhandled exception: every constraint of
    the database that an INSERT or UPDATE could break has been checked by the
    serializer before.  (A login whose body is not an object, an array say,
    is outside the model: [request.data.get] raises on it.) *)
Theorem server_error_iff_failed_login env r st :
  wf_db (db st) →
  status_code (serve env r st).2 = 500%nat
  ↔ ∃ request_data,
      r = POST_users_login request_data
      ∧ truthy (data_get "username" request_data) = true
      ∧ truthy (data_get "password" request_data) = true
      ∧ authenticate (data_get "username" request_data)
                     (data_get "password" request_data) (db st) = None.
Proof.
  intros Hwf. split.
  - destruct r as [rd|rd| |rd|pk|pk rd|pk|rd|pk|pk];
      try (rewrite serve_plain by done; cbv zeta; cbn [snd]).
    + destruct (UserCreateView_post_cases env rd (db st))
        as [(errors & _ & ->)|(? & ? & _ & _ & _ & ->)]; by intros.
    + intros Hs. exists rd. split; [done|].
      unfold serve, dispatch_login in Hs.
      destruct (truthy (data_get "username" rd)) eqn:Hu; cycle 1.
      { rewrite (post_missing env rd (session st) (db st)) in Hs by auto. done. }
      destruct (truthy (data_get "password" rd)) eqn:Hp; cycle 1.
      { rewrite (post_missing env rd (session st) (db st)) in Hs by auto. done. }
      destruct (authenticate (data_get "username" rd) (data_get "password" rd) (db st))
        as [[pk u]|] eqn:Ha; [|done].
      by rewrite (post_success env rd (session st) (db st) pk u Hu Hp Ha) in Hs.
    + by rewrite ProductListView_get_response.
    + destruct (ProductListView_post_cases rd (db st))
        as [(errors & _ & ->)|(? & ? & ? & _ & _ & _ & _ & ->)]; by intros.
    + destruct (shop_product (db st) !! pk) as [p|] eqn:E.
      * by rewrite (ProductDetailView_get_found pk p).
      * by rewrite ProductDetailView_get_missing.
    + rewrite ProductDetailView_put_dispatch by done.
      destruct (shop_product (db st) !! pk); [|done].
      by destruct (serializers.to_internal_value _ _ _ _).
    + destruct (shop_product (db st) !! pk) as [p|] eqn:E.
      * by rewrite (ProductDetailView_delete_found pk p).
      * by rewrite ProductDetailView_delete_missing.
    + destruct (SaleCreateView_post_cases env rd (db st))
        as [(errors & _ & ->)|(? & ? & _ & _ & _ & _ & ->)]; by intros.
    + destruct (shop_sale (db st) !! pk) as [s|] eqn:E.
      * by rewrite (SaleDetailView_get_found pk s).
      * by rewrite SaleDetailView_get_missing.
    + destruct (auth_user (db st) !! pk) as [u|] eqn:E.
      * by rewrite (admin_delete_user_found pk u).
      * by rewrite admin_delete_user_missing.
  - intros (rd & -> & Hu & Hp & Ha). unfold serve, dispatch_login.
    by rewrite (post_failed env rd (session st) (db st) Hu Hp Ha).
Qed.

End Responses.

Lemma server_error_iff_failed_login_witness :
  let wrong := example.body [("username", JStr "alice"); ("password", JStr "guess")] in
  status_code (serve (hasher := example_hasher.hasher) example.env
                 (POST_users_login wrong) example.alice_registered).2 = 500%nat.
Proof.
  intros wrong.
  apply (server_error_iff_failed_login (hasher := example_hasher.hasher)
           example.env (POST_users_login wrong) example.alice_registered).
  - apply (bool_decide_unpack _). vm_compute. exact I.
  - exists wrong. split_and!; [reflexivity|reflexivity|reflexivity|vm_compute; reflexivity].
Defined.

(** ** Referential integrity *)

(** X2: whatever requests are served, in any order, a database that was
    well formed stays so: the user of every product, sale and log row and the
    product of every sale are rows of their tables (the cascades of models.py
    remove what would dangle), and no two users have the same username. *)
Theorem referential_integrity_is_kept {hasher : PasswordHasher} trace st :
  wf_db (db st) →
  let d := db (run trace st) in
  (∀ pk p, shop_product d !! pk = Some p → is_Some (auth_user d !! Product.user p))
  ∧ (∀ pk s, shop_sale d !! pk = Some s →
             is_Some (shop_product d !! Sale.product s)
             ∧ is_Some (auth_user d !! Sale.user s))
  ∧ (∀ pk l, shop_userloginlog d !! pk = Some l →
             is_Some (auth_user d !! UserLoginLog.user l))
  ∧ (∀ pk1 u1 pk2 u2, auth_user d !! pk1 = Some u1 → auth_user d !! pk2 = Some u2 →
                      User.username u1 = User.username u2 → pk1 = pk2).
Proof.
  intros Hwf d.
  assert (wf_db d) as (_ & _ & _ & _ & F1 & F2 & F3 & U).
  { revert st Hwf d. induction trace as [|[env r] trace IH]; intros st Hwf; simpl; [done|].
    apply IH. by apply wf_serve. }
  split_and!.
  - intros pk p E. by apply (F2 pk p).
  - intros pk s E. by apply (F3 pk s).
  - intros pk l E. by apply (F1 pk l).
  - intros pk1 u1 pk2 u2 E1 E2. by apply (U pk1 u1 E1 pk2 u2 E2).
Qed.

Lemma referential_integrity_is_kept_witness :
  let d := db (run (hasher := example_hasher.hasher)
                 [(example.env, DELETE_product 7);
                  (example.env, POST_sales (example.body [("product", JInt 1); ("user", JInt 1)]))]
                 example.alice_sells) in
  shop_sale d !! 1%nat = Some (Sale.mk 1 1 (now example.env))
  ∧ is_Some (shop_product d !! 1%nat) ∧ is_Some (auth_user d !! 1%nat).
Proof.
  intros d. split; [vm_compute; reflexivity|].
  destruct (referential_integrity_is_kept (hasher := example_hasher.hasher)
              [(example.env, DELETE_product 7);
               (example.env, POST_sales (example.body [("product", JInt 1); ("user", JInt 1)]))]
              example.alice_sells
              ltac:(apply (bool_decide_unpack _); vm_compute; exact I)) as (_ & F & _).
  apply (F 1%nat (Sale.mk 1 1 (now example.env))). vm_compute. reflexivity.
Defined.

(** ** Creation is all or nothing *)

(** X3: each of the three create views either answers 400 with a non-empty
    error dictionary and leaves the whole state as it was, or answers 201
    and adds exactly one row, to its own table and under a key that was not
    in use, leaving the other tables as they were. *)
Theorem create_is_all_or_nothing {hasher : PasswordHasher} env r st :
  wf_db (db st) →
  match r with POST_users_create _ | POST_products _ | POST_sales _ => True | _ => False end →
  let st' := (serve env r st).1 in
  let response := (serve env r st).2 in
  (status_code response = 400%nat ∧ st' = st
   ∧ ∃ errors, data response = Errors errors ∧ errors ≠ [])
  ∨ (status_code response = 201%nat ∧ session st' = session st
     ∧ match r with
       | POST_users_create _ =>
           (∃ u, auth_user (db st) !! S (auth_user_seq (db st)) = None
                 ∧ auth_user (db st') = <[S (auth_user_seq (db st)) := u]> (auth_user (db st)))
           ∧ shop_product (db st') = shop_product (db st)
           ∧ shop_sale (db st') = shop_sale (db st)
       | POST_products _ =>
           (∃ p, shop_product (db st) !! S (shop_product_seq (db st)) = None
                 ∧ shop_product (db st')
                   = <[S (shop_product_seq (db st)) := p]> (shop_product (db st)))
           ∧ auth_user (db st') = auth_user (db st)
           ∧ shop_sale (db st') = shop_sale (db st)
       | _ =>
           (∃ s, shop_sale (db st) !! S (shop_sale_seq (db st)) = None
                 ∧ shop_sale (db st') = <[S (shop_sale_seq (db st)) := s]> (shop_sale (db st)))
           ∧ auth_user (db st') = auth_user (db st)
           ∧ shop_product (db st') = shop_product (db st)
       end
     ∧ shop_userloginlog (db st') = shop_userloginlog (db st)).
Proof.
  intros (K1 & _ & K3 & K4 & _) Hr st' response. subst st' response.
  destruct r as [rd| | |rd| | | |rd| |]; try done;
    rewrite serve_plain by done; cbv zeta; cbn [fst snd].
  - destruct (UserCreateView_post_cases env rd (db st))
      as [(errors & Hv & ->)|(username & raw & _ & _ & _ & ->)]; cbn [fst snd].
    + left. split_and!; [done|by destruct st|].
      exists errors. split; [done|]. by apply to_internal_value_inl in Hv as [? _].
    + right. split_and!; try done. eexists. split; [|done].
      by apply keys_in_sequence_fresh.
  - destruct (ProductListView_post_cases rd (db st))
      as [(errors & Hv & ->)|(name & price & user & _ & _ & _ & _ & ->)]; cbn [fst snd].
    + left. split_and!; [done|by destruct st|].
      exists errors. split; [done|]. by apply to_internal_value_inl in Hv as [? _].
    + right. split_and!; try done. eexists. split; [|done].
      by apply keys_in_sequence_fresh.
  - destruct (SaleCreateView_post_cases env rd (db st))
      as [(errors & Hv & ->)|(product & user & _ & _ & _ & _ & ->)]; cbn [fst snd].
    + left. split_and!; [done|by destruct st|].
      exists errors. split; [done|]. by apply to_internal_value_inl in Hv as [? _].
    + right. split_and!; try done. eexists. split; [|done].
      by apply keys_in_sequence_fresh.
Qed.

Lemma create_is_all_or_nothing_witness :
  let r := POST_products (example.body [("name", JStr "Gadget"); ("price", JStr "12.345");
                                        ("user", JInt 1)]) in
  (serve (hasher := example_hasher.hasher) example.env r example.alice_registered).1
  = example.alice_registered.
Proof.
  intros r.
  destruct (create_is_all_or_nothing (hasher := example_hasher.hasher)
              example.env r example.alice_registered) as [(_ & Hsame & _)|(Hstatus & _)].
  - apply (bool_decide_unpack _). vm_compute. exact I.
  - exact I.
  - exact Hsame.
  - vm_compute in Hstatus. discriminate Hstatus.
Defined.

(** ** Registration and login together *)

Lemma get_by_natural_key_is_Some pk u d :
  auth_user d !! pk = Some u → is_Some (get_by_natural_key (User.username u) d).
Proof.
  intros E. unfold get_by_natural_key, select.
  destruct (filter _ _) as [|x l] eqn:El; [|by eexists].
  assert ((pk, u) ∈ filter (λ row : nat * User.t,
                              String.eqb (User.username row.2) (User.username u) = true)
                           (map_to_list (auth_user d))) as Hin.
  { apply list_elem_of_filter. split; [|by apply elem_of_map_to_list].
    simpl. apply String.eqb_refl. }
  rewrite El in Hin. by apply elem_of_nil in Hin.
Qed.




Section RegisterLogin.
Context {hasher : PasswordHasher} `{!hashers.Laws hasher}.


End RegisterLogin.


(** X5: a username can be registered once.  While a user is in the
    database, a registration under that user's name (as text, whatever
    whitespace surrounds it) is answered 400 with the code [unique] among the
    errors of the username field, and nothing is written. *)
Theorem taken_username_is_rejected {hasher : PasswordHasher}
    env request_data d pk u s :
  auth_user d !! pk = Some u →
  request_data !! "username" = Some (JStr s) →
  Py.strip s = User.username u →
  User.username u ≠ "" →
  ∃ errors codes,
    dispatch (UserCreateView.post env request_data) d
      = (d, mkResponse (Errors errors) HTTP_400_BAD_REQUEST)
    ∧ ("username", codes) ∈ errors
    ∧ code.unique ∈ codes.
Proof.
  intros E Hs Hstrip Hne.
  assert (∃ codes,
            serializers.run_validation username_field false d (request_data !! "username")
              = serializers.Invalid codes ∧ code.unique ∈ codes) as (codes & Hf & Hc).
  { rewrite Hs. unfold serializers.run_validation, username_field.
    cbn [serializers.class serializers.read_only]. rewrite Hstrip.
    apply String.eqb_neq in Hne. rewrite Hne.
    unfold serializers.field_to_internal_value. cbn [py_str]. rewrite Hstrip.
    destruct (get_by_natural_key_is_Some _ _ _ E) as [x Hg].
    assert (code.unique ∈ serializers.run_validators d
              [serializers.UnicodeUsernameValidator; serializers.UniqueValidator;
               serializers.MaxLengthValidator 150;
               serializers.ProhibitNullCharactersValidator] (User.username u)) as Hin.
    { unfold serializers.run_validators. cbn [flat_map serializers.run_validator].
      rewrite Hg. set_solver. }
    destruct (serializers.run_validators _ _ _) as [|c cs] eqn:Erv.
    - by apply elem_of_nil in Hin.
    - eauto. }
  assert (username_field ∈ serializers.writable_fields UserSerializer.fields) as Hin.
  { rewrite UserSerializer_writable. set_solver. }
  destruct (serializers.to_internal_value UserSerializer.fields false d request_data)
    as [errors|validated_data] eqn:Hv.
  - exists errors, codes. split_and!; [| |done].
    + unfold dispatch, UserCreateView.post, CreateModelMixin_create.
      by rewrite bind_query, Hv.
    + apply to_internal_value_inl in Hv as [_ [ret Hv]].
      apply (validate_fields_invalid _ _ _ _ _ _ username_field codes Hv Hin Hf).
  - exfalso. apply to_internal_value_inr in Hv.
    pose proof (validate_fields_invalid _ _ _ _ _ _ username_field codes Hv Hin Hf) as Hc'.
    by apply elem_of_nil in Hc'.
Qed.

Lemma taken_username_is_rejected_witness :
  ∃ errors codes,
    dispatch (UserCreateView.post (hasher := example_hasher.hasher) example.env
                (example.body [("username", JStr " alice"); ("password", JStr "other")]))
             (db example.alice_registered)
      = (db example.alice_registered, mkResponse (Errors errors) HTTP_400_BAD_REQUEST)
    ∧ ("username", codes) ∈ errors
    ∧ code.unique ∈ codes.
Proof.
  apply (taken_username_is_rejected (hasher := example_hasher.hasher) example.env _
           (db example.alice_registered) 1
           (User.mk "alice" "example$Zr4q$s3cret" true None) " alice");
    vm_compute; done.
Defined.

(** ** Reading back *)

(** X6: a sale that was created can be read.  When POST /api/sales/ is
    answered 201, the object it returns carries the id of the new sale and
    the server's clock as sale_date, and GET /api/sales/<id>/ with that id
    answers 200 with the same object; the GET changes nothing.  A GET of an
    id that is not in the table answers 404. *)
Theorem sale_create_then_get env request_data d d' created :
  dispatch (SaleCreateView.post env request_data) d = (d', created) →
  status_code created = 201%nat →
  ∃ fields,
    data created = Object fields
    ∧ getitem "id" fields = Some (NInt (Z.of_nat (S (shop_sale_seq d))))
    ∧ getitem "sale_date" fields = Some (NDateTime (now env))
    ∧ dispatch (SaleDetailView.get (S (shop_sale_seq d))) d'
      = (d', mkResponse (Object fields) HTTP_200_OK)
    ∧ ∀ pk, shop_sale d' !! pk = None →
            dispatch (SaleDetailView.get pk) d' = (d', mkResponse NotFound HTTP_404_NOT_FOUND).
Proof.
  intros Hpost Hstatus.
  destruct (SaleCreateView_post_cases env request_data d)
    as [(errors & _ & E)|(product & user & _ & _ & _ & _ & E)];
    rewrite E in Hpost; injection Hpost as <- <-; [done|].
  eexists. split_and!; try reflexivity.
  - apply SaleDetailView_get_found. simpl. apply lookup_insert_eq.
  - intros pk. apply SaleDetailView_get_missing.
Qed.

Lemma sale_create_then_get_witness :
  let out := dispatch (SaleCreateView.post example.env
                         (example.body [("product", JInt 1); ("user", JStr "1")]))
                      (db example.alice_sells) in
  ∃ fields,
    data out.2 = Object fields
    ∧ getitem "id" fields = Some (NInt 1)
    ∧ getitem "sale_date" fields = Some (NDateTime 1700000000)
    ∧ dispatch (SaleDetailView.get 1) out.1 = (out.1, mkResponse (Object fields) HTTP_200_OK).
Proof.
  intros out.
  destruct (sale_create_then_get example.env
              (example.body [("product", JInt 1); ("user", JStr "1")])
              (db example.alice_sells) out.1 out.2)
    as (fields & H1 & H2 & H3 & H4 & _).
  - apply surjective_pairing.
  - vm_compute. reflexivity.
  - exists fields. split_and!; assumption.
Defined.

(** X7: the list view and the detail view agree.  GET /api/products/
    answers 200, changes nothing, and lists as many objects as the table has
    rows: exactly those objects that GET /api/products/<pk>/ returns for some
    pk. *)
Theorem product_list_agrees_with_detail d :
  ∃ rows,
    dispatch ProductListView.get d = (d, mkResponse (ObjectList rows) HTTP_200_OK)
    ∧ length rows = size (shop_product d)
    ∧ ∀ fields,
        fields ∈ rows
        ↔ ∃ pk, dispatch (ProductDetailView.get pk) d
                = (d, mkResponse (Object fields) HTTP_200_OK).
Proof.
  eexists. split_and!; [apply ProductListView_get_response| |].
  - rewrite length_fmap. apply length_objects_all.
  - intros fields. rewrite list_elem_of_fmap. split.
    + intros ([pk p] & -> & Hin%elem_of_objects_all). exists pk.
      by apply ProductDetailView_get_found.
    + intros [pk Hget]. destruct (shop_product d !! pk) as [p|] eqn:E.
      * rewrite (ProductDetailView_get_found pk p d E) in Hget.
        injection Hget as <-. exists (pk, p). split; [done|].
        by apply elem_of_objects_all.
      * by rewrite (ProductDetailView_get_missing pk d E) in Hget.
Qed.

(** ** Deleting a product *)

(** X8: deleting a product deletes its sales, and only them.  After a DELETE
    of an existing product, GET /api/sales/<k>/ answers 404 for every sale
    of that product and answers as before for every other sale; the other
    products, the users and the login log are untouched. *)
Theorem deleting_a_product_deletes_its_sales pk p d :
  shop_product d !! pk = Some p →
  let d' := (dispatch (ProductDetailView.delete pk) d).1 in
  (∀ k, dispatch (SaleDetailView.get k) d'
        = (d', match shop_sale d !! k with
               | Some s =>
                   if decide (Sale.product s = pk)
                   then mkResponse NotFound HTTP_404_NOT_FOUND
                   else (dispatch (SaleDetailView.get k) d).2
               | None => mkResponse NotFound HTTP_404_NOT_FOUND
               end))
  ∧ (∀ k, k ≠ pk → shop_product d' !! k = shop_product d !! k)
  ∧ auth_user d' = auth_user d
  ∧ shop_userloginlog d' = shop_userloginlog d.
Proof.
  intros E d'. subst d'. rewrite (ProductDetailView_delete_found pk p d E). cbn [fst].
  split_and!; try done.
  - intros k. destruct (shop_sale d !! k) as [s|] eqn:Es.
    + destruct (decide (Sale.product s = pk)) as [Hs|Hs].
      * apply SaleDetailView_get_missing. simpl.
        apply map_lookup_filter_None. right. intros s' Es'. simpl.
        rewrite Es in Es'. injection Es' as <-. tauto.
      * rewrite (SaleDetailView_get_found k s d Es). cbn [snd].
        apply SaleDetailView_get_found. simpl.
        by apply map_lookup_filter_Some.
    + apply SaleDetailView_get_missing. simpl.
      apply map_lookup_filter_None. by left.
  - intros k Hk. simpl. by apply lookup_delete_ne.
Qed.

Lemma deleting_a_product_deletes_its_sales_witness :
  let d := db (run (hasher := example_hasher.hasher)
                 [(example.env, POST_sales (example.body [("product", JInt 1); ("user", JInt 1)]))]
                 example.alice_sells) in
  let d' := (dispatch (ProductDetailView.delete 1) d).1 in
  dispatch (SaleDetailView.get 1) d = (d, mkResponse
    (Object [("id", NInt 1); ("product", NInt 1); ("user", NInt 1);
             ("sale_date", NDateTime 1700000000)]) HTTP_200_OK)
  ∧ dispatch (SaleDetailView.get 1) d' = (d', mkResponse NotFound HTTP_404_NOT_FOUND).
Proof.
  intros d d'. split; [vm_compute; reflexivity|].
  destruct (deleting_a_product_deletes_its_sales 1 (Product.mk "Widget" 1250 1) d)
    as (Hsales & _).
  - vm_compute. reflexivity.
  - exact (Hsales 1%nat).
Defined.

(** ** Validation and the database *)

(** Validation looks at the users and at which product keys exist, and at
    nothing else in the database. *)
Lemma run_validation_db_ext f partial d1 d2 o :
  auth_user d1 = auth_user d2 →
  (∀ k, is_Some (shop_product d1 !! k) ↔ is_Some (shop_product d2 !! k)) →
  serializers.run_validation f partial d1 o = serializers.run_validation f partial d2 o.
Proof.
  intros Hu Hp.
  assert (∀ n, get_by_natural_key n d1 = get_by_natural_key n d2) as Hg.
  { intros n. unfold get_by_natural_key. by rewrite Hu. }
  assert (∀ to k, serializers.queryset_exists to k d1 = serializers.queryset_exists to k d2)
    as Hq.
  { intros [] k; simpl; unfold user_exists, product_exists.
    - by rewrite Hu.
    - by apply bool_decide_ext. }
  assert (∀ vs v, serializers.run_validators d1 vs v = serializers.run_validators d2 vs v)
    as Hv.
  { intros vs v. unfold serializers.run_validators.
    induction vs as [|x vs IH]; [done|]. simpl. rewrite IH.
    destruct x; simpl; by rewrite ?Hg. }
  unfold serializers.run_validation.
  destruct (match serializers.class f, o with
            | serializers.CharField _, Some (JStr s) => String.eqb (Py.strip s) ""
            | _, _ => false end); [done|].
  destruct (serializers.read_only f); [done|].
  destruct (match serializers.class f, o with
            | serializers.PrimaryKeyRelatedField _, Some (JStr "") => Some JNull
            | _, _ => o end) as [j|]; [|done].
  destruct j as [|b|z|s]; try done;
    destruct (serializers.class f) as [| |vs|md dp|to|]; simpl; rewrite ?Hv, ?Hq; try done.
  destruct (Py.int_of_str s); by rewrite ?Hq.
Qed.

Lemma validate_fields_db_ext fs partial d1 d2 request_data :
  auth_user d1 = auth_user d2 →
  (∀ k, is_Some (shop_product d1 !! k) ↔ is_Some (shop_product d2 !! k)) →
  serializers.validate_fields fs partial d1 request_data
  = serializers.validate_fields fs partial d2 request_data.
Proof.
  intros Hu Hp. induction fs as [|f fs IH]; [done|].
  simpl. by rewrite IH, (run_validation_db_ext f partial d1 d2).
Qed.

Lemma to_internal_value_db_ext fs partial d1 d2 request_data :
  auth_user d1 = auth_user d2 →
  (∀ k, is_Some (shop_product d1 !! k) ↔ is_Some (shop_product d2 !! k)) →
  serializers.to_internal_value fs partial d1 request_data
  = serializers.to_internal_value fs partial d2 request_data.
Proof.
  intros Hu Hp. unfold serializers.to_internal_value.
  by rewrite (validate_fields_db_ext _ partial d1 d2).
Qed.

Lemma setattrs_idempotent p validated_data :
  ProductSerializer.setattrs (ProductSerializer.setattrs p validated_data) validated_data
  = ProductSerializer.setattrs p validated_data.
Proof.
  unfold ProductSerializer.setattrs. simpl.
  destruct (validated_data !! "name") as [[]|];
    destruct (validated_data !! "price") as [[]|];
    destruct (validated_data !! "user") as [[]|]; reflexivity.
Qed.

(** X9: PUT is idempotent.  Sending the same PUT a second time gives the
    same answer as the first time and leaves the database as the first PUT
    left it, whether the first was a 200, a 400 or a 404. *)
Theorem put_is_idempotent pk request_data d :
  wf_db d →
  let once := dispatch (ProductDetailView.put pk request_data) d in
  dispatch (ProductDetailView.put pk request_data) once.1 = once.
Proof.
  intros Hwf once. subst once.
  rewrite (ProductDetailView_put_dispatch pk request_data d Hwf).
  destruct (shop_product d !! pk) as [p|] eqn:E.
  2:{ cbn [fst]. rewrite (ProductDetailView_put_dispatch pk request_data d Hwf). by rewrite E. }
  destruct (serializers.to_internal_value ProductSerializer.fields true d request_data)
    as [errors|validated_data] eqn:Hv.
  { cbn [fst]. rewrite (ProductDetailView_put_dispatch pk request_data d Hwf).
    by rewrite E, Hv. }
  cbv zeta. cbn [fst].
  set (p' := ProductSerializer.setattrs p validated_data).
  set (d1 := set_shop_product (<[pk := p']>) d).
  assert (serializers.to_internal_value ProductSerializer.fields true d1 request_data
          = inr validated_data) as Hv1.
  { rewrite <- Hv. apply to_internal_value_db_ext; [done|].
    intros k. unfold d1. simpl. destruct (decide (pk = k)) as [<-|Hne].
    - rewrite lookup_insert_eq, E. split; eauto.
    - by rewrite lookup_insert_ne. }
  unfold dispatch. rewrite ProductDetailView_put_cases.
  assert (shop_product d1 !! pk = Some p') as -> by apply lookup_insert_eq.
  rewrite Hv1. cbv zeta.
  assert (ProductSerializer.setattrs p' validated_data = p') as ->
    by apply setattrs_idempotent.
  assert (user_exists (Product.user p') d1 = true) as ->.
  { unfold user_exists, d1. simpl. apply bool_decide_eq_true_2.
    apply user_exists_true. apply (setattrs_user_exists p d request_data _ Hv).
    destruct Hwf as (_ & _ & _ & _ & _ & F2 & _). by apply (F2 pk p). }
  f_equal. unfold d1, set_shop_product. simpl. f_equal. apply insert_insert_eq.
Qed.

Lemma put_is_idempotent_witness :
  let request_data := example.body [("name", JStr "Gadget "); ("price", JInt 3)] in
  let once := dispatch (ProductDetailView.put 1 request_data) (db example.alice_sells) in
  dispatch (ProductDetailView.put 1 request_data) once.1 = once.
Proof.
  intros request_data.
  apply (put_is_idempotent 1 request_data (db example.alice_sells)).
  apply (bool_decide_unpack _). vm_compute. exact I.
Defined.

(** ** Stored products meet the constraints of the model *)

Lemma lstrip_head s :
  match Py.lstrip s with String c _ => Py.isspace c = false | EmptyString => True end.
Proof.
  induction s as [|c s IH]; [done|]. simpl.
  destruct (Py.isspace c) eqn:E; [done|]. by rewrite E.
Qed.

Lemma rstrip_cons c s :
  Py.isspace c = false → Py.rstrip (String c s) = String c (Py.rstrip s).
Proof. intros Hc. simpl. destruct (Py.rstrip s); by rewrite ?Hc. Qed.

Lemma rstrip_idempotent s : Py.rstrip (Py.rstrip s) = Py.rstrip s.
Proof.
  induction s as [|c s IH]; [done|]. simpl.
  destruct (Py.rstrip s) as [|c' r] eqn:E.
  - destruct (Py.isspace c) eqn:Ec; [done|]. simpl. by rewrite Ec.
  - change (Py.rstrip (String c (String c' r)))
      with (match Py.rstrip (String c' r) with
            | EmptyString => if Py.isspace c then EmptyString else String c EmptyString
            | r' => String c r'
            end).
    by rewrite IH.
Qed.

Lemma strip_idempotent s : Py.strip (Py.strip s) = Py.strip s.
Proof.
  unfold Py.strip. pose proof (lstrip_head s) as Hh.
  destruct (Py.lstrip s) as [|c t]; [done|].
  rewrite (rstrip_cons c t Hh). simpl. rewrite Hh.
  rewrite (rstrip_cons c (Py.rstrip t) Hh). by rewrite rstrip_idempotent.
Qed.

Lemma strip_cons_ne c s : Py.isspace c = false → Py.strip (String c s) ≠ "".
Proof.
  intros Hc. unfold Py.strip. simpl. rewrite Hc. by rewrite (rstrip_cons c s Hc).
Qed.

(** The text of an integer is not blank. *)
Lemma strip_pretty_Z_ne (z : Z) : Py.strip (pretty z) ≠ "".
Proof.
  assert (∀ n : N, Py.strip (pretty n) ≠ "") as HN.
  { intros n. destruct (pretty_N_digits n) as (Hd & Hne & _).
    destruct (pretty n) as [|c s]; [done|]. simpl in Hd.
    apply andb_true_iff in Hd as [Hc _].
    apply strip_cons_ne. by destruct (isdigit_cases c Hc) as (? & _). }
  destruct z as [|p|p].
  - done.
  - apply (HN (N.pos p)).
  - unfold pretty, pretty_Z. by apply strip_cons_ne.
Qed.

(** A validated name meets the constraints of Product.name. *)
Lemma name_field_valid partial d o name :
  serializers.run_validation name_field partial d o = serializers.Valid (VStr name) →
  name ≠ "" ∧ Py.strip name = name ∧ (String.length name ≤ 255)%nat
  ∧ Py.contains_char "000"%char name = false.
Proof.
  intros Hv.
  pose proof (run_validation_CharField_validators name_field _ _ _ _ _ eq_refl Hv) as Hrv.
  unfold serializers.run_validators in Hrv. cbn [flat_map serializers.run_validator] in Hrv.
  assert ((String.length name ≤ 255)%nat ∧ Py.contains_char "000"%char name = false)
    as [Hlen Hnul].
  { destruct (255 <? String.length name)%nat eqn:El; [done|].
    destruct (Py.contains_char "000"%char name); [done|].
    apply Nat.ltb_ge in El. done. }
  enough (name ≠ "" ∧ Py.strip name = name) as [? ?] by done.
  revert Hv. unfold serializers.run_validation, name_field.
  cbn [serializers.class serializers.read_only].
  destruct o as [[|b|z|s]|]; try done; try (by destruct partial).
  - cbv iota beta. unfold serializers.field_to_internal_value. cbn [py_str].
    destruct (serializers.run_validators _ _ _); [|done]. intros [= <-].
    split; [apply strip_pretty_Z_ne|apply strip_idempotent].
  - destruct (String.eqb (Py.strip s) "") eqn:Eb; [done|].
    unfold serializers.field_to_internal_value. cbn [py_str].
    destruct (serializers.run_validators _ _ _); [|done]. intros [= <-].
    split; [by apply String.eqb_neq|apply strip_idempotent].
Qed.

Lemma digit_value_le c : Py.isdigit c = true → (Py.digit_value c ≤ 9)%N.
Proof. destruct c as [[] [] [] [] [] [] [] []]; intros; try done; by vm_compute. Qed.

Lemma digits_value_lt ds :
  Py.isdecimal ds = true →
  ∀ acc, (Py.digits_value acc ds < (acc + 1) * 10 ^ N.of_nat (String.length ds))%N.
Proof.
  induction ds as [|c ds IH]; intros Hd acc.
  - simpl. lia.
  - simpl in Hd. apply andb_true_iff in Hd as [Hc Hd].
    pose proof (digit_value_le c Hc) as Hle.
    cbn [Py.digits_value String.length].
    specialize (IH Hd (10 * acc + Py.digit_value c)%N).
    rewrite Nat2N.inj_succ, N.pow_succ_r'.
    assert (0 < 10 ^ N.of_nat (String.length ds))%N by (apply N.neq_0_lt_0, N.pow_nonzero; lia).
    nia.
Qed.

(** A number is below ten to the number of its digits. *)
Lemma lt_pow_ndigits (n : N) : (n < 10 ^ N.of_nat (Py.ndigits n))%N.
Proof.
  destruct (pretty_N_digits n) as (Hd & _ & Hv & _).
  pose proof (digits_value_lt _ Hd 0%N) as Hlt. rewrite Hv in Hlt.
  unfold Py.ndigits. lia.
Qed.

(** A decimal within [max_digits=10, decimal_places=2] has fewer than ten
    digits of hundredths. *)
Lemma validate_precision_bound dec :
  serializers.validate_precision 10 2 dec = None →
  Z.abs (Decimal.unscaled 2 dec) < 10 ^ 10.
Proof.
  unfold serializers.validate_precision, Decimal.unscaled.
  pose proof (lt_pow_ndigits (Decimal.coefficient dec)) as Hlt.
  set (L := Py.ndigits (Decimal.coefficient dec)) in *.
  set (e := Decimal.exponent dec). set (c := Decimal.coefficient dec) in *.
  intros Hp.
  assert (-2 ≤ e ∧ Z.of_nat L + e ≤ 8) as [He HL].
  { revert Hp. destruct (0 <=? e) eqn:E0; [|destruct (Z.abs e <? Z.of_nat L) eqn:E1];
      repeat (match goal with |- context [?a <? ?b] => destruct (Z.ltb_spec a b) end; try done);
      try apply Z.leb_le in E0; try apply Z.leb_gt in E0;
      try apply Z.ltb_lt in E1; try apply Z.ltb_ge in E1; lia. }
  assert (Z.of_N c < 10 ^ Z.of_nat L) as Hc.
  { apply N2Z.inj_lt in Hlt. rewrite N2Z.inj_pow, nat_N_Z in Hlt. exact Hlt. }
  assert (0 ≤ Z.of_N c * 10 ^ (e + Z.of_nat 2) < 10 ^ 10) as Hm.
  { assert (0 < 10 ^ (e + Z.of_nat 2)) by (apply Z.pow_pos_nonneg; lia).
    split; [nia|].
    apply Z.lt_le_trans with (10 ^ Z.of_nat L * 10 ^ (e + Z.of_nat 2)); [nia|].
    rewrite <- Z.pow_add_r by lia. apply Z.pow_le_mono_r; lia. }
  destruct (Decimal.negative dec); lia.
Qed.

(** A validated price meets the constraints of Product.price. *)
Lemma price_field_valid partial d o q :
  serializers.run_validation price_field partial d o = serializers.Valid (VDecimal q) →
  Z.abs (Decimal.unscaled 2 q) < 10 ^ 10.
Proof.
  unfold serializers.run_validation, price_field.
  cbn [serializers.class serializers.read_only].
  destruct o as [j|]; [|by destruct partial].
  destruct j as [|b|z|s]; try done; cbv iota beta;
    unfold serializers.field_to_internal_value;
    (destruct (_ <? _)%nat; [done|]);
    (destruct (Decimal.of_str _) as [dec|]; [|done]);
    (destruct (serializers.validate_precision 10 2 dec) eqn:Ep; [done|]);
    intros [= <-]; rewrite unscaled_quantize; by apply validate_precision_bound.
Qed.

Lemma setattrs_valid partial d request_data validated_data p :
  serializers.to_internal_value ProductSerializer.fields partial d request_data
    = inr validated_data →
  Product_valid p →
  Product_valid (ProductSerializer.setattrs p validated_data).
Proof.
  intros Hv (V1 & V2 & V3 & V4 & V5).
  assert (let name := Product.name (ProductSerializer.setattrs p validated_data) in
          name ≠ "" ∧ Py.strip name = name ∧ (String.length name ≤ 255)%nat
          ∧ Py.contains_char "000"%char name = false) as Hname.
  { unfold ProductSerializer.setattrs. cbn [Product.name].
    destruct (validated_data !! "name") as [v|] eqn:E; [|done].
    destruct (validated_Product_name _ _ _ _ _ Hv E) as (R & name & ->).
    by apply name_field_valid in R. }
  assert (Z.abs (Product.price (ProductSerializer.setattrs p validated_data)) < 10 ^ 10)
    as Hprice.
  { unfold ProductSerializer.setattrs. cbn [Product.price].
    destruct (validated_data !! "price") as [v|] eqn:E; [|done].
    destruct (validated_Product_price _ _ _ _ _ Hv E) as (R & price & ->).
    by apply price_field_valid in R. }
  destruct Hname as (? & ? & ? & ?). by split_and!.
Qed.

Section Constraints.
Context {hasher : PasswordHasher}.

Lemma products_valid_serve env r st :
  products_valid (db st) → products_valid (db (serve env r st).1).
Proof.
  intros Hv. rewrite serve_db. destruct r as [rd|rd| |rd|pk|pk rd|pk|rd|pk|pk].
  - rewrite <- dispatch_fst.
    by destruct (UserCreateView_post_cases env rd (db st))
      as [(? & _ & ->)|(? & ? & _ & _ & _ & ->)].
  - destruct (truthy (data_get "username" rd)) eqn:Hu;
      [destruct (truthy (data_get "password" rd)) eqn:Hp|].
    + destruct (authenticate (data_get "username" rd) (data_get "password" rd) (db st))
        as [[pk u]|] eqn:Ha.
      * by rewrite (post_success _ _ _ _ _ _ Hu Hp Ha).
      * by rewrite (post_failed _ _ _ _ Hu Hp Ha).
    + rewrite post_missing; [done|by right].
    + rewrite post_missing; [done|by left].
  - done.
  - rewrite <- dispatch_fst.
    destruct (ProductListView_post_cases rd (db st))
      as [(? & _ & ->)|(name & price & user & R1 & R2 & _ & _ & ->)]; [done|].
    apply map_Forall_insert_2; [|done].
    apply name_field_valid in R1 as (? & ? & ? & ?). apply price_field_valid in R2.
    by split_and!.
  - rewrite <- dispatch_fst. destruct (shop_product (db st) !! pk) as [p|] eqn:E.
    + by rewrite (ProductDetailView_get_found _ _ _ E).
    + by rewrite (ProductDetailView_get_missing _ _ E).
  - rewrite ProductDetailView_put_cases.
    destruct (shop_product (db st) !! pk) as [p|] eqn:E; [|done].
    destruct (serializers.to_internal_value _ _ _ _) as [errors|vd] eqn:Hvd; [done|].
    cbv zeta. destruct (user_exists _ _); [|done].
    apply map_Forall_insert_2; [|done].
    eapply setattrs_valid; [done|]. by apply (Hv pk).
  - rewrite <- dispatch_fst. destruct (shop_product (db st) !! pk) as [p|] eqn:E.
    + rewrite (ProductDetailView_delete_found _ _ _ E).
      by apply map_Forall_delete.
    + by rewrite (ProductDetailView_delete_missing _ _ E).
  - rewrite <- dispatch_fst.
    by destruct (SaleCreateView_post_cases env rd (db st))
      as [(? & _ & ->)|(? & ? & _ & _ & _ & _ & ->)].
  - rewrite <- dispatch_fst. destruct (shop_sale (db st) !! pk) as [s|] eqn:E.
    + by rewrite (SaleDetailView_get_found _ _ _ E).
    + by rewrite (SaleDetailView_get_missing _ _ E).
  - rewrite <- dispatch_fst. destruct (auth_user (db st) !! pk) as [u|] eqn:E.
    + rewrite (admin_delete_user_found _ _ _ E).
      intros k p [Hk _]%map_lookup_filter_Some. by apply (Hv k).
    + by rewrite (admin_delete_user_missing _ _ E).
Qed.

(** X10: the constraints that models.py puts on a product hold of every row
    the server stores.  If every product of the database has a name that is
    not blank, has no surrounding whitespace, at most 255 characters and no
    NUL character, and a price of fewer than ten digits of hundredths
    (max_digits=10, decimal_places=2), then this still holds after any
    requests, in any order. *)
Theorem stored_products_meet_the_model_constraints trace st :
  products_valid (db st) →
  ∀ pk p, shop_product (db (run trace st)) !! pk = Some p →
    Product.name p ≠ ""
    ∧ Py.strip (Product.name p) = Product.name p
    ∧ (String.length (Product.name p) ≤ 255)%nat
    ∧ Py.contains_char "000"%char (Product.name p) = false
    ∧ - 10 ^ 10 < Product.price p < 10 ^ 10.
Proof.
  intros Hv.
  assert (products_valid (db (run trace st))) as Hrun.
  { revert st Hv. induction trace as [|[env r] trace IH]; intros st Hv; simpl; [done|].
    by apply IH, products_valid_serve. }
  intros pk p E. destruct (Hrun pk p E) as (? & ? & ? & ? & ?). split_and!; try done; lia.
Qed.

End Constraints.

Lemma stored_products_meet_the_model_constraints_witness :
  let trace :=
    [(example.env,
      PUT_product 1 (example.body [("name", JStr "  Gadget  "); ("price", JInt 7)]))] in
  let p := Product.mk "Gadget" 700 1 in
  shop_product (db (run (hasher := example_hasher.hasher) trace example.alice_sells)) !! 1%nat
  = Some p
  ∧ Product.name p ≠ ""
  ∧ Py.strip (Product.name p) = Product.name p
  ∧ (String.length (Product.name p) ≤ 255)%nat
  ∧ Py.contains_char "000"%char (Product.name p) = false
  ∧ - 10 ^ 10 < Product.price p < 10 ^ 10.
Proof.
  intros trace p. split; [vm_compute; reflexivity|].
  apply (stored_products_meet_the_model_constraints (hasher := example_hasher.hasher)
           trace example.alice_sells
           ltac:(apply (bool_decide_unpack _); vm_compute; exact I) 1%nat p).
  vm_compute. reflexivity.
Defined.

(** ** Reading a product and writing it back *)

Lemma run_validation_name_of_valid partial d name :
  name ≠ "" → Py.strip name = name → (String.length name ≤ 255)%nat →
  Py.contains_char "000"%char name = false →
  serializers.run_validation name_field partial d (Some (JStr name))
  = serializers.Valid (VStr name).
Proof.
  intros V1 V2 V3 V4. unfold serializers.run_validation, name_field.
  cbn [serializers.class serializers.read_only]. rewrite V2.
  apply String.eqb_neq in V1. rewrite V1.
  unfold serializers.field_to_internal_value. cbn [py_str]. rewrite V2.
  unfold serializers.run_validators. cbn [flat_map serializers.run_validator].
  apply Nat.ltb_ge in V3. by rewrite V3, V4.
Qed.

(** X11: writing back what was read changes nothing.  On a well-formed
    database whose products meet the constraints of the model, a PUT to a
    product with a body that holds, under each key of the product's GET
    representation, the same JSON value (and any other keys), is answered
    200 with that same representation, and the database is as before. *)
Theorem put_of_the_representation_changes_nothing pk p d request_data :
  wf_db d → products_valid d →
  shop_product d !! pk = Some p →
  Forall (λ kn, ∃ j, request_data !! kn.1 = Some j ∧ same_json j kn.2 = true)
         (ProductSerializer.to_representation pk p) →
  dispatch (ProductDetailView.get pk) d
  = (d, mkResponse (Object (ProductSerializer.to_representation pk p)) HTTP_200_OK)
  ∧ dispatch (ProductDetailView.put pk request_data) d
    = (d, mkResponse (Object (ProductSerializer.to_representation pk p)) HTTP_200_OK).
Proof.
  intros Hwf Hpv E Hsent. split; [by apply ProductDetailView_get_found|].
  destruct (Hpv pk p E) as (V1 & V2 & V3 & V4 & V5).
  assert (is_Some (auth_user d !! Product.user p)) as Hu.
  { destruct Hwf as (_ & _ & _ & _ & _ & F2 & _). by apply (F2 pk p). }
  rewrite ProductSerializer_to_representation in Hsent.
  apply Forall_cons in Hsent as [_ Hsent].
  apply Forall_cons in Hsent as [(jn & Hn & Sn) Hsent].
  apply Forall_cons in Hsent as [(jp & Hp & Sp) Hsent].
  apply Forall_cons in Hsent as [(ju & Hju & Su) _].
  cbn [fst snd] in *.
  destruct jn as [| | |name]; try done. apply String.eqb_eq in Sn as ->.
  destruct jp as [| | |text]; try done. apply String.eqb_eq in Sp as ->.
  destruct ju as [| |z|]; try done. apply Z.eqb_eq in Su as ->.
  pose proof (run_validation_name_of_valid true d _ V1 V2 V3 V4) as R1.
  pose proof (run_validation_price_format_f true d _ V5) as R2.
  pose proof (run_validation_user_of_row true d _ Hu) as R3.
  rewrite <- Hn in R1. rewrite <- Hp in R2. rewrite <- Hju in R3.
  rewrite ProductDetailView_put_dispatch by done. rewrite E.
  destruct (serializers.to_internal_value _ _ _ _) as [errors|validated_data] eqn:Hv.
  - exfalso. apply to_internal_value_inl in Hv as (Hne & ret & Hv).
    destruct errors as [|[k codes] errors]; [done|].
    destruct (validate_fields_errors _ _ _ _ _ _ k codes Hv) as (f & Hin & <- & Hf);
      [by left|].
    rewrite ProductSerializer_writable in Hin.
    apply elem_of_cons in Hin as [->|Hin];
      [change (serializers.field_name name_field) with "name" in Hf; by rewrite R1 in Hf|].
    apply elem_of_cons in Hin as [->|Hin];
      [change (serializers.field_name price_field) with "price" in Hf; by rewrite R2 in Hf|].
    apply elem_of_cons in Hin as [->|Hin];
      [change (serializers.field_name user_field) with "user" in Hf; by rewrite R3 in Hf|].
    by apply elem_of_nil in Hin.
  - pose proof (validated_supplied _ _ _ name_field _ Hv ltac:(pick_in) R1) as L1.
    pose proof (validated_supplied _ _ _ price_field _ Hv ltac:(pick_in) R2) as L2.
    pose proof (validated_supplied _ _ _ user_field _ Hv ltac:(pick_in) R3) as L3.
    change (validated_data !! "name" = Some (VStr (Product.name p))) in L1.
    change (validated_data !! "price"
            = Some (VDecimal (Decimal.from_db 2 (Product.price p)))) in L2.
    change (validated_data !! "user" = Some (VRef (Product.user p))) in L3.
    cbv zeta. rewrite (ProductSerializer_data pk p _ _ _ _ Hv). cbv zeta.
    assert (ProductSerializer.setattrs p validated_data = p) as ->.
    { unfold ProductSerializer.setattrs. rewrite L1, L2, L3, unscaled_from_db.
      by destruct p. }
    rewrite L2, to_str_from_db, ProductSerializer_to_representation.
    f_equal. destruct d. unfold set_shop_product. cbn in *. f_equal. by apply insert_id.
Qed.

Lemma put_of_the_representation_changes_nothing_witness :
  let d := db example.alice_sells in
  let sent := example.body [("id", JInt 1); ("name", JStr "Widget");
                            ("price", JStr "12.50"); ("user", JInt 1);
                            ("note", JStr "unchanged")] in
  dispatch (ProductDetailView.get 1) d
  = (d, mkResponse (Object (ProductSerializer.to_representation 1
                              (Product.mk "Widget" 1250 1))) HTTP_200_OK)
  ∧ dispatch (ProductDetailView.put 1 sent) d
    = (d, mkResponse (Object (ProductSerializer.to_representation 1
                                (Product.mk "Widget" 1250 1))) HTTP_200_OK).
Proof.
  apply (put_of_the_representation_changes_nothing 1 (Product.mk "Widget" 1250 1)).
  - apply (bool_decide_unpack _). vm_compute. exact I.
  - apply (bool_decide_unpack _). vm_compute. exact I.
  - vm_compute. reflexivity.
  - repeat constructor; eexists; (split; [vm_compute; reflexivity|reflexivity]).
Defined.

(** ** URLs *)


Lemma strip_prefix_Some t s r : urls.strip_prefix t s = Some r → s = t ++ r.
Proof.
  revert s. induction t as [|a t IH]; intros s; simpl.
  - by intros [= ->].
  - destruct s as [|b s]; [done|].
    destruct (Ascii.eqb_spec a b) as [->|]; [|done].
    intros ->%IH. done.
Qed.


(** What the int converter matched is a string of digits, and the argument
    is the number they denote after the first digit. *)
Lemma int_match_Some rest_match name s m :
  ∀ value,
    urls.int_match rest_match name value s = Some m →
    ∃ ds rest kw,
      s = ds ++ rest ∧ Py.isdecimal ds = true
      ∧ rest_match rest = Some (m.1, kw)
      ∧ m.2 = (name, N.to_nat (Py.digits_value value ds)) :: kw.
Proof.
  assert (∀ value s, (λ m, (m.1, (name, N.to_nat value) :: m.2)) <$> rest_match s = Some m →
            ∃ ds rest kw,
              s = ds ++ rest ∧ Py.isdecimal ds = true
              ∧ rest_match rest = Some (m.1, kw)
              ∧ m.2 = (name, N.to_nat (Py.digits_value value ds)) :: kw) as Hstop.
  { intros value s0 Hs. destruct (rest_match s0) as [[r kw]|] eqn:E; [|done].
    injection Hs as <-. by exists "", s0, kw. }
  induction s as [|c s IH]; intros value; cbn [urls.int_match].
  - apply Hstop.
  - destruct (Py.isdigit c) eqn:Hc; [|apply Hstop].
    destruct (urls.int_match rest_match name _ s) as [m'|] eqn:E; [|apply Hstop].
    intros [= ->]. destruct (IH _ E) as (ds & rest & kw & -> & Hd & Hr & Hk).
    exists (String c ds), rest, kw. split_and!; try done. simpl. by rewrite Hc.
Qed.

(** The route [<literal><int:pk>/] of the two detail views. *)
Lemma detail_route_Some text s m :
  urls.route_match true
    [urls.Literal text; urls.IntConverter "pk"; urls.Literal "/"] s = Some m →
  ∃ ds, ds ≠ "" ∧ Py.isdecimal ds = true ∧ s = text ++ ds ++ "/"
        ∧ m = ("", [("pk", N.to_nat (Py.digits_value 0 ds))]).
Proof.
  cbn [urls.route_match].
  destruct (urls.strip_prefix text s) as [s'|] eqn:E; [|done].
  apply strip_prefix_Some in E as ->.
  destruct s' as [|c s']; [done|]. destruct (Py.isdigit c) eqn:Hc; [|done].
  intros (ds & rest & kw & -> & Hd & Hr & Hk)%int_match_Some.
  destruct (urls.strip_prefix "/" rest) as [r|] eqn:Er; [|done].
  apply strip_prefix_Some in Er as ->. destruct r; [|done]. injection Hr as Hm <-.
  exists (String c ds). split_and!; try done.
  - simpl. by rewrite Hc.
  - destruct m as [m1 m2]. simpl in *. by subst.
Qed.






Section Http.
Context {hasher : PasswordHasher}.

(** The GET handlers write nothing. *)
Lemma serve_GET env r st :
  match r with GET_products | GET_product _ | GET_sale _ => True | _ => False end →
  (serve env r st).1 = st.
Proof.
  intros Hr. rewrite serve_plain by (by destruct r). destruct st as [d s].
  destruct r; try done; cbv zeta; cbn [db session fst].
  - destruct (shop_product d !! pk) as [p|] eqn:E.
    + by rewrite (ProductDetailView_get_found _ _ _ E).
    + by rewrite (ProductDetailView_get_missing _ _ E).
  - destruct (shop_sale d !! pk) as [x|] eqn:E.
    + by rewrite (SaleDetailView_get_found _ _ _ E).
    + by rewrite (SaleDetailView_get_missing _ _ E).
Qed.


(** Under a method other than POST, PUT and DELETE a view has only its GET
    handler, if any. *)
Lemma get_handler_reads v m kwargs request_data :
  m ≠ POST → m ≠ PUT → m ≠ DELETE →
  match get_handler v m kwargs request_data with
  | view_method r =>
      match r with GET_products | GET_product _ | GET_sale _ => True | _ => False end
  | _ => True
  end.
Proof.
  intros. destruct v, m; try done; unfold get_handler; by destruct (snd <$> find _ kwargs).
Qed.

(** X13: only POST, PUT and DELETE change anything.  Whatever the URL and
    the body, a request with any other method (GET, HEAD, OPTIONS, PATCH,
    TRACE or an unknown one) that reaches a view of shop/views.py leaves the
    database and the session as they were. *)
Theorem only_post_put_delete_change_the_state env m path_info request_data st :
  m ≠ POST → m ≠ PUT → m ≠ DELETE →
  match handle env m path_info request_data st with
  | Some (st', _) => st' = st
  | None => True
  end.
Proof.
  intros H1 H2 H3. unfold handle.
  destruct (resolve path_info) as [[[v| |] kw n]|]; try done.
  pose proof (get_handler_reads v m kw request_data H1 H2 H3) as Hr.
  destruct (get_handler v m kw request_data) as [r| | |]; try done.
  pose proof (serve_GET env r st Hr) as Hs. by destruct (serve env r st).
Qed.

End Http.


Lemma only_post_put_delete_change_the_state_witness :
  match handle (hasher := example_hasher.hasher) example.env
          HEAD "/api/products/1/" ∅ example.alice_sells with
  | Some (st', _) => st' = example.alice_sells
  | None => True
  end.
Proof.
  apply (only_post_put_delete_change_the_state (hasher := example_hasher.hasher)); done.
Defined.

(** X14: the URLs of the API.  A path leads to a view of shop/views.py only
    if it is one of the four fixed paths under /api/, or /api/products/ or
    /api/sales/ followed by one or more ASCII digits and a slash; the view's
    [pk] is then the number that the digits denote.  So a path without the
    final slash, with a sign, a letter or nothing for the key reaches no
    view. *)
Theorem urls_of_the_api path_info m v :
  resolve path_info = Some m →
  urls.func m = as_view v →
  match v with
  | views.UserCreateView =>
      path_info = "/api/users/create/" ∧ urls.kwargs m = [] ∧ urls.url_name m = "user-create"
  | views.UserLoginView =>
      path_info = "/api/users/login/" ∧ urls.kwargs m = [] ∧ urls.url_name m = "user-login"
  | views.ProductListView =>
      path_info = "/api/products/" ∧ urls.kwargs m = [] ∧ urls.url_name m = "product-list"
  | views.ProductDetailView =>
      ∃ ds, ds ≠ "" ∧ Py.isdecimal ds = true
            ∧ path_info = "/api/products/" ++ ds ++ "/"
            ∧ urls.kwargs m = [("pk", N.to_nat (Py.digits_value 0 ds))]
            ∧ urls.url_name m = "product-detail"
  | views.SaleCreateView =>
      path_info = "/api/sales/" ∧ urls.kwargs m = [] ∧ urls.url_name m = "sale-create"
  | views.SaleDetailView =>
      ∃ ds, ds ≠ "" ∧ Py.isdecimal ds = true
            ∧ path_info = "/api/sales/" ++ ds ++ "/"
            ∧ urls.kwargs m = [("pk", N.to_nat (Py.digits_value 0 ds))]
            ∧ urls.url_name m = "sale-detail"
  end.
Proof.
  assert (∀ text s x, urls.route_match true [urls.Literal text] s = Some x →
                      s = text ∧ x.2 = []) as Hfix.
  { intros text s x. cbn [urls.route_match].
    destruct (urls.strip_prefix text s) as [r|] eqn:E; [|done].
    apply strip_prefix_Some in E as ->. destruct r; [|done]. intros [= <-].
    by rewrite app_nil_r. }
  assert (∀ text s x, urls.route_match false [urls.Literal text] s = Some x →
                      s = text ++ x.1 ∧ x.2 = []) as Hpre.
  { intros text s x. cbn [urls.route_match].
    destruct (urls.strip_prefix text s) as [r|] eqn:E; [|done].
    apply strip_prefix_Some in E as ->. by intros [= <-]. }
  intros Hres Hf.
  unfold resolve, myproject_urls.urlpatterns, shop_urls.urlpatterns in Hres.
  cbn [urls.resolve] in Hres.
  destruct (urls.route_match false [urls.Literal "/"] path_info) as [[p kw0]|] eqn:E0;
    [|done].
  apply Hpre in E0 as [-> E0]. cbn [fst snd] in *. subst kw0. cbn [app] in *.
  destruct (urls.route_match false [urls.Literal "admin/"] p) as [[? ?]|];
    [injection Hres as <-; done|].
  destruct (urls.route_match false [urls.Literal "api/"] p) as [[rest kw1]|] eqn:E1.
  2:{ destruct (urls.route_match true [urls.Literal "swagger/"] p) as [[? ?]|];
        [injection Hres as <-; done|].
      destruct (urls.route_match true [urls.Literal "redoc/"] p) as [[? ?]|];
        [injection Hres as <-; done|done]. }
  apply Hpre in E1 as [-> E1]. cbn [fst snd] in *. subst kw1. cbn [app] in *.
  destruct (urls.route_match true [urls.Literal "users/create/"] rest) as [[? kw]|] eqn:R1.
  { apply Hfix in R1 as [-> R1]. cbn in R1. subst kw.
    injection Hres as <-. by injection Hf as <-. }
  destruct (urls.route_match true [urls.Literal "users/login/"] rest) as [[? kw]|] eqn:R2.
  { apply Hfix in R2 as [-> R2]. cbn in R2. subst kw.
    injection Hres as <-. by injection Hf as <-. }
  destruct (urls.route_match true [urls.Literal "products/"] rest) as [[? kw]|] eqn:R3.
  { apply Hfix in R3 as [-> R3]. cbn in R3. subst kw.
    injection Hres as <-. by injection Hf as <-. }
  destruct (urls.route_match true
              [urls.Literal "products/"; urls.IntConverter "pk"; urls.Literal "/"] rest)
    as [[? kw]|] eqn:R4.
  { apply detail_route_Some in R4 as (ds & Hne & Hd & -> & [= -> ->]).
    injection Hres as <-. injection Hf as <-. by exists ds. }
  destruct (urls.route_match true [urls.Literal "sales/"] rest) as [[? kw]|] eqn:R5.
  { apply Hfix in R5 as [-> R5]. cbn in R5. subst kw.
    injection Hres as <-. by injection Hf as <-. }
  destruct (urls.route_match true
              [urls.Literal "sales/"; urls.IntConverter "pk"; urls.Literal "/"] rest)
    as [[? kw]|] eqn:R6.
  { apply detail_route_Some in R6 as (ds & Hne & Hd & -> & [= -> ->]).
    injection Hres as <-. injection Hf as <-. by exists ds. }
  destruct (urls.route_match true [urls.Literal "swagger/"] ("api/" ++ rest)) as [[? ?]|];
    [injection Hres as <-; done|].
  destruct (urls.route_match true [urls.Literal "redoc/"] ("api/" ++ rest)) as [[? ?]|];
    [injection Hres as <-; done|done].
Qed.

Lemma urls_of_the_api_witness :
  ∃ ds, ds ≠ "" ∧ Py.isdecimal ds = true
        ∧ "/api/products/007/" = "/api/products/" ++ ds ++ "/"
        ∧ [("pk", 7%nat)] = [("pk", N.to_nat (Py.digits_value 0 ds))]
        ∧ "product-detail" = "product-detail".
Proof.
  apply (urls_of_the_api "/api/products/007/"
           (urls.mkMatch (as_view views.ProductDetailView) [("pk", 7%nat)] "product-detail")
           views.ProductDetailView); reflexivity.
Defined.

(** ** What a serializer reads of a body *)

Section Ignored.
Context {hasher : PasswordHasher}.

Lemma serve_plain_ext env (r1 r2 : Request) (h1 h2 : orm Response) st :
  (∀ st', serve env r1 st' = let out := dispatch h1 (db st') in
                             (mkState out.1 (session st'), out.2)) →
  (∀ st', serve env r2 st' = let out := dispatch h2 (db st') in
                             (mkState out.1 (session st'), out.2)) →
  h1 (db st) = h2 (db st) →
  serve env r1 st = serve env r2 st.
Proof. intros -> -> E. unfold dispatch. by rewrite E. Qed.

(** X15: a serializer reads the fields it can write, and nothing else.  Two
    bodies that agree on [username] and [password] get the same answer from
    POST /api/users/create/ and leave the same state; so do two bodies that
    agree on [name], [price] and [user] at POST /api/products/ and at PUT
    /api/products/<pk>/, and two that agree on [product] and [user] at POST
    /api/sales/.  In particular an [id] or a [sale_date] in a body changes
    nothing. *)
Theorem a_serializer_reads_only_its_writable_fields env st data1 data2 :
  let same_on (names : list string) := ∀ key, key ∈ names → data1 !! key = data2 !! key in
  (same_on ["username"; "password"] →
   serve env (POST_users_create data1) st = serve env (POST_users_create data2) st)
  ∧ (same_on ["name"; "price"; "user"] →
     serve env (POST_products data1) st = serve env (POST_products data2) st
     ∧ ∀ pk, serve env (PUT_product pk data1) st = serve env (PUT_product pk data2) st)
  ∧ (same_on ["product"; "user"] →
     serve env (POST_sales data1) st = serve env (POST_sales data2) st).
Proof.
  intros same_on.
  assert (∀ fs partial,
            same_on (serializers.field_name <$> serializers.writable_fields fs) →
            serializers.to_internal_value fs partial (db st) data1
            = serializers.to_internal_value fs partial (db st) data2) as Hext.
  { intros fs partial Hs. apply to_internal_value_ext. intros f Hf.
    apply Hs. by apply list_elem_of_fmap_2. }
  split_and!.
  - intros Hs.
    apply (serve_plain_ext env _ _ (UserCreateView.post env data1)
             (UserCreateView.post env data2)); [by intros; rewrite serve_plain..|].
    unfold UserCreateView.post, CreateModelMixin_create.
    rewrite !bind_query. by rewrite (Hext UserSerializer.fields false Hs).
  - intros Hs. split; [|intros pk].
    + apply (serve_plain_ext env _ _ (ProductListView.post data1)
               (ProductListView.post data2)); [by intros; rewrite serve_plain..|].
      unfold ProductListView.post, CreateModelMixin_create.
      rewrite !bind_query. by rewrite (Hext ProductSerializer.fields false Hs).
    + apply (serve_plain_ext env _ _ (ProductDetailView.put pk data1)
               (ProductDetailView.put pk data2)); [by intros; rewrite serve_plain..|].
      rewrite !ProductDetailView_put_cases. by rewrite (Hext ProductSerializer.fields true Hs).
  - intros Hs.
    apply (serve_plain_ext env _ _ (SaleCreateView.post env data1)
             (SaleCreateView.post env data2)); [by intros; rewrite serve_plain..|].
    unfold SaleCreateView.post, CreateModelMixin_create.
    rewrite !bind_query. by rewrite (Hext SaleSerializer.fields false Hs).
Qed.

End Ignored.

Lemma a_serializer_reads_only_its_writable_fields_witness :
  let sent := example.body [("name", JStr "Gadget"); ("price", JStr "3.20"); ("user", JInt 1)] in
  serve (hasher := example_hasher.hasher) example.env
    (POST_products (<["id" := JInt 1]> sent)) example.alice_sells
  = serve (hasher := example_hasher.hasher) example.env
      (POST_products sent) example.alice_sells.
Proof.
  intros sent.
  apply (a_serializer_reads_only_its_writable_fields (hasher := example_hasher.hasher)
           example.env example.alice_sells (<["id" := JInt 1]> sent) sent).
  intros key Hkey. apply lookup_insert_ne. intros <-.
  by repeat (apply elem_of_cons in Hkey as [?|Hkey]; [done|]); apply elem_of_nil in Hkey.
Defined.
